(** * P47H vault-js: the vault engine and its guards, sessions and envelopes

    A shallow embedding of the TypeScript sources of [@p47h/vault-js], and
    of the controller of [@p47h/vault-react] on top of it:

    - [domain/errors.ts]                       -> module [Errors]
    - [domain/types.ts], [application/types.ts] -> module [Types]
    - [domain/IStorage.ts]                     -> class [IStorage]
    - [application/ports/ICryptoPort.ts]       -> class [ICryptoPort]
    - [utils/encoding.ts]                      -> module [Encoding]
    - [application/services/SessionManager.ts] -> module [SessionManager]
    - [application/use-cases/*.ts]             -> modules [LoginUseCase],
      [RecoverAccountUseCase], [SecretManagementUseCase],
      [RegisterIdentityUseCase] (and [RecoveryCode], the code generator two
      of them share)
    - [logic/VaultFacade.ts]                   -> module [VaultFacade]
    - [domain/IVault.ts]                       -> module [IVault]
    - [adapters/WasmCryptoAdapter.ts]          -> module [WasmCryptoAdapter]
    - [logic/VaultService.ts] (the session fields and [lock])
                                               -> module [VaultService]
    - [adapters/IndexedDbStorage.ts]           -> module [BrowserStorage]
    - [tests/mocks/MockStorage.ts], [tests/mocks/MockWasmAdapter.ts]
                                               -> modules [MockStorage],
                                                  [MockWasmAdapter]
    - vault-react: [types/state.ts], [types/events.ts],
      [internal/VaultEventEmitter.ts], [internal/VaultController.ts]
                                               -> module [VaultReact]

    Every method is a computation in a state-and-exception monad: a JavaScript
    [throw] leaves the mutations made so far in place, so a computation
    returns its outcome together with the state it reached.  [async] methods
    run one after the other on one engine, and are modelled by their
    sequential reading.

    The properties follow the definitions: the guards of the facade (C6,
    C10), session teardown (C7), the resolution of the target identifier
    (C9), the failures of login (C2, C3, C4), the session cache and the
    store (C8), recovery (C1) and the envelope under secret mutations
    (C5).  The second part goes further into the same code: what login,
    registration and recovery leave behind when they return and when they
    throw, what the secret operations persist, the invariants of the facade,
    the WASM and IndexedDB adapters, round trips through the store under
    laws of the ports, and the event emitter and controller of
    vault-react. *)

From Stdlib Require Import ZArith String Ascii List Bool DecimalString.
From Stdlib Require DecimalPos DecimalZ.
From Stdlib.Strings Require Import Byte.
From stdpp Require Import base option list gmap strings.

Open Scope string_scope.

(** Contents of a [Uint8Array]. *)
Abbreviation bytes := (list byte).

#[export] Instance byte_eq_decision : EqDecision byte := Byte.byte_eq_dec.

(* ===================================================================== *)
(** ** domain/errors.ts *)
(* ===================================================================== *)

Module Errors.

  (** The class of a thrown vault error ([instanceof] distinguishes them). *)
Inductive ErrorClass :=
  | VaultErrorC | InitializationErrorC | AuthenticationErrorC
  | NotAuthenticatedErrorC | StorageErrorC | CryptoErrorC.

  (** A thrown value: an instance of [VaultError] (or of a subclass) with its
      [message], [code] and [cause], or an exception of the platform
      ([SyntaxError] of [JSON.parse], [TypeError], the [DOMException] of
      [atob], a trap of the WASM module...). *)
#[warnings="-register-all"]
Inductive exn :=
  | Vault (cls : ErrorClass) (message code : string) (cause : option exn)
  | Foreign (name : string).

Definition VaultError (message code : string) : exn :=
    Vault VaultErrorC message code None.
Definition InitializationError (message : string) (cause : option exn) : exn :=
    Vault InitializationErrorC message "VAULT_INIT_ERROR" cause.
Definition AuthenticationError (message : string) : exn :=
    Vault AuthenticationErrorC message "AUTH_FAILED" None.
Definition NotAuthenticatedError : exn :=
    Vault NotAuthenticatedErrorC "Vault is locked. Unlock it first." "VAULT_LOCKED" None.
Definition StorageError (message : string) (cause : option exn) : exn :=
    Vault StorageErrorC message "STORAGE_ERROR" cause.
Definition CryptoError (message : string) (cause : option exn) : exn :=
    Vault CryptoErrorC message "CRYPTO_ERROR" cause.

  (** [e.code], when [e] is a vault error. *)
Definition code_of (e : exn) : option string :=
    match e with Vault _ _ c _ => Some c | Foreign _ => None end.

  (** [e instanceof AuthenticationError] and the like. *)
Definition instanceof (e : exn) (c : ErrorClass) : bool :=
    match e with
    | Vault c' _ _ _ =>
        match c, c' with
        | VaultErrorC, _ => true
        | InitializationErrorC, InitializationErrorC
        | AuthenticationErrorC, AuthenticationErrorC
        | NotAuthenticatedErrorC, NotAuthenticatedErrorC
        | StorageErrorC, StorageErrorC
        | CryptoErrorC, CryptoErrorC => true
        | _, _ => false
        end
    | Foreign _ => false
    end.

  (** The error kinds of the specification, read off the thrown value. *)
Definition is_AuthenticationFailed (e : exn) : Prop :=
    instanceof e AuthenticationErrorC = true /\ code_of e = Some "AUTH_FAILED".
Definition is_CorruptData (e : exn) : Prop := code_of e = Some "CORRUPT_DATA".
Definition is_IntegrityError (e : exn) : Prop := code_of e = Some "INTEGRITY_ERROR".
Definition is_Disposed (e : exn) : Prop := code_of e = Some "DISPOSED".
Definition is_CryptoError (e : exn) : Prop :=
    instanceof e CryptoErrorC = true /\ code_of e = Some "CRYPTO_ERROR".
Definition is_StorageFailure (e : exn) : Prop := code_of e = Some "STORAGE_ERROR".

End Errors.
Export Errors.

(* ===================================================================== *)
(** ** Outcomes and the state-and-exception monad *)
(* ===================================================================== *)

(** The outcome of a call: a returned value or a thrown exception. *)
Inductive Res (A : Type) :=
| Ok (a : A)
| Throw (e : exn).
Arguments Ok {A} a.
Arguments Throw {A} e.

(** A method running on a state [Σ]. *)
Definition M (Σ A : Type) : Type := Σ -> Res A * Σ.

Definition ret {Σ A} (a : A) : M Σ A := fun σ => (Ok a, σ).
Definition raise {Σ A} (e : exn) : M Σ A := fun σ => (Throw e, σ).
Definition bind {Σ A B} (m : M Σ A) (k : A -> M Σ B) : M Σ B :=
  fun σ => match m σ with
           | (Ok a, σ') => k a σ'
           | (Throw e, σ') => (Throw e, σ')
           end.
(** [try { m } catch (e) { h e }] *)
Definition try_catch {Σ A} (m : M Σ A) (h : exn -> M Σ A) : M Σ A :=
  fun σ => match m σ with
           | (Ok a, σ') => (Ok a, σ')
           | (Throw e, σ') => h e σ'
           end.
Definition gets {Σ A} (f : Σ -> A) : M Σ A := fun σ => (Ok (f σ), σ).
Definition modify {Σ} (f : Σ -> Σ) : M Σ unit := fun σ => (Ok tt, f σ).

Declare Scope vault_scope.
Delimit Scope vault_scope with vault.
Notation "x <- m ;; k" := (bind m (fun x => k))
  (at level 100, m at next level, right associativity) : vault_scope.
Notation "m ;;; k" := (bind m (fun _ => k))
  (at level 100, right associativity) : vault_scope.
Open Scope vault_scope.

(* ===================================================================== *)
(** ** domain/types.ts and application/types.ts *)
(* ===================================================================== *)

Module Types.

  (** [EncryptedVaultBlob]: the persisted envelope. *)
Record EncryptedVaultBlob := mkBlob {
    version : Z;
    did : string;
    salt : string;
    wrappedData : string;
    recoveryBlob : option string;
    updatedAt : Z }.

  (** [VaultInternalData]: the JSON payload under the envelope's
      encryption.  [secrets] is a [Record<string, string>], read and written
      by key only; it is a finite map. *)
Record VaultInternalData := mkInternal {
    i_did : string;
    i_wrappedSecret : string;
    i_salt : string;
    i_secrets : gmap string string;
    i_createdAt : Z }.

Record IdentityInfo := mkIdentityInfo {
    info_did : string;
    info_publicKey : bytes }.

Record RegistrationResult := mkRegistrationResult {
    reg_did : string;
    reg_recoveryCode : string }.

Record RecoveryOptions := mkRecoveryOptions {
    recoveryCode : string;
    newPassword : string;
    opt_did : option string;
    rotateRecoveryCode : option bool }.

Record RecoveryResult := mkRecoveryResult {
    rec_did : string;
    newRecoveryCode : option string }.

Definition RECOVERY_CODE_PREFIX : string := "RK".
Definition RECOVERY_CODE_BYTES : nat := 16.

End Types.
Export Types.

(* ===================================================================== *)
(** ** The ports and the platform *)
(* ===================================================================== *)

(** [IStorage]: the storage port, over the state [S] of the store. *)
Module IStorage.
Class IStorage (S : Type) := {
    save : string -> EncryptedVaultBlob -> S -> Res unit * S;
    get : string -> S -> Res (option EncryptedVaultBlob) * S;
    remove : string -> S -> Res unit * S;
    listKeys : S -> Res (list string) * S;
    clear : S -> Res unit * S }.
End IStorage.
Abbreviation IStorage := IStorage.IStorage.

(** [ICryptoPort] together with [ICryptoClient]: the crypto port, over the
    state [C] of the provider (its memory, its random source).  [Client] is
    the type of the handles it gives out.  [init] receives the [wasmPath] of
    the configuration, which the facade uses to build the adapter it then
    initialises. *)
Module ICryptoPort.
Class ICryptoPort (C Client : Type) := {
    init : option string -> C -> Res unit * C;
    createIdentity : C -> Res Client * C;
    restoreIdentity : bytes -> bytes -> C -> Res Client * C;
    deriveSessionKey : string -> bytes -> C -> Res bytes * C;
    encryptVault : bytes -> string -> C -> Res bytes * C;
    decryptVault : bytes -> string -> C -> Res bytes * C;
    getRandomValues : nat -> C -> Res bytes * C;
    (* ICryptoClient *)
    get_did : Client -> C -> Res string * C;
    get_public_key : Client -> C -> Res bytes * C;
    export_wrapped_secret : Client -> bytes -> C -> Res bytes * C;
    sign_data : Client -> bytes -> C -> Res bytes * C;
    free : Client -> C -> Res unit * C }.
End ICryptoPort.
Abbreviation ICryptoPort := ICryptoPort.ICryptoPort.

(** What the sources take from the JavaScript platform: [atob] and [btoa],
    [TextDecoder] and [TextEncoder], [JSON.parse] and [JSON.stringify], and
    [Date.now()] on a clock [T].  [JSON_parse] is [JSON.parse] at the type
    [VaultInternalData], to which the sources cast its result without a
    check: [None] is a thrown [SyntaxError], and text that parses to a value
    of another shape is outside this model. *)
Module Platform.
Class Platform (T : Type) := {
    atob : string -> option string;
    btoa : string -> string;
    TextDecoder_decode : bytes -> string;
    TextEncoder_encode : string -> bytes;
    JSON_parse : string -> option VaultInternalData;
    JSON_stringify : VaultInternalData -> string;
    Date_now : T -> Z * T }.
End Platform.
Abbreviation Platform := Platform.Platform.

(* ===================================================================== *)
(** ** The state of one engine and of its collaborators *)
(* ===================================================================== *)

Module Runtime.

  (** [SessionData] of SessionManager.ts.  [sessionKey] is a [Uint8Array]
      held by reference: an index into the heap of buffers. *)
Record SessionData (Client : Type) := mkSessionData {
    client : Client;
    sessionKey : nat;
    s_did : string;
    password : string;
    secrets : gmap string string }.
Arguments mkSessionData {Client}.
Arguments client {Client}.
Arguments sessionKey {Client}.
Arguments s_did {Client}.
Arguments password {Client}.
Arguments secrets {Client}.

  (** The fields of [VaultFacade] ([_session] is the one field of its
      [SessionManager]), the [Uint8Array] buffers that are shared by
      reference, and the states of the store, of the crypto provider and of
      the clock. *)
Record State (S C T Client : Type) := mkState {
    _session : option (SessionData Client);
    _isInitialized : bool;
    _isDisposed : bool;
    jsHeap : list bytes;
    store : S;
    wasm : C;
    clock : T }.
Arguments mkState {S C T Client}.
Arguments _session {S C T Client}.
Arguments _isInitialized {S C T Client}.
Arguments _isDisposed {S C T Client}.
Arguments jsHeap {S C T Client}.
Arguments store {S C T Client}.
Arguments wasm {S C T Client}.
Arguments clock {S C T Client}.

Section Lifting.
Context {S C T Client : Type}.
Abbreviation St := (State S C T Client).

Definition set_session (x : option (SessionData Client)) (σ : St) : St :=
      mkState x (_isInitialized σ) (_isDisposed σ) (jsHeap σ) (store σ) (wasm σ) (clock σ).
Definition set_isInitialized (b : bool) (σ : St) : St :=
      mkState (_session σ) b (_isDisposed σ) (jsHeap σ) (store σ) (wasm σ) (clock σ).
Definition set_isDisposed (b : bool) (σ : St) : St :=
      mkState (_session σ) (_isInitialized σ) b (jsHeap σ) (store σ) (wasm σ) (clock σ).
Definition set_jsHeap (h : list bytes) (σ : St) : St :=
      mkState (_session σ) (_isInitialized σ) (_isDisposed σ) h (store σ) (wasm σ) (clock σ).
Definition set_store (s : S) (σ : St) : St :=
      mkState (_session σ) (_isInitialized σ) (_isDisposed σ) (jsHeap σ) s (wasm σ) (clock σ).
Definition set_wasm (c : C) (σ : St) : St :=
      mkState (_session σ) (_isInitialized σ) (_isDisposed σ) (jsHeap σ) (store σ) c (clock σ).
Definition set_clock (t : T) (σ : St) : St :=
      mkState (_session σ) (_isInitialized σ) (_isDisposed σ) (jsHeap σ) (store σ) (wasm σ) t.

    (** A call on the storage port. *)
Definition onStore {A} (f : S -> Res A * S) : M St A :=
      fun σ => let '(r, s') := f (store σ) in (r, set_store s' σ).
    (** A call on the crypto port. *)
Definition onCrypto {A} (f : C -> Res A * C) : M St A :=
      fun σ => let '(r, c') := f (wasm σ) in (r, set_wasm c' σ).
    (** [Date.now()] *)
Definition now `{Platform T} : M St Z :=
      fun σ => let '(z, t') := Platform.Date_now (clock σ) in (Ok z, set_clock t' σ).

    (** A fresh [Uint8Array] with the given contents; the result is its
        reference. *)
Definition new_Uint8Array (b : bytes) : M St nat :=
      fun σ => (Ok (length (jsHeap σ)), set_jsHeap (jsHeap σ ++ [b]) σ).
    (** The contents of the buffer behind a reference. *)
Definition contents (r : nat) : M St bytes :=
      fun σ => (Ok (default [] (jsHeap σ !! r)), σ).
End Lifting.

End Runtime.
Export Runtime.

(* ===================================================================== *)
(** ** utils/encoding.ts *)
(* ===================================================================== *)

Module Encoding.
Section WithPlatform.
Context {T : Type} `{Platform T}.

    (** [btoa(Array.from(bytes, x => String.fromCharCode(x)).join(''))] *)
Definition toBase64 (b : bytes) : string :=
      Platform.btoa (string_of_list_byte b).

    (** [Uint8Array.from(atob(base64), m => m.codePointAt(0))]; [atob]
        throws on a string that is not Base64. *)
Definition fromBase64 {Σ} (base64 : string) : M Σ bytes :=
      match Platform.atob base64 with
      | Some binString => ret (list_byte_of_string binString)
      | None => raise (Foreign "InvalidCharacterError")
      end.
End WithPlatform.
End Encoding.

(* ===================================================================== *)
(** ** application/services/SessionManager.ts *)
(* ===================================================================== *)

Module SessionManager.

(** [SessionState]: the snapshot [getState()] returns. *)
Record SessionState := mkSessionState {
  st_isAuthenticated : bool;
  st_currentDid : option string;
  st_hasPasswordCache : bool }.

Section WithPorts.
Context {S C T Client : Type} `{ICryptoPort C Client}.
Abbreviation St := (State S C T Client).

    (** [clear()]: frees the client, ignoring what [free] throws, and
        forgets the session data. *)
Definition clear : M St unit :=
      s <- gets _session ;;
      match s with
      | Some sd =>
          try_catch (onCrypto (ICryptoPort.free (client sd))) (fun _ => ret tt) ;;;
          modify (set_session None)
      | None => ret tt
      end.

    (** [establish(client, sessionKey, did, password, secrets)]; the
        secrets are copied ([{ ...secrets }]), the key buffer is not. *)
Definition establish (c : Client) (key : nat) (d pw : string)
        (sec : gmap string string) : M St unit :=
      clear ;;;
      modify (set_session (Some (mkSessionData c key d pw sec))).

Definition isAuthenticated : M St bool :=
      s <- gets _session ;; ret (bool_decide (is_Some s)).

Definition ensureAuthenticated : M St (SessionData Client) :=
      s <- gets _session ;;
      match s with
      | Some sd => ret sd
      | None => raise NotAuthenticatedError
      end.

Definition getDid : M St string :=
      sd <- ensureAuthenticated ;; ret (s_did sd).
Definition getClient : M St Client :=
      sd <- ensureAuthenticated ;; ret (client sd).
Definition getSessionKey : M St nat :=
      sd <- ensureAuthenticated ;; ret (sessionKey sd).
Definition getPassword : M St string :=
      sd <- ensureAuthenticated ;; ret (password sd).

    (** [secrets[key] ?? null] *)
Definition getSecret (key : string) : M St (option string) :=
      sd <- ensureAuthenticated ;; ret (secrets sd !! key).

    (** [secrets[key] = value] *)
Definition setSecret (key value : string) : M St unit :=
      sd <- ensureAuthenticated ;;
      modify (set_session (Some (mkSessionData (client sd) (sessionKey sd)
                (s_did sd) (password sd) (<[key := value]> (secrets sd))))).

    (** [delete secrets[key]] *)
Definition deleteSecret (key : string) : M St unit :=
      sd <- ensureAuthenticated ;;
      modify (set_session (Some (mkSessionData (client sd) (sessionKey sd)
                (s_did sd) (password sd) (delete key (secrets sd))))).

    (** [{ ...secrets }] *)
Definition getAllSecrets : M St (gmap string string) :=
      sd <- ensureAuthenticated ;; ret (secrets sd).

(** [getState()]: [hasPasswordCache] is
    [this._session?.password !== undefined]. *)
Definition getState : M St SessionState :=
  s <- gets _session ;;
  ret (mkSessionState (bool_decide (is_Some s)) (s_did <$> s) (bool_decide (is_Some s))).
End WithPorts.
End SessionManager.

(* ===================================================================== *)
(** ** application/use-cases/LoginUseCase.ts *)
(* ===================================================================== *)

Module LoginUseCase.
Section WithPorts.
Context {S C T Client : Type} `{IStorage S} `{ICryptoPort C Client} `{Platform T}.
Abbreviation St := (State S C T Client).

(** Step 1: [let targetDid = did ?? ''; if (!targetDid) { ... keys[0] }]. *)
Definition resolveTargetDid (did : option string) : M St string :=
  let targetDid := default "" did in
  if decide (targetDid = "") then
    keys <- onStore IStorage.listKeys ;;
    match keys with
    | [] => raise (AuthenticationError "No identities found in storage")
    | k :: _ => ret k
    end
  else ret targetDid.

(** The body of the [try] of step 3:
    [this.crypto.decryptVault(fromBase64(storedBlob.wrappedData), password)]. *)
Definition decryptOuter (storedBlob : EncryptedVaultBlob) (password : string)
    : M St bytes :=
  b <- Encoding.fromBase64 (wrappedData storedBlob) ;;
  onCrypto (ICryptoPort.decryptVault b password).

(** Steps 6 and 7: restore the WASM client and establish the session. *)
Definition restoreSession (password targetDid : string)
    (internalData : VaultInternalData) : M St IdentityInfo :=
  salt <- Encoding.fromBase64 (i_salt internalData) ;;
  key <- onCrypto (ICryptoPort.deriveSessionKey password salt) ;;
  sessionKey <- new_Uint8Array key ;;
  wrappedSecret <- Encoding.fromBase64 (i_wrappedSecret internalData) ;;
  keyBytes <- contents sessionKey ;;
  client <- onCrypto (ICryptoPort.restoreIdentity wrappedSecret keyBytes) ;;
  SessionManager.establish client sessionKey targetDid password
    (i_secrets internalData) ;;;
  publicKey <- onCrypto (ICryptoPort.get_public_key client) ;;
  ret (mkIdentityInfo targetDid publicKey).

(** Steps 2 to 7, once the target is known. *)
Definition unlock (password targetDid : string) : M St IdentityInfo :=
  (* 2. Retrieve encrypted blob *)
  storedBlob <- onStore (IStorage.get targetDid) ;;
  match storedBlob with
  | None => raise (AuthenticationError ("Identity " ++ targetDid ++ " not found"))
  | Some storedBlob =>
      (* 3. Decrypt outer blob *)
      decryptedBytes <-
        try_catch (decryptOuter storedBlob password)
          (fun _ => raise (AuthenticationError "Invalid password or corrupted vault")) ;;
      (* 4. Parse internal data *)
      match Platform.JSON_parse (Platform.TextDecoder_decode decryptedBytes) with
      | None => raise (VaultError "Vault data corruption: Invalid JSON" "CORRUPT_DATA")
      | Some internalData =>
          (* 5. Integrity check *)
          if decide (i_did internalData = targetDid) then
            (* 6. Restore WASM client, 7. Establish session *)
            restoreSession password targetDid internalData
          else
            raise (VaultError "Integrity error: DID mismatch inside vault" "INTEGRITY_ERROR")
      end
  end.

(** [execute({ password, did })] *)
Definition execute (password : string) (did : option string) : M St IdentityInfo :=
  targetDid <- resolveTargetDid did ;;
  unlock password targetDid.

End WithPorts.
End LoginUseCase.

(* ===================================================================== *)
(** ** The recovery code, shared by the register and recover use cases *)
(* ===================================================================== *)

Module RecoveryCode.

Definition hexDigit (n : N) : ascii :=
  match n with
  | 0%N => "0" | 1%N => "1" | 2%N => "2" | 3%N => "3" | 4%N => "4"
  | 5%N => "5" | 6%N => "6" | 7%N => "7" | 8%N => "8" | 9%N => "9"
  | 10%N => "A" | 11%N => "B" | 12%N => "C" | 13%N => "D" | 14%N => "E"
  | _ => "F"
  end%char.

(** [b.toString(16).padStart(2, '0').toUpperCase()] *)
Definition hexByte (b : byte) : string :=
  let n := Byte.to_N b in
  String (hexDigit (n / 16)) (String (hexDigit (n mod 16)) EmptyString).

(** [hex.slice(a, b)] for [a <= b] *)
Definition slice (a b : nat) (s : string) : string := substring a (b - a) s.

(** The template literal of [generateRecoveryCode]. *)
Definition format (random : bytes) : string :=
  let hex := String.concat "" (map hexByte random) in
  RECOVERY_CODE_PREFIX ++ "-" ++ slice 0 8 hex ++ "-" ++ slice 8 16 hex
    ++ "-" ++ slice 16 24 hex ++ "-" ++ slice 24 32 hex.

Section WithPorts.
Context {S C T Client : Type} `{ICryptoPort C Client}.

Definition generateRecoveryCode : M (State S C T Client) string :=
  random <- onCrypto (ICryptoPort.getRandomValues RECOVERY_CODE_BYTES) ;;
  ret (format random).
End WithPorts.

End RecoveryCode.

(* ===================================================================== *)
(** ** application/use-cases/RecoverAccountUseCase.ts *)
(* ===================================================================== *)

Module RecoverAccountUseCase.
Section WithPorts.
Context {S C T Client : Type} `{IStorage S} `{ICryptoPort C Client} `{Platform T}.
Abbreviation St := (State S C T Client).

(** Step 1, as in the login use case but for the message. *)
Definition resolveTargetDid (did : option string) : M St string :=
  let targetDid := default "" did in
  if decide (targetDid = "") then
    keys <- onStore IStorage.listKeys ;;
    match keys with
    | [] => raise (AuthenticationError "No vaults found")
    | k :: _ => ret k
    end
  else ret targetDid.

(** [if (!stored.recoveryBlob)]: absent, or the empty string. *)
Definition usableRecoveryBlob (b : EncryptedVaultBlob) : option string :=
  match recoveryBlob b with
  | Some r => if decide (r = "") then None else Some r
  | None => None
  end.

(** Steps 2 to 8, once the target is known. *)
Definition recover (options : RecoveryOptions) (targetDid : string)
    : M St RecoveryResult :=
  stored <- onStore (IStorage.get targetDid) ;;
  match stored with
  | None => raise (AuthenticationError ("Identity " ++ targetDid ++ " not found"))
  | Some stored =>
      match usableRecoveryBlob stored with
      | None =>
          raise (VaultError
            "Recovery not available for this identity. It may have been created with an older SDK version."
            "RECOVERY_UNAVAILABLE")
      | Some storedRecoveryBlob =>
          (* 3. Decrypt using recovery code *)
          decryptedBytes <-
            try_catch
              (b <- Encoding.fromBase64 storedRecoveryBlob ;;
               onCrypto (ICryptoPort.decryptVault b (recoveryCode options)))
              (fun _ => raise (AuthenticationError "Invalid Recovery Code")) ;;
          (* 4. Parse internal data (validate structure) *)
          match Platform.JSON_parse (Platform.TextDecoder_decode decryptedBytes) with
          | None => raise (VaultError "Vault data corruption during recovery" "CORRUPT_DATA")
          | Some _ =>
              (* 5. Re-encrypt with new password *)
              newEncryptedMain <-
                onCrypto (ICryptoPort.encryptVault decryptedBytes (newPassword options)) ;;
              (* 6. Handle recovery code rotation *)
              rotated <-
                (if default false (rotateRecoveryCode options) then
                   generated <- RecoveryCode.generateRecoveryCode ;;
                   newEncryptedRecovery <-
                     onCrypto (ICryptoPort.encryptVault decryptedBytes generated) ;;
                   ret (Encoding.toBase64 newEncryptedRecovery, Some generated)
                 else ret (storedRecoveryBlob, None)) ;;
              let '(newRecoveryBlob, generatedRecoveryCode) := rotated in
              (* 7. Update storage *)
              t <- now ;;
              onStore (IStorage.save targetDid
                (mkBlob (version stored) (did stored) (salt stored)
                   (Encoding.toBase64 newEncryptedMain) (Some newRecoveryBlob) t)) ;;;
              (* 8. Return result *)
              ret (mkRecoveryResult targetDid generatedRecoveryCode)
          end
      end
  end.

(** [execute(options)] *)
Definition execute (options : RecoveryOptions) : M St RecoveryResult :=
  targetDid <- resolveTargetDid (opt_did options) ;;
  recover options targetDid.

End WithPorts.
End RecoverAccountUseCase.

(* ===================================================================== *)
(** ** application/use-cases/SecretManagementUseCase.ts *)
(* ===================================================================== *)

Module SecretManagementUseCase.
Section WithPorts.
Context {S C T Client : Type} `{IStorage S} `{ICryptoPort C Client} `{Platform T}.
Abbreviation St := (State S C T Client).

(** [if (!this.session.isAuthenticated()) throw new NotAuthenticatedError()] *)
Definition requireSession : M St unit :=
  a <- SessionManager.isAuthenticated ;;
  if a : bool then ret tt else raise NotAuthenticatedError.

(** [JSON.parse(new TextDecoder().decode(decrypted)) as VaultInternalData];
    there is no [try] around it here. *)
Definition parseInternal (decrypted : bytes) : M St VaultInternalData :=
  match Platform.JSON_parse (Platform.TextDecoder_decode decrypted) with
  | Some d => ret d
  | None => raise (Foreign "SyntaxError")
  end.

(** The statements of [saveSecret] that follow the cache update:
    "Retrieve and update persisted blob". *)
Definition persistSecrets (did password : string) : M St unit :=
  stored <- onStore (IStorage.get did) ;;
  match stored with
  | None => raise (VaultError "Storage corruption during save" "STORAGE_ERROR")
  | Some stored =>
      (* Decrypt, update, re-encrypt *)
      b <- Encoding.fromBase64 (wrappedData stored) ;;
      decrypted <- onCrypto (ICryptoPort.decryptVault b password) ;;
      originalData <- parseInternal decrypted ;;
      all <- SessionManager.getAllSecrets ;;
      createdAt <- now ;;
      let updatedBytes :=
        Platform.TextEncoder_encode (Platform.JSON_stringify
          (mkInternal (i_did originalData) (i_wrappedSecret originalData)
             (i_salt originalData) all createdAt)) in
      (* Re-encrypt main copy *)
      newEncryptedMain <- onCrypto (ICryptoPort.encryptVault updatedBytes password) ;;
      (* NOTE: Recovery blob is NOT updated *)
      t <- now ;;
      onStore (IStorage.save did
        (mkBlob (version stored) (Types.did stored) (salt stored)
           (Encoding.toBase64 newEncryptedMain) (recoveryBlob stored) t))
  end.

(** [saveSecret(key, value)] *)
Definition saveSecret (key value : string) : M St unit :=
  requireSession ;;;
  did <- SessionManager.getDid ;;
  password <- SessionManager.getPassword ;;
  (* Update in-memory cache *)
  SessionManager.setSecret key value ;;;
  (* Retrieve and update persisted blob *)
  persistSecrets did password.

(** [getSecret(key)] *)
Definition getSecret (key : string) : M St (option string) :=
  requireSession ;;;
  SessionManager.getSecret key.

(** The statements of [deleteSecret] that follow the cache update:
    "Re-persist without this secret". *)
Definition persistDeletion (did password key : string) : M St unit :=
  stored <- onStore (IStorage.get did) ;;
  match stored with
  | None => raise (VaultError "Storage corruption during delete" "STORAGE_ERROR")
  | Some stored =>
      b <- Encoding.fromBase64 (wrappedData stored) ;;
      decrypted <- onCrypto (ICryptoPort.decryptVault b password) ;;
      originalData <- parseInternal decrypted ;;
      createdAt <- now ;;
      let updatedBytes :=
        Platform.TextEncoder_encode (Platform.JSON_stringify
          (mkInternal (i_did originalData) (i_wrappedSecret originalData)
             (i_salt originalData) (delete key (i_secrets originalData)) createdAt)) in
      newEncryptedMain <- onCrypto (ICryptoPort.encryptVault updatedBytes password) ;;
      t <- now ;;
      onStore (IStorage.save did
        (mkBlob (version stored) (Types.did stored) (salt stored)
           (Encoding.toBase64 newEncryptedMain) (recoveryBlob stored) t))
  end.

(** [deleteSecret(key)] *)
Definition deleteSecret (key : string) : M St unit :=
  requireSession ;;;
  did <- SessionManager.getDid ;;
  password <- SessionManager.getPassword ;;
  (* Remove from session cache first *)
  SessionManager.deleteSecret key ;;;
  (* Re-persist without this secret *)
  persistDeletion did password key.

(** [listSecretKeys()]: [Object.keys({ ...secrets })], in the order the map
    enumerates its keys. *)
Definition listSecretKeys : M St (list string) :=
  requireSession ;;;
  all <- SessionManager.getAllSecrets ;;
  ret (map fst (map_to_list all)).

End WithPorts.
End SecretManagementUseCase.

(* ===================================================================== *)
(** ** application/use-cases/RegisterIdentityUseCase.ts *)
(* ===================================================================== *)

Module RegisterIdentityUseCase.
Section WithPorts.
Context {S C T Client : Type} `{IStorage S} `{ICryptoPort C Client} `{Platform T}.
Abbreviation St := (State S C T Client).

(** [execute({ password })] *)
Definition execute (password : string) : M St RegistrationResult :=
  (* 1. Generate identity and derive encryption keys *)
  client <- onCrypto ICryptoPort.createIdentity ;;
  did <- onCrypto (ICryptoPort.get_did client) ;;
  salt <- onCrypto (ICryptoPort.getRandomValues 16) ;;
  key <- onCrypto (ICryptoPort.deriveSessionKey password salt) ;;
  sessionKey <- new_Uint8Array key ;;
  (* 2. Export wrapped (encrypted) private key *)
  keyBytes <- contents sessionKey ;;
  wrappedSecret <- onCrypto (ICryptoPort.export_wrapped_secret client keyBytes) ;;
  (* 3. Prepare internal vault data structure *)
  createdAt <- now ;;
  let internalData :=
    mkInternal did (Encoding.toBase64 wrappedSecret) (Encoding.toBase64 salt) ∅ createdAt in
  let internalBytes := Platform.TextEncoder_encode (Platform.JSON_stringify internalData) in
  (* 4. Create encrypted copies for password and recovery access *)
  encryptedMain <- onCrypto (ICryptoPort.encryptVault internalBytes password) ;;
  recoveryCode <- RecoveryCode.generateRecoveryCode ;;
  encryptedRecovery <- onCrypto (ICryptoPort.encryptVault internalBytes recoveryCode) ;;
  (* 5. Persist to storage *)
  t <- now ;;
  onStore (IStorage.save did
    (mkBlob 1 did (Encoding.toBase64 salt) (Encoding.toBase64 encryptedMain)
       (Some (Encoding.toBase64 encryptedRecovery)) t)) ;;;
  (* 6. Establish authenticated session *)
  SessionManager.establish client sessionKey did password ∅ ;;;
  ret (mkRegistrationResult did recoveryCode).

End WithPorts.
End RegisterIdentityUseCase.

(* ===================================================================== *)
(** ** logic/VaultFacade.ts *)
(* ===================================================================== *)

Module VaultFacade.
Section WithPorts.
Context {S C T Client : Type} `{IStorage S} `{ICryptoPort C Client} `{Platform T}.
Abbreviation St := (State S C T Client).

(** *** Guard methods *)

Definition ensureNotDisposed : M St unit :=
  d <- gets _isDisposed ;;
  if d : bool then raise (VaultError "VaultFacade has been disposed" "DISPOSED")
  else ret tt.

Definition ensureInitialized : M St unit :=
  ensureNotDisposed ;;;
  i <- gets _isInitialized ;;
  if i : bool then ret tt
  else raise (InitializationError "VaultFacade not initialized. Call init() first." None).

Definition ensureAuthenticated : M St unit :=
  ensureInitialized ;;;
  a <- SessionManager.isAuthenticated ;;
  if a : bool then ret tt else raise NotAuthenticatedError.

(** *** Initialization *)

(** [init(config)], with [wasmPath] standing for [config?.wasmPath].  The
    use cases it builds hold no state of their own. *)
Definition init (wasmPath : option string) : M St unit :=
  ensureNotDisposed ;;;
  i <- gets _isInitialized ;;
  if i : bool then ret tt
  else
    onCrypto (ICryptoPort.init wasmPath) ;;;
    modify (set_isInitialized true).

(** *** Identity management *)

Definition register (password : string) : M St RegistrationResult :=
  ensureInitialized ;;;
  RegisterIdentityUseCase.execute password.

Definition login (password : string) (did : option string) : M St IdentityInfo :=
  ensureInitialized ;;;
  LoginUseCase.execute password did.

Definition recoverAccount (options : RecoveryOptions) : M St RecoveryResult :=
  ensureInitialized ;;;
  result <- RecoverAccountUseCase.execute options ;;
  (* Auto-login after recovery *)
  login (newPassword options) (Some (rec_did result)) ;;;
  ret result.

Definition lock : M St unit := SessionManager.clear.

(** [this._session.isAuthenticated() && !this._isDisposed] *)
Definition isAuthenticated : M St bool :=
  a <- SessionManager.isAuthenticated ;;
  d <- gets _isDisposed ;;
  ret (a && negb d).

Definition getDid : M St string :=
  ensureAuthenticated ;;;
  SessionManager.getDid.

Definition getStoredIdentities : M St (list string) :=
  ensureInitialized ;;;
  onStore IStorage.listKeys.

(** *** Cryptographic operations *)

Definition sign (data : bytes) : M St bytes :=
  ensureAuthenticated ;;;
  client <- SessionManager.getClient ;;
  onCrypto (ICryptoPort.sign_data client data).

(** *** Secret management *)

Definition saveSecret (key secret : string) : M St unit :=
  ensureInitialized ;;;
  SecretManagementUseCase.saveSecret key secret.

Definition getSecret (key : string) : M St (option string) :=
  ensureInitialized ;;;
  SecretManagementUseCase.getSecret key.

(** *** Lifecycle *)

Definition dispose : M St unit :=
  d <- gets _isDisposed ;;
  if d : bool then ret tt
  else
    lock ;;;
    modify (set_isInitialized false) ;;;
    modify (set_isDisposed true).

(** A new facade over given collaborators: no session, not initialized,
    not disposed. *)
Definition new (s : S) (c : C) (t : T) : St :=
  mkState None false false [] s c t.

End WithPorts.
End VaultFacade.

(* ===================================================================== *)
(** ** domain/IVault.ts: the public operations, as calls on the facade *)
(* ===================================================================== *)

Module IVault.

(** One call of a method of [IVault], with its arguments. *)
Inductive Call :=
| Init (wasmPath : option string)
| Register (password : string)
| Login (password : string) (did : option string)
| RecoverAccount (options : RecoveryOptions)
| Lock
| IsAuthenticated
| GetDid
| GetStoredIdentities
| Sign (data : bytes)
| SaveSecret (key secret : string)
| GetSecret (key : string)
| Dispose.

(** What a call returns. *)
Inductive Returned :=
| RVoid
| RBool (b : bool)
| RString (s : string)
| RStrings (l : list string)
| RBytes (b : bytes)
| RSecret (v : option string)
| RIdentity (i : IdentityInfo)
| RRegistration (r : RegistrationResult)
| RRecovery (r : RecoveryResult).

Section WithPorts.
Context {S C T Client : Type} `{IStorage S} `{ICryptoPort C Client} `{Platform T}.

Definition fmap {Σ A B} (f : A -> B) (m : M Σ A) : M Σ B := x <- m ;; ret (f x).

(** The method of [VaultFacade] behind each call. *)
Definition invoke (c : Call) : M (State S C T Client) Returned :=
  match c with
  | Init p => fmap (fun _ => RVoid) (VaultFacade.init p)
  | Register pw => fmap RRegistration (VaultFacade.register pw)
  | Login pw d => fmap RIdentity (VaultFacade.login pw d)
  | RecoverAccount o => fmap RRecovery (VaultFacade.recoverAccount o)
  | Lock => fmap (fun _ => RVoid) VaultFacade.lock
  | IsAuthenticated => fmap RBool VaultFacade.isAuthenticated
  | GetDid => fmap RString VaultFacade.getDid
  | GetStoredIdentities => fmap RStrings VaultFacade.getStoredIdentities
  | Sign d => fmap RBytes (VaultFacade.sign d)
  | SaveSecret k v => fmap (fun _ => RVoid) (VaultFacade.saveSecret k v)
  | GetSecret k => fmap RSecret (VaultFacade.getSecret k)
  | Dispose => fmap (fun _ => RVoid) VaultFacade.dispose
  end.

(** The methods whose body starts with a guard ([ensureNotDisposed],
    [ensureInitialized] or [ensureAuthenticated]). *)
Definition guarded (c : Call) : bool :=
  match c with
  | Lock | IsAuthenticated | Dispose => false
  | _ => true
  end.


(** The state after a sequence of calls, whatever each returned or threw. *)
Definition runAll (cs : list Call) (σ : State S C T Client) : State S C T Client :=
  foldl (fun σ c => snd (invoke c σ)) σ cs.
End WithPorts.

End IVault.

(* ===================================================================== *)
(** ** adapters/WasmCryptoAdapter.ts *)
(* ===================================================================== *)

Module WasmCryptoAdapter.

(** The exports of the WASM glue module ([P47hWasmModule], [P47hClient],
    [VaultCrypto]) on the state [W] of the WASM instance, together with the
    global [crypto.getRandomValues].  [load] stands for [loadWasmModule],
    [initializeWasmInstance] and [validateVersionHandshake] run in a row on
    a path.  [REQUIRED_CORE_VERSION] comes from [version.ts]. *)
Class P47hWasmModule (W Client : Type) := {
  REQUIRED_CORE_VERSION : string;
  load : string -> W -> Res unit * W;
  new_P47hClient : W -> Res Client * W;
  from_wrapped_secret : bytes -> bytes -> W -> Res Client * W;
  encrypt_vault : bytes -> string -> W -> Res bytes * W;
  decrypt_vault : bytes -> string -> W -> Res bytes * W;
  derive_session_key : string -> bytes -> W -> Res bytes * W;
  crypto_getRandomValues : nat -> W -> Res bytes * W;
  client_get_did : Client -> W -> Res string * W;
  client_get_public_key : Client -> W -> Res bytes * W;
  client_export_wrapped_secret : Client -> bytes -> W -> Res bytes * W;
  client_sign_data : Client -> bytes -> W -> Res bytes * W;
  client_free : Client -> W -> Res unit * W }.

(** The fields of the adapter; [a_module] says whether [module] is set. *)
Record Adapter (W : Type) := mkAdapter {
  a_module : bool;
  a_wasmPath : string;
  a_isInitialized : bool;
  instance : W }.
Arguments mkAdapter {W}.
Arguments a_module {W}.
Arguments a_wasmPath {W}.
Arguments a_isInitialized {W}.
Arguments instance {W}.

Section WithModule.
Context {W Client : Type} `{P47hWasmModule W Client}.

Definition getDefaultWasmPath : string :=
  "/wasm/p47h_vault_v" ++ REQUIRED_CORE_VERSION ++ ".wasm".

(** [new WasmCryptoAdapter(options)] *)
Definition new (wasmPath : option string) (w : W) : Adapter W :=
  mkAdapter false (default getDefaultWasmPath wasmPath) false w.

(** A call into the WASM instance. *)
Definition onInstance {A} (f : W -> Res A * W) : M (Adapter W) A :=
  fun a => let '(r, w') := f (instance a) in
           (r, mkAdapter (a_module a) (a_wasmPath a) (a_isInitialized a) w').

Definition init : M (Adapter W) unit :=
  fun a =>
    if a_isInitialized a && a_module a then (Ok tt, a)
    else
      try_catch
        (onInstance (load (a_wasmPath a)) ;;;
         modify (fun a' => mkAdapter true (a_wasmPath a') true (instance a')))
        (fun error => raise (InitializationError "Failed to load P47H WASM core" (Some error)))
        a.

Definition getModule : M (Adapter W) unit :=
  fun a =>
    if negb (a_module a) || negb (a_isInitialized a) then
      (Throw (InitializationError "WasmCryptoAdapter not initialized. Call init() first." None), a)
    else (Ok tt, a).

(** [try { return this.getModule().f(...) } catch (e) { throw new CryptoError(msg, e) }] *)
Definition guardedCall {A} (msg : string) (f : W -> Res A * W) : M (Adapter W) A :=
  try_catch (getModule ;;; onInstance f)
            (fun e => raise (CryptoError msg (Some e))).

Definition deriveSessionKey (password : string) (salt : bytes) : M (Adapter W) bytes :=
  guardedCall "Failed to derive session key" (derive_session_key password salt).

Definition encryptVault (data : bytes) (password : string) : M (Adapter W) bytes :=
  guardedCall "Vault encryption failed" (encrypt_vault data password).

Definition decryptVault (encryptedData : bytes) (password : string) : M (Adapter W) bytes :=
  guardedCall "Vault decryption failed: Invalid password or corrupted data"
    (decrypt_vault encryptedData password).

Definition createIdentity : M (Adapter W) Client :=
  guardedCall "Failed to generate new identity" new_P47hClient.

Definition restoreIdentity (wrappedSecret sessionKey : bytes) : M (Adapter W) Client :=
  guardedCall "Failed to restore identity from wrapped secret"
    (from_wrapped_secret wrappedSecret sessionKey).

Definition getRandomValues (length : nat) : M (Adapter W) bytes :=
  onInstance (crypto_getRandomValues length).

(** The adapter as the crypto port of the facade.  With a [wasmPath] in its
    configuration (a non-empty one: [if (config?.wasmPath)]) the facade
    first replaces its adapter by a new one for that path. *)
#[global] Instance port : ICryptoPort (Adapter W) Client := {|
  ICryptoPort.init := fun wasmPath a =>
    match wasmPath with
    | Some p => if decide (p = "") then init a else init (new (Some p) (instance a))
    | None => init a
    end;
  ICryptoPort.createIdentity := createIdentity;
  ICryptoPort.restoreIdentity := restoreIdentity;
  ICryptoPort.deriveSessionKey := deriveSessionKey;
  ICryptoPort.encryptVault := encryptVault;
  ICryptoPort.decryptVault := decryptVault;
  ICryptoPort.getRandomValues := getRandomValues;
  ICryptoPort.get_did := fun c => onInstance (client_get_did c);
  ICryptoPort.get_public_key := fun c => onInstance (client_get_public_key c);
  ICryptoPort.export_wrapped_secret := fun c k => onInstance (client_export_wrapped_secret c k);
  ICryptoPort.sign_data := fun c d => onInstance (client_sign_data c d);
  ICryptoPort.free := fun c => onInstance (client_free c) |}.

End WithModule.
End WasmCryptoAdapter.

(* ===================================================================== *)
(** ** logic/VaultService.ts: the session fields and their teardown *)
(* ===================================================================== *)

Module VaultService.

(** The private state of [VaultService] that holds the session, the
    buffers shared by reference and the crypto provider. *)
Record Fields (C Client : Type) := mkFields {
  _client : option Client;
  _sessionKey : option nat;
  _currentDid : option string;
  _secretsCache : option (gmap string string);
  _passwordCache : option string;
  vs_isDisposed : bool;
  vs_jsHeap : list bytes;
  vs_wasm : C }.
Arguments mkFields {C Client}.
Arguments _client {C Client}.
Arguments _sessionKey {C Client}.
Arguments _currentDid {C Client}.
Arguments _secretsCache {C Client}.
Arguments _passwordCache {C Client}.
Arguments vs_isDisposed {C Client}.
Arguments vs_jsHeap {C Client}.
Arguments vs_wasm {C Client}.

Section WithPorts.
Context {C Client : Type} `{ICryptoPort C Client}.

(** [setSession(client, sessionKey, did, password, secrets)] *)
Definition setSession (c : Client) (key : nat) (d pw : string)
    (sec : gmap string string) : M (Fields C Client) unit :=
  modify (fun σ => mkFields (Some c) (Some key) (Some d) (Some sec) (Some pw)
                     (vs_isDisposed σ) (vs_jsHeap σ) (vs_wasm σ)).

(** [lock()] *)
Definition lock : M (Fields C Client) unit :=
  fun σ =>
    let w' := match _client σ with
              | Some c => snd (ICryptoPort.free c (vs_wasm σ))
              | None => vs_wasm σ
              end in
    (Ok tt, mkFields None None None None None (vs_isDisposed σ) (vs_jsHeap σ) w').

(** [this._client !== null && !this._isDisposed] *)
Definition isAuthenticated : M (Fields C Client) bool :=
  fun σ => (Ok (bool_decide (is_Some (_client σ)) && negb (vs_isDisposed σ)), σ).

End WithPorts.
End VaultService.

(* ===================================================================== *)
(** ** Test doubles: tests/mocks/MockStorage.ts, tests/mocks/MockWasmAdapter.ts *)
(* ===================================================================== *)

(** [MockStorage]: a [Map<string, EncryptedVaultBlob>], which keeps its
    keys in insertion order.  Envelopes are values here.  ([get] of the
    mock hands out the stored object itself; the use cases only reassign
    fields of it right before they [save] it back under the same key, and
    the mock's [save] cannot fail, so no run tells the difference.) *)
Module MockStorage.

Abbreviation db := (list (string * EncryptedVaultBlob)).

(** [Map.prototype.set]: an existing key keeps its place. *)
Fixpoint set (key : string) (data : EncryptedVaultBlob) (m : db) : db :=
  match m with
  | [] => [(key, data)]
  | (k, v) :: rest =>
      if decide (k = key) then (key, data) :: rest else (k, v) :: set key data rest
  end.

Fixpoint lookup (key : string) (m : db) : option EncryptedVaultBlob :=
  match m with
  | [] => None
  | (k, v) :: rest => if decide (k = key) then Some v else lookup key rest
  end.

Definition delete (key : string) (m : db) : db :=
  filter (fun kv => fst kv ≠ key) m.

#[global] Instance port : IStorage db := {|
  IStorage.save := fun key data m => (Ok tt, set key data m);
  IStorage.get := fun key m => (Ok (lookup key m), m);
  IStorage.remove := fun key m => (Ok tt, delete key m);
  IStorage.listKeys := fun m => (Ok (map fst m), m);
  IStorage.clear := fun _ => (Ok tt, []) |}.

End MockStorage.

(** [MockWasmAdapter] and its [MockClient]; a client is its DID. *)
Module MockWasmAdapter.

Definition xorFF (b : byte) : byte :=
  default b (Byte.of_N (N.lxor (Byte.to_N b) 255)).

(** [result.set(key.slice(0, 32)); result[31] = salt[0]] on 32 zero bytes;
    an empty salt gives [undefined], stored as 0. *)
Definition fakeKdf (password : string) (salt : bytes) : bytes :=
  let key := take 32 (list_byte_of_string password) in
  take 31 (key ++ replicate 32 x00) ++ [default x00 (head salt)].

#[global] Instance port : ICryptoPort unit string := {|
  ICryptoPort.init := fun _ u => (Ok tt, u);
  ICryptoPort.createIdentity := fun u => (Ok "did:p47h:mock-identity", u);
  ICryptoPort.restoreIdentity := fun _ _ u => (Ok "did:p47h:mock-identity", u);
  ICryptoPort.deriveSessionKey := fun password salt u => (Ok (fakeKdf password salt), u);
  ICryptoPort.encryptVault := fun data _ u => (Ok (map xorFF data), u);
  ICryptoPort.decryptVault := fun encryptedData password u =>
    if decide (password = "wrong") then (Throw (Foreign "Error: Decryption failed"), u)
    else (Ok (map xorFF encryptedData), u);
  ICryptoPort.getRandomValues := fun length u => (Ok (replicate length "*"%byte), u);
  ICryptoPort.get_did := fun c u => (Ok c, u);
  ICryptoPort.get_public_key := fun _ u => (Ok [x01; x02; x03], u);
  ICryptoPort.export_wrapped_secret := fun _ sessionKey u =>
    (Ok [xaa; xbb; default x00 (head sessionKey)], u);
  ICryptoPort.sign_data := fun _ data u => (Ok (rev data), u);
  ICryptoPort.free := fun _ u => (Ok tt, u) |}.

End MockWasmAdapter.

(** A WASM module for the real adapter, with the primitives of
    [MockWasmAdapter], except that unwrapping authenticates: a wrapped
    secret opens only under the session key it was exported with. *)
Module StubWasmModule.

#[global] Instance exports : WasmCryptoAdapter.P47hWasmModule unit string := {|
  WasmCryptoAdapter.REQUIRED_CORE_VERSION := "0.10.0";
  WasmCryptoAdapter.load := fun _ u => (Ok tt, u);
  WasmCryptoAdapter.new_P47hClient := fun u => (Ok "did:p47h:mock-identity", u);
  WasmCryptoAdapter.from_wrapped_secret := fun wrapped sessionKey u =>
    if decide (wrapped = [xaa; xbb; default x00 (head sessionKey)])
    then (Ok "did:p47h:mock-identity", u)
    else (Throw (Foreign "Error: Decryption failed"), u);
  WasmCryptoAdapter.encrypt_vault := fun data _ u => (Ok (map MockWasmAdapter.xorFF data), u);
  WasmCryptoAdapter.decrypt_vault := fun blob password u =>
    if decide (password = "wrong") then (Throw (Foreign "Error: Decryption failed"), u)
    else (Ok (map MockWasmAdapter.xorFF blob), u);
  WasmCryptoAdapter.derive_session_key := fun password salt u =>
    (Ok (MockWasmAdapter.fakeKdf password salt), u);
  WasmCryptoAdapter.crypto_getRandomValues := fun length u => (Ok (replicate length "*"%byte), u);
  WasmCryptoAdapter.client_get_did := fun c u => (Ok c, u);
  WasmCryptoAdapter.client_get_public_key := fun _ u => (Ok [x01; x02; x03], u);
  WasmCryptoAdapter.client_export_wrapped_secret := fun _ sessionKey u =>
    (Ok [xaa; xbb; default x00 (head sessionKey)], u);
  WasmCryptoAdapter.client_sign_data := fun _ data u => (Ok (rev data), u);
  WasmCryptoAdapter.client_free := fun _ u => (Ok tt, u) |}.

End StubWasmModule.

(** A stand-in for the platform, enough to run the engine on examples: a
    clock that ticks, hexadecimal text for the binary-to-text coding, bytes
    read as characters, and a line-based rendering of the payload. *)
Module StubPlatform.

Definition hexValue (c : ascii) : option N :=
  let n := N_of_ascii c in
  if (48 <=? n)%N && (n <=? 57)%N then Some (n - 48)%N
  else if (65 <=? n)%N && (n <=? 70)%N then Some (n - 55)%N
  else None.

Fixpoint decodeHex (s : string) : option string :=
  match s with
  | EmptyString => Some EmptyString
  | String a (String b rest) =>
      match hexValue a, hexValue b, decodeHex rest with
      | Some x, Some y, Some r => Some (String (ascii_of_N (16 * x + y)) r)
      | _, _, _ => None
      end
  | String _ EmptyString => None
  end.

Definition encodeHex (s : string) : string :=
  String.concat "" (map RecoveryCode.hexByte (list_byte_of_string s)).

Definition newline : string := String (ascii_of_nat 10) EmptyString.

Fixpoint lines_aux (cur : string) (s : string) : list string :=
  match s with
  | EmptyString => [cur]
  | String c rest =>
      if decide (c = ascii_of_nat 10) then cur :: lines_aux EmptyString rest
      else lines_aux (cur ++ String c EmptyString) rest
  end.
Definition lines (s : string) : list string := lines_aux EmptyString s.

Fixpoint pairs (l : list string) : option (list (string * string)) :=
  match l with
  | [] => Some []
  | k :: v :: rest => option_map (cons (k, v)) (pairs rest)
  | [_] => None
  end.

Definition render (d : VaultInternalData) : string :=
  String.concat newline
    ([i_did d; i_wrappedSecret d; i_salt d;
      DecimalString.NilZero.string_of_int (Z.to_int (i_createdAt d))]
     ++ flat_map (fun kv => [fst kv; snd kv]) (map_to_list (i_secrets d))).

Definition parse (s : string) : option VaultInternalData :=
  match lines s with
  | d :: w :: sa :: c :: rest =>
      match DecimalString.NilZero.int_of_string c, pairs rest with
      | Some n, Some kvs => Some (mkInternal d w sa (list_to_map kvs) (Z.of_int n))
      | _, _ => None
      end
  | _ => None
  end.

#[global] Instance platform : Platform Z := {|
  Platform.atob := decodeHex;
  Platform.btoa := encodeHex;
  Platform.TextDecoder_decode := string_of_list_byte;
  Platform.TextEncoder_encode := list_byte_of_string;
  Platform.JSON_parse := parse;
  Platform.JSON_stringify := render;
  Platform.Date_now := fun t => (t, (t + 1)%Z) |}.

End StubPlatform.

(** Runs of the engine on the test doubles. *)
Module Scenario.
Import MockWasmAdapter.

Abbreviation MockState := (State MockStorage.db unit Z string).

(** [new VaultFacade(new MockStorage())], with the mock adapter injected. *)
Definition fresh : MockState := VaultFacade.new [] tt 1000%Z.
(** ... after [init()] *)
Definition ready : MockState := snd (VaultFacade.init None fresh).
(** ... after [register('password123')] *)
Definition registered : MockState := snd (VaultFacade.register "password123" ready).
(** ... after [lock()] *)
Definition locked : MockState := snd (VaultFacade.lock registered).
(** ... or after [dispose()] instead *)
Definition disposed : MockState := snd (VaultFacade.dispose registered).

(** The same facade over the real adapter, on the stub WASM module. *)
Abbreviation WasmState := (State MockStorage.db (WasmCryptoAdapter.Adapter unit) Z string).

Definition wasmReady : WasmState :=
  snd (VaultFacade.init None
         (VaultFacade.new [] (WasmCryptoAdapter.new (Client := string) None tt) 1000%Z)).
Definition wasmLocked : WasmState :=
  snd (VaultFacade.lock (snd (VaultFacade.register "password123" wasmReady))).

(** The persisted payload re-sealed with a wrapped secret that no longer
    opens under the key derived from the password. *)
Definition damagedPayload : VaultInternalData :=
  mkInternal "did:p47h:mock-identity" (Platform.btoa (string_of_list_byte [xaa; xbb; x00]))
    (Platform.btoa (string_of_list_byte (replicate 16 "*"%byte))) ∅ 1000.
Definition damagedBlob : EncryptedVaultBlob :=
  mkBlob 1 "did:p47h:mock-identity"
    (Platform.btoa (string_of_list_byte (replicate 16 "*"%byte)))
    (Encoding.toBase64 (map xorFF
       (Platform.TextEncoder_encode (Platform.JSON_stringify damagedPayload))))
    None 1001.
Definition wasmDamaged : WasmState :=
  set_store [("did:p47h:mock-identity", damagedBlob)] wasmLocked.

(** A payload sealed under another identifier than the key it is stored
    under. *)
Definition foreignPayload : VaultInternalData :=
  mkInternal "did:p47h:someone-else" (Platform.btoa (string_of_list_byte [xaa; xbb; x00]))
    (Platform.btoa (string_of_list_byte (replicate 16 "*"%byte))) ∅ 1000.
Definition foreignBlob : EncryptedVaultBlob :=
  mkBlob 1 "did:p47h:mock-identity"
    (Platform.btoa (string_of_list_byte (replicate 16 "*"%byte)))
    (Encoding.toBase64 (map xorFF
       (Platform.TextEncoder_encode (Platform.JSON_stringify foreignPayload))))
    None 1001.
Definition swapped : MockState :=
  set_store [("did:p47h:mock-identity", foreignBlob)] locked.

End Scenario.

(* ===================================================================== *)
(** ** adapters/IndexedDbStorage.ts *)
(* ===================================================================== *)

Module BrowserStorage.

(** How [getDB()] ends: with a connection, with one of its two rejections,
    or with something thrown while opening. *)
Inductive Opening :=
| Opened
| NotSupported
| OpenFailed (cause : option exn)
| OpenThrown (e : exn).

(** How a transaction on the object store ends, as [withStore] sees it:
    [tx.oncomplete] with the result of the request, [tx.onerror],
    [req.onerror], or something thrown on the way. *)
Inductive Completion (A : Type) :=
| Completed (result : A)
| TransactionFailed (cause : option exn)
| RequestFailed (cause : option exn)
| Thrown (e : exn).
Arguments Completed {A}.
Arguments TransactionFailed {A}.
Arguments RequestFailed {A}.
Arguments Thrown {A}.

(** IndexedDB, as the adapter uses it: the object store 'keystores' of the
    database 'p47h-vault', whose key path is [did]. *)
Class IndexedDB (D : Type) := {
  open : D -> Opening * D;
  put : EncryptedVaultBlob -> D -> Completion unit * D;
  idb_get : string -> D -> Completion (option EncryptedVaultBlob) * D;
  idb_delete : string -> D -> Completion unit * D;
  getAllKeys : D -> Completion (option (list string)) * D;
  idb_clear : D -> Completion unit * D }.

Section WithDatabase.
Context {D : Type} `{IndexedDB D}.

(** [if (error instanceof StorageError) throw error;
     throw new StorageError('Database operation failed', error)] *)
Definition rethrow (error : exn) : exn :=
  if instanceof error StorageErrorC then error
  else StorageError "Database operation failed" (Some error).

(** [withStore(mode, callback)] *)
Definition withStore {A} (callback : D -> Completion A * D) : M D A :=
  fun d =>
    match open d with
    | (Opened, d1) =>
        match callback d1 with
        | (Completed result, d2) => (Ok result, d2)
        | (TransactionFailed cause, d2) => (Throw (StorageError "Transaction failed" cause), d2)
        | (RequestFailed cause, d2) => (Throw (StorageError "Request failed" cause), d2)
        | (Thrown e, d2) => (Throw (rethrow e), d2)
        end
    | (NotSupported, d1) =>
        (Throw (StorageError "IndexedDB not supported in this environment" None), d1)
    | (OpenFailed cause, d1) => (Throw (StorageError "Failed to open database" cause), d1)
    | (OpenThrown e, d1) => (Throw (rethrow e), d1)
    end.

Definition save (key : string) (data : EncryptedVaultBlob) : M D unit :=
  if decide (did data = key) then withStore (put data)
  else raise (StorageError ("Integrity check: Key " ++ key ++ " does not match DID "
                              ++ did data) None).

(** [return result || null] *)
Definition get (key : string) : M D (option EncryptedVaultBlob) :=
  withStore (idb_get key).

Definition remove (key : string) : M D unit := withStore (idb_delete key).

(** [return keys ?? []] *)
Definition listKeys : M D (list string) :=
  keys <- withStore getAllKeys ;;
  ret (default [] keys).

Definition clear : M D unit := withStore idb_clear.

(** The adapter as a storage port. *)
Definition port : IStorage D := {|
  IStorage.save := save;
  IStorage.get := get;
  IStorage.remove := remove;
  IStorage.listKeys := listKeys;
  IStorage.clear := clear |}.

End WithDatabase.

(** One call on the storage port. *)
Inductive Request :=
| Save (key : string) (data : EncryptedVaultBlob)
| Get (key : string)
| Remove (key : string)
| ListKeys
| Clear.

(** The call made, and no more of its result than how it ended. *)
Definition perform {D : Type} `{IndexedDB D} (q : Request) : M D unit :=
  match q with
  | Save key data => save key data
  | Get key => get key ;;; ret tt
  | Remove key => remove key
  | ListKeys => listKeys ;;; ret tt
  | Clear => clear
  end.

End BrowserStorage.

(** A database in memory, kept by [did], whose transactions complete. *)
Module FakeIndexedDB.

#[global] Instance db : BrowserStorage.IndexedDB (list (string * EncryptedVaultBlob)) := {|
  BrowserStorage.open := fun d => (BrowserStorage.Opened, d);
  BrowserStorage.put := fun data d =>
    (BrowserStorage.Completed tt, MockStorage.set (did data) data d);
  BrowserStorage.idb_get := fun key d => (BrowserStorage.Completed (MockStorage.lookup key d), d);
  BrowserStorage.idb_delete := fun key d => (BrowserStorage.Completed tt, MockStorage.delete key d);
  BrowserStorage.getAllKeys := fun d => (BrowserStorage.Completed (Some (map fst d)), d);
  BrowserStorage.idb_clear := fun _ => (BrowserStorage.Completed tt, []) |}.

End FakeIndexedDB.

(* ===================================================================== *)
(** ** vault-react: types/state.ts, types/events.ts,
       internal/VaultEventEmitter.ts, internal/VaultController.ts *)
(* ===================================================================== *)

Module VaultReact.

(** ['init' | 'ready' | 'locked' | 'unlocked' | 'error'] *)
Inductive VaultState := SInit | SReady | SLocked | SUnlocked | SError.

#[global] Instance VaultState_eq_dec : EqDecision VaultState.
Proof. solve_decision. Defined.

(** ['state-change' | 'auth-change' | 'error'] *)
Inductive VaultEventType := StateChange | AuthChange | ErrorEvent.

Record VaultEvent := mkVaultEvent {
  ev_type : VaultEventType;
  ev_state : VaultState;
  ev_did : option string;
  ev_error : option exn }.

(** A [VaultEventListener] is a function, and the [Set] of listeners tells
    functions apart by identity: a listener is a name here, and calling it
    acts on the world [L] of the subscribers.  Listeners that call back into
    the emitter while they run are not modelled. *)
Class Listeners (L : Type) := {
  call : nat -> VaultEvent -> L -> Res unit * L }.

(** The fields of [VaultEventEmitter], with the world of the listeners and
    what [console.error] was given. *)
Record Emitter (L : Type) := mkEmitter {
  _listeners : list nat;
  em_state : VaultState;
  em_did : option string;
  em_error : option exn;
  world : L;
  console : list exn }.
Arguments mkEmitter {L}.
Arguments _listeners {L}.
Arguments em_state {L}.
Arguments em_did {L}.
Arguments em_error {L}.
Arguments world {L}.
Arguments console {L}.

Module VaultEventEmitter.
Section WithListeners.
Context {L : Type} `{Listeners L}.

(** [new VaultEventEmitter()] *)
Definition new (w : L) : Emitter L := mkEmitter [] SInit None None w [].

Definition updateState (state : VaultState) (did : option string) (error : option exn)
    : M (Emitter L) unit :=
  modify (fun em => mkEmitter (_listeners em) state did error (world em) (console em)).

Definition createEvent (type : VaultEventType) : M (Emitter L) VaultEvent :=
  gets (fun em => mkVaultEvent type (em_state em) (em_did em) (em_error em)).

(** [listener(event)] *)
Definition invokeListener (listener : nat) (event : VaultEvent) : M (Emitter L) unit :=
  fun em =>
    let '(r, w') := call listener event (world em) in
    (r, mkEmitter (_listeners em) (em_state em) (em_did em) (em_error em) w' (console em)).

(** [try { listener(event) } catch (err) { console.error(..., err) }] *)
Definition deliver (event : VaultEvent) (listener : nat) : M (Emitter L) unit :=
  try_catch (invokeListener listener event)
    (fun err => modify (fun em =>
       mkEmitter (_listeners em) (em_state em) (em_did em) (em_error em) (world em)
         (console em ++ [err])%list)).

(** [this._listeners.forEach(f)], in insertion order. *)
Fixpoint forEach (ls : list nat) (f : nat -> M (Emitter L) unit) : M (Emitter L) unit :=
  match ls with
  | [] => ret tt
  | l :: rest => f l ;;; forEach rest f
  end.

Definition emit (type : VaultEventType) : M (Emitter L) unit :=
  event <- createEvent type ;;
  ls <- gets _listeners ;;
  forEach ls (deliver event).

(** [Set.prototype.add]: a member keeps its place, a new one goes last. *)
Definition add (listener : nat) (ls : list nat) : list nat :=
  if decide (listener ∈ ls) then ls else (ls ++ [listener])%list.

(** [subscribe(listener)]; the function it returns is [unsubscribe] of that
    listener, so the listener stands for it. *)
Definition subscribe (listener : nat) : M (Emitter L) nat :=
  modify (fun em => mkEmitter (add listener (_listeners em)) (em_state em) (em_did em)
                      (em_error em) (world em) (console em)) ;;;
  (* Immediately emit current state to new subscriber *)
  event <- createEvent StateChange ;;
  invokeListener listener event ;;;
  ret listener.

(** [() => { this._listeners.delete(listener) }] *)
Definition unsubscribe (listener : nat) : M (Emitter L) unit :=
  modify (fun em => mkEmitter (filter (fun l => l ≠ listener) (_listeners em)) (em_state em)
                      (em_did em) (em_error em) (world em) (console em)).

Definition listenerCount : M (Emitter L) nat := gets (fun em => length (_listeners em)).

Definition clear : M (Emitter L) unit :=
  modify (fun em => mkEmitter [] (em_state em) (em_did em) (em_error em) (world em)
                      (console em)).

End WithListeners.
End VaultEventEmitter.

(** The fields of [VaultController]; [_vault] is the [P47hVault] it holds,
    that is the facade.  The initialization orchestrator and [init], which
    run on timers, are left out: a controller is taken as [init] or a test
    leaves it.  [err instanceof Error ? err : new Error(String(err))] is
    [err]: every error of the model is an [Error]. *)
Record Controller (V L : Type) := mkController {
  _eventEmitter : Emitter L;
  _vault : option V;
  c_state : VaultState;
  c_did : option string;
  c_error : option exn;
  _storedIdentities : list string;
  c_isDisposed : bool }.
Arguments mkController {V L}.
Arguments _eventEmitter {V L}.
Arguments _vault {V L}.
Arguments c_state {V L}.
Arguments c_did {V L}.
Arguments c_error {V L}.
Arguments _storedIdentities {V L}.
Arguments c_isDisposed {V L}.

Module VaultController.
Section WithPorts.
Context {S C T Client L : Type}
  `{IStorage S} `{ICryptoPort C Client} `{Platform T} `{Listeners L}.
Abbreviation St := (State S C T Client).
Abbreviation Ctl := (Controller St L).

(** A call on the event emitter. *)
Definition onEmitter {A} (m : M (Emitter L) A) : M Ctl A :=
  fun κ =>
    let '(r, em') := m (_eventEmitter κ) in
    (r, mkController em' (_vault κ) (c_state κ) (c_did κ) (c_error κ)
          (_storedIdentities κ) (c_isDisposed κ)).

(** A call on [this.vault]; the getter throws when there is none. *)
Definition onVault {A} (m : M St A) : M Ctl A :=
  fun κ =>
    match _vault κ with
    | None =>
        (Throw (Foreign "Error: VaultController: Vault not initialized. Call init() first."), κ)
    | Some σ =>
        let '(r, σ') := m σ in
        (r, mkController (_eventEmitter κ) (Some σ') (c_state κ) (c_did κ) (c_error κ)
              (_storedIdentities κ) (c_isDisposed κ))
    end.

Definition set_error (e : option exn) (κ : Ctl) : Ctl :=
  mkController (_eventEmitter κ) (_vault κ) (c_state κ) (c_did κ) e
    (_storedIdentities κ) (c_isDisposed κ).

Definition set_storedIdentities (ids : list string) (κ : Ctl) : Ctl :=
  mkController (_eventEmitter κ) (_vault κ) (c_state κ) (c_did κ) (c_error κ)
    ids (c_isDisposed κ).

(** [this._eventEmitter.updateState(this._state, this._did, this._error)] *)
Definition syncEmitter : M Ctl unit :=
  fun κ => onEmitter (VaultEventEmitter.updateState (c_state κ) (c_did κ) (c_error κ)) κ.

(** [get isAuthenticated()] *)
Definition isAuthenticated : M Ctl bool :=
  gets (fun κ => bool_decide (c_state κ = SUnlocked) && bool_decide (is_Some (c_did κ))).

(** [_setState(state, options)]; [did] and [error] are [options?.did] and
    [options?.error], [None] for [undefined]. *)
Definition _setState (state : VaultState) (did : option (option string))
    (error : option (option exn)) : M Ctl unit :=
  fun κ =>
    let prevState := c_state κ in
    let prevDid := c_did κ in
    let did' := default (c_did κ) did in
    let error' :=
      match error with
      | Some e => e
      | None => if decide (state = SError) then c_error κ else None
      end in
    (syncEmitter ;;;
     if decide (prevDid = did') then
       if decide (prevState = state) then ret tt
       else onEmitter (VaultEventEmitter.emit StateChange)
     else onEmitter (VaultEventEmitter.emit AuthChange))
      (mkController (_eventEmitter κ) (_vault κ) state did' error'
         (_storedIdentities κ) (c_isDisposed κ)).

Definition _ensureReady : M Ctl unit :=
  fun κ =>
    match _vault κ with
    | None => (Throw (Foreign "Error: Vault not initialized. Wrap your app in <P47hProvider>."), κ)
    | Some _ =>
        match c_state κ with
        | SInit => (Throw (Foreign "Error: Vault still initializing. Please wait."), κ)
        | SError => (Throw (default (Foreign "Error: Vault in error state.") (c_error κ)), κ)
        | _ => (Ok tt, κ)
        end
    end.

Definition _ensureAuthenticated : M Ctl unit :=
  _ensureReady ;;;
  s <- gets c_state ;;
  if decide (s = SUnlocked) then ret tt
  else raise (Foreign "Error: Vault is locked. Please login first.").

(** The [catch] of [login] and [recover]: the error is recorded and
    announced, the state stays. *)
Definition reportError (err : exn) : M Ctl unit :=
  modify (set_error (Some err)) ;;;
  syncEmitter ;;;
  onEmitter (VaultEventEmitter.emit ErrorEvent).

Definition register (password : string) : M Ctl RegistrationResult :=
  _ensureReady ;;;
  try_catch
    (result <- onVault (VaultFacade.register password) ;;
     ids <- onVault VaultFacade.getStoredIdentities ;;
     modify (set_storedIdentities ids) ;;;
     _setState SUnlocked (Some (Some (reg_did result))) None ;;;
     ret result)
    (fun err => _setState SError None (Some (Some err)) ;;; raise err).

Definition login (password : string) (did : option string) : M Ctl unit :=
  _ensureReady ;;;
  try_catch
    (identity <- onVault (VaultFacade.login password did) ;;
     _setState SUnlocked (Some (Some (info_did identity))) None)
    (fun err => reportError err ;;; raise err).

Definition logout : M Ctl unit :=
  hadError <- gets (fun κ => bool_decide (is_Some (c_error κ))) ;;
  modify (set_error None) ;;;
  v <- gets _vault ;;
  s <- gets c_state ;;
  if bool_decide (is_Some v) && bool_decide (s = SUnlocked) then
    onVault VaultFacade.lock ;;;
    _setState SLocked (Some None) None
  else if hadError : bool then
    syncEmitter ;;;
    onEmitter (VaultEventEmitter.emit StateChange)
  else ret tt.

Definition recover (recoveryCode newPassword : string) : M Ctl unit :=
  _ensureReady ;;;
  try_catch
    (onVault (VaultFacade.recoverAccount
                (mkRecoveryOptions recoveryCode newPassword None (Some false))) ;;;
     _setState SLocked None None)
    (fun err => reportError err ;;; raise err).

Definition getSecret (key : string) : M Ctl (option string) :=
  _ensureAuthenticated ;;;
  onVault (VaultFacade.getSecret key).

Definition saveSecret (key value : string) : M Ctl unit :=
  _ensureAuthenticated ;;;
  onVault (VaultFacade.saveSecret key value).

(** [dispose()], but for [this._initOrchestrator.abort()]. *)
Definition dispose : M Ctl unit :=
  d <- gets c_isDisposed ;;
  if d : bool then ret tt
  else
    modify (fun κ => mkController (_eventEmitter κ) (_vault κ) (c_state κ) (c_did κ)
                       (c_error κ) (_storedIdentities κ) true) ;;;
    onEmitter VaultEventEmitter.clear ;;;
    v <- gets _vault ;;
    (if bool_decide (is_Some v) then
       onVault VaultFacade.dispose ;;;
       modify (fun κ => mkController (_eventEmitter κ) None (c_state κ) (c_did κ)
                          (c_error κ) (_storedIdentities κ) (c_isDisposed κ))
     else ret tt) ;;;
    _setState SInit (Some None) (Some None).

(** [subscribe(listener)] *)
Definition subscribe (listener : nat) : M Ctl nat :=
  onEmitter (VaultEventEmitter.subscribe listener).

(** The fields of the controller next to its emitter. *)
Definition face (κ : Ctl)
    : VaultState * option string * option exn * option St * list string * bool :=
  (c_state κ, c_did κ, c_error κ, _vault κ, _storedIdentities κ, c_isDisposed κ).

End WithPorts.
End VaultController.

(** Listeners that record what they are called with; those that [faulty]
    selects throw after recording. *)
Definition recorder (faulty : nat -> bool) : Listeners (list (nat * VaultEvent)) := {|
  call := fun l event w =>
    (if faulty l then Throw (Foreign "Error: listener failed") else Ok tt,
     (w ++ [(l, event)])%list) |}.

End VaultReact.

(** A store that behaves as a key-value store: reading changes nothing, a
    successful [save] is read back, a failed [save] leaves every record as
    it was. *)
Class KeyValueStore (S : Type) `{IStorage S} : Prop := {
  get_reads : forall k s, snd (IStorage.get k s) = s;
  save_writes : forall k b s s',
    IStorage.save k b s = (Ok tt, s') -> fst (IStorage.get k s') = Ok (Some b);
  save_atomic : forall k b s e s' k',
    IStorage.save k b s = (Throw e, s') ->
    fst (IStorage.get k' s') = fst (IStorage.get k' s) }.

(** The envelope under [d] in the store of [σ'] is [b] but for its main
    ciphertext and its time of update; when the call returned ([r]), the
    main ciphertext is a fresh one. *)
Definition framed {S C T Client : Type} `{IStorage S} `{Platform T}
    (d : string) (b : EncryptedVaultBlob) (r : Res unit) (σ' : State S C T Client) : Prop :=
  exists wd t,
    fst (IStorage.get d (store σ'))
    = Ok (Some (mkBlob (version b) (did b) (salt b) wd (recoveryBlob b) t)) /\
    (r = Ok tt -> exists ct, wd = Encoding.toBase64 ct).

(** [respects R m]: every run of [m], returning or throwing, takes a state
    to an [R]-related one. *)
Definition respects {Σ A} (R : relation Σ) (m : M Σ A) : Prop :=
  forall σ r σ', m σ = (r, σ') -> R σ σ'.

(** [keeps f]: the component [f] of the state is the same afterwards. *)
Definition keeps {Σ X} (f : Σ -> X) : relation Σ := fun σ σ' => f σ' = f σ.

(** The shape of a recovery code, as the tests of the register use case
    check it: [/^RK-[A-F0-9]{8}-[A-F0-9]{8}-[A-F0-9]{8}-[A-F0-9]{8}$/]. *)
Module RecoveryCodeFormat.

(** [[A-F0-9]] *)
Definition isUpperHex (c : ascii) : bool :=
  let n := N_of_ascii c in
  ((48 <=? n) && (n <=? 57) || (65 <=? n) && (n <=? 70))%N.

Fixpoint allUpperHex (s : string) : bool :=
  match s with
  | EmptyString => true
  | String c r => isUpperHex c && allUpperHex r
  end.

(** [[A-F0-9]{n}] at the head of [s]; what follows it. *)
Fixpoint group (n : nat) (s : string) : option string :=
  match n with
  | 0 => Some s
  | Datatypes.S n' =>
      match s with
      | String c r => if isUpperHex c then group n' r else None
      | EmptyString => None
      end
  end.

(** The pieces of the expression: a given character, or [n] characters of
    [[A-F0-9]]. *)
Inductive piece :=
| Lit (a : ascii)
| Hex (n : nat).

(** [s] is made of the pieces, in a row, and nothing else. *)
Fixpoint consume (p : list piece) (s : string) : bool :=
  match p with
  | [] => bool_decide (s = EmptyString)
  | Lit a :: p' =>
      match s with
      | String c r => bool_decide (c = a) && consume p' r
      | EmptyString => false
      end
  | Hex n :: p' =>
      match group n s with
      | Some r => consume p' r
      | None => false
      end
  end.

Definition matches (s : string) : bool :=
  consume [Lit "R"; Lit "K"; Lit "-"; Hex 8; Lit "-"; Hex 8;
           Lit "-"; Hex 8; Lit "-"; Hex 8]%char s.

End RecoveryCodeFormat.

(** What a recovery that returned [r] has done to the envelope [b] of [d]:
    it opened the recovery blob with the code, sealed the very bytes it
    found under the new password, and saved them in place of the main
    ciphertext, with the version, identifier and salt of [b].  The recovery
    blob is kept, and no code returned, unless rotation was asked for; then
    the same bytes are sealed under a new code, which is returned. *)
Definition resealed {S C T Client : Type} `{IStorage S} `{ICryptoPort C Client} `{Platform T}
    (o : RecoveryOptions) (d : string) (b : EncryptedVaultBlob) (r : RecoveryResult)
    (σ' : State S C T Client) : Prop :=
  exists rb bin plain main rb' t w1 w2,
    RecoverAccountUseCase.usableRecoveryBlob b = Some rb /\
    Platform.atob rb = Some bin /\
    fst (ICryptoPort.decryptVault (list_byte_of_string bin) (recoveryCode o) w1) = Ok plain /\
    fst (ICryptoPort.encryptVault plain (newPassword o) w2) = Ok main /\
    fst (IStorage.get d (store σ'))
    = Ok (Some (mkBlob (version b) (did b) (salt b) (Encoding.toBase64 main) (Some rb') t)) /\
    if default false (rotateRecoveryCode o) then
      exists rnd sealed w3,
        newRecoveryCode r = Some (RecoveryCode.format rnd) /\
        fst (ICryptoPort.encryptVault plain (RecoveryCode.format rnd) w3) = Ok sealed /\
        rb' = Encoding.toBase64 sealed
    else newRecoveryCode r = None /\ rb' = rb.

(** What a registration that returned [r] has persisted: an envelope of
    version 1 under the identifier returned, holding one payload -- for
    that identifier, with no secrets, and with the salt of the envelope --
    sealed twice: under the password, and under the recovery code
    returned. *)
Definition enrolled {S C T Client : Type} `{IStorage S} `{ICryptoPort C Client} `{Platform T}
    (password : string) (r : RegistrationResult) (σ' : State S C T Client) : Prop :=
  exists data main recovery rnd t w1 w2,
    i_did data = reg_did r /\ i_secrets data = ∅ /\
    reg_recoveryCode r = RecoveryCode.format rnd /\
    fst (ICryptoPort.encryptVault
           (Platform.TextEncoder_encode (Platform.JSON_stringify data)) password w1)
    = Ok main /\
    fst (ICryptoPort.encryptVault
           (Platform.TextEncoder_encode (Platform.JSON_stringify data))
           (reg_recoveryCode r) w2)
    = Ok recovery /\
    fst (IStorage.get (reg_did r) (store σ'))
    = Ok (Some (mkBlob 1 (reg_did r) (i_salt data) (Encoding.toBase64 main)
                  (Some (Encoding.toBase64 recovery)) t)).

(** [grows]: the buffers of [σ] are still there afterwards, with the bytes
    they held, and maybe more after them. *)
Definition grows {S C T Client : Type} : relation (State S C T Client) :=
  fun σ σ' => exists added, jsHeap σ' = (jsHeap σ ++ added)%list.


(** Laws that ports may obey, under which what one call wrote another
    call reads back. *)
Section PortLaws.
Context {C T Client : Type} `{ICryptoPort C Client} `{Platform T}.

(** [atob] undoes [btoa]. *)
Definition decodes_encoded : Prop :=
  forall s, Platform.atob (Platform.btoa s) = Some s.

(** [JSON.parse] and [TextDecoder] undo [JSON.stringify] and [TextEncoder]
    on the payloads that a registration builds for [d]. *)
Definition parses_rendered (d : string) : Prop :=
  forall ws salt t,
    Platform.JSON_parse
      (Platform.TextDecoder_decode
         (Platform.TextEncoder_encode
            (Platform.JSON_stringify
               (mkInternal d (Encoding.toBase64 ws) (Encoding.toBase64 salt) ∅ t))))
    = Some (mkInternal d (Encoding.toBase64 ws) (Encoding.toBase64 salt) ∅ t).

(** Decryption under [pw] undoes encryption under [pw], in whatever state
    the provider is. *)
Definition opens_sealed (pw : string) : Prop :=
  forall p ct w w',
    fst (ICryptoPort.encryptVault p pw w) = Ok ct ->
    fst (ICryptoPort.decryptVault ct pw w') = Ok p.

(** The key derived from [pw] and a salt depends on nothing else. *)
Definition derives_again (pw : string) : Prop :=
  forall salt k w w',
    fst (ICryptoPort.deriveSessionKey pw salt w) = Ok k ->
    fst (ICryptoPort.deriveSessionKey pw salt w') = Ok k.

(** A secret exported under a key is restored under that key, to a client
    that hands out its public key. *)
Definition unwraps_exported : Prop :=
  forall c k ws w w',
    fst (ICryptoPort.export_wrapped_secret c k w) = Ok ws ->
    exists c', fst (ICryptoPort.restoreIdentity ws k w') = Ok c' /\
               forall w'', exists pk, fst (ICryptoPort.get_public_key c' w'') = Ok pk.

End PortLaws.

(** What a registration under [pw] that returned [r] has left behind: a
    secret wrapped under the key derived from [pw] and a salt, inside a
    payload sealed under [pw] and under the recovery code, in the envelope
    stored for the identifier. *)
Definition registration_trace {S C T Client : Type}
    `{IStorage S} `{ICryptoPort C Client} `{Platform T}
    (pw : string) (r : RegistrationResult) (salt wrapped : bytes) (t0 : Z)
    (σ1 : State S C T Client) : Prop :=
  exists c key main recovery t w1 w2 w3 w4,
    fst (ICryptoPort.deriveSessionKey pw salt w1) = Ok key /\
    fst (ICryptoPort.export_wrapped_secret c key w2) = Ok wrapped /\
    fst (ICryptoPort.encryptVault
           (Platform.TextEncoder_encode (Platform.JSON_stringify
              (mkInternal (reg_did r) (Encoding.toBase64 wrapped) (Encoding.toBase64 salt)
                 ∅ t0))) pw w3) = Ok main /\
    fst (ICryptoPort.encryptVault
           (Platform.TextEncoder_encode (Platform.JSON_stringify
              (mkInternal (reg_did r) (Encoding.toBase64 wrapped) (Encoding.toBase64 salt)
                 ∅ t0))) (reg_recoveryCode r) w4) = Ok recovery /\
    fst (IStorage.get (reg_did r) (store σ1))
    = Ok (Some (mkBlob 1 (reg_did r) (Encoding.toBase64 salt) (Encoding.toBase64 main)
                  (Some (Encoding.toBase64 recovery)) t)).

(** A string without a line break: one line to [StubPlatform.lines]. *)
Fixpoint oneLine (s : string) : bool :=
  match s with
  | EmptyString => true
  | String c r => negb (bool_decide (c = ascii_of_nat 10)) && oneLine r
  end.

(** A live session over a store whose envelope opens to bytes that are no
    payload. *)
Module CorruptScenario.
Import MockWasmAdapter.



End CorruptScenario.

(** Controllers over the test doubles, with listeners that do nothing. *)
Module ControllerScenario.
Import VaultReact.

#[global] Instance silent : Listeners unit := {|
  call := fun _ _ u => (Ok tt, u) |}.

(** A controller that [init] left 'locked': the store holds an identity. *)
Definition locked : Controller Scenario.MockState unit :=
  mkController (mkEmitter [1; 2] SLocked None None tt []) (Some Scenario.locked)
    SLocked None None ["did:p47h:mock-identity"] false.

(** A controller made 'ready' around a vault that was never initialized. *)
Definition unprepared : Controller Scenario.MockState unit :=
  mkController (mkEmitter [1] SReady None None tt []) (Some Scenario.fresh)
    SReady None None [] false.

End ControllerScenario.

(* ===================================================================== *)
(** * Properties *)
(* ===================================================================== *)

(** ** Reasoning about computations *)

Section Computations.
Context {Σ : Type}.

Lemma bind_ok {A B} (m : M Σ A) (k : A -> M Σ B) σ a σ1 :
  m σ = (Ok a, σ1) -> bind m k σ = k a σ1.
Proof. intros E. unfold bind. by rewrite E. Qed.

Lemma bind_throw {A B} (m : M Σ A) (k : A -> M Σ B) σ e σ1 :
  m σ = (Throw e, σ1) -> bind m k σ = (Throw e, σ1).
Proof. intros E. unfold bind. by rewrite E. Qed.

Lemma bind_inv_ok {A B} (m : M Σ A) (k : A -> M Σ B) σ b σ' :
  bind m k σ = (Ok b, σ') ->
  exists a σ1, m σ = (Ok a, σ1) /\ k a σ1 = (Ok b, σ').
Proof.
  unfold bind. destruct (m σ) as [[a|e] σ1]; [eauto | discriminate].
Qed.

Lemma bind_inv {A B} (m : M Σ A) (k : A -> M Σ B) σ r σ' :
  bind m k σ = (r, σ') ->
  (exists a σ1, m σ = (Ok a, σ1) /\ k a σ1 = (r, σ')) \/
  (exists e, m σ = (Throw e, σ') /\ r = Throw e).
Proof.
  unfold bind. destruct (m σ) as [[a|e] σ1]; [eauto | intros [= <- <-]; eauto].
Qed.

Lemma try_catch_ok {A} (m : M Σ A) (h : exn -> M Σ A) σ a σ1 :
  m σ = (Ok a, σ1) -> try_catch m h σ = (Ok a, σ1).
Proof. intros E. unfold try_catch. by rewrite E. Qed.

Lemma try_catch_throw {A} (m : M Σ A) (h : exn -> M Σ A) σ e σ1 :
  m σ = (Throw e, σ1) -> try_catch m h σ = h e σ1.
Proof. intros E. unfold try_catch. by rewrite E. Qed.

Context (R : relation Σ) `{!PreOrder R}.

Lemma respects_ret {A} (a : A) : respects R (ret a).
Proof. intros σ r σ' [= _ <-]. reflexivity. Qed.

Lemma respects_raise {A} (e : exn) : respects R (@raise Σ A e).
Proof. intros σ r σ' [= _ <-]. reflexivity. Qed.

Lemma respects_gets {A} (f : Σ -> A) : respects R (gets f).
Proof. intros σ r σ' [= _ <-]. reflexivity. Qed.

Lemma respects_modify (f : Σ -> Σ) : (forall σ, R σ (f σ)) -> respects R (modify f).
Proof. intros Hf σ r σ' [= _ <-]. apply Hf. Qed.

Lemma respects_bind {A B} (m : M Σ A) (k : A -> M Σ B) :
  respects R m -> (forall a, respects R (k a)) -> respects R (bind m k).
Proof.
  intros Hm Hk σ r σ'. unfold bind.
  destruct (m σ) as [[a|e] σ1] eqn:E; intros E'.
  - transitivity σ1; [by eapply Hm | by eapply Hk].
  - injection E' as _ <-. by eapply Hm.
Qed.

Lemma respects_try_catch {A} (m : M Σ A) (h : exn -> M Σ A) :
  respects R m -> (forall e, respects R (h e)) -> respects R (try_catch m h).
Proof.
  intros Hm Hh σ r σ'. unfold try_catch.
  destruct (m σ) as [[a|e] σ1] eqn:E; intros E'.
  - injection E' as _ <-. by eapply Hm.
  - transitivity σ1; [by eapply Hm | by eapply Hh].
Qed.

End Computations.

(** ** What a computation leaves alone *)

#[global] Instance keeps_preorder {Σ X} (f : Σ -> X) : PreOrder (keeps f).
Proof. split; [by intros σ | intros σ1 σ2 σ3 H1 H2; unfold keeps in *; congruence]. Qed.

Section Frames.
Context {S C T Client : Type} `{IStorage S} `{ICryptoPort C Client} `{Platform T}.
Abbreviation St := (State S C T Client).
Context {X : Type} (f : St -> X).

Lemma keeps_onStore {A} (g : S -> Res A * S) :
  (forall s σ, f (set_store s σ) = f σ) -> respects (keeps f) (onStore g).
Proof.
  intros Hf σ r σ'. unfold onStore. destruct (g (store σ)) as [r' s'].
  intros [= _ <-]. apply Hf.
Qed.

Lemma keeps_onCrypto {A} (g : C -> Res A * C) :
  (forall c σ, f (set_wasm c σ) = f σ) -> respects (keeps f) (onCrypto g).
Proof.
  intros Hf σ r σ'. unfold onCrypto. destruct (g (wasm σ)) as [r' c'].
  intros [= _ <-]. apply Hf.
Qed.

Lemma keeps_now :
  (forall t σ, f (set_clock t σ) = f σ) -> respects (keeps f) now.
Proof.
  intros Hf σ r σ'. unfold now. destruct (Platform.Date_now (clock σ)) as [z t'].
  intros [= _ <-]. apply Hf.
Qed.

Lemma keeps_new_Uint8Array (b : bytes) :
  (forall h σ, f (set_jsHeap h σ) = f σ) -> respects (keeps f) (new_Uint8Array b).
Proof. intros Hf σ r σ' [= _ <-]. apply Hf. Qed.

Lemma keeps_contents (r : nat) : respects (keeps f) (contents r).
Proof. intros σ r' σ' [= _ <-]. reflexivity. Qed.

End Frames.

Create HintDb vault.
#[global] Hint Unfold
  SessionManager.clear SessionManager.establish SessionManager.isAuthenticated
  SessionManager.ensureAuthenticated SessionManager.getDid SessionManager.getClient
  SessionManager.getSessionKey SessionManager.getPassword SessionManager.getSecret
  SessionManager.setSecret SessionManager.deleteSecret SessionManager.getAllSecrets
  LoginUseCase.resolveTargetDid LoginUseCase.decryptOuter LoginUseCase.restoreSession
  LoginUseCase.unlock LoginUseCase.execute
  RecoveryCode.generateRecoveryCode
  RecoverAccountUseCase.resolveTargetDid RecoverAccountUseCase.recover
  RecoverAccountUseCase.execute
  SecretManagementUseCase.requireSession SecretManagementUseCase.parseInternal
  SecretManagementUseCase.persistSecrets SecretManagementUseCase.persistDeletion
  SecretManagementUseCase.saveSecret SecretManagementUseCase.getSecret
  SecretManagementUseCase.deleteSecret SecretManagementUseCase.listSecretKeys
  RegisterIdentityUseCase.execute Encoding.fromBase64
  VaultFacade.ensureNotDisposed VaultFacade.ensureInitialized
  VaultFacade.ensureAuthenticated VaultFacade.init VaultFacade.register
  VaultFacade.login VaultFacade.recoverAccount VaultFacade.lock
  VaultFacade.isAuthenticated VaultFacade.getDid VaultFacade.getStoredIdentities
  VaultFacade.sign VaultFacade.saveSecret VaultFacade.getSecret VaultFacade.dispose
  IVault.fmap : vault.

(** One step of a proof that a computation respects [keeps f]: through the
    combinators, down to the calls on the state, whose effect on [f] is
    computed. *)
Ltac frame_step :=
  lazymatch goal with
  | |- PreOrder _ => apply _
  | |- respects _ (bind _ _) => apply respects_bind; [ | | intros ? ]
  | |- respects _ (ret _) => apply respects_ret
  | |- respects _ (raise _) => apply respects_raise
  | |- respects _ (gets _) => apply respects_gets
  | |- respects _ (try_catch _ _) => apply respects_try_catch; [ | | intros ? ]
  | |- respects _ (modify _) => apply respects_modify; intros ?; reflexivity
  | |- respects _ (onStore _) => apply keeps_onStore; intros; reflexivity
  | |- respects _ (onCrypto _) => apply keeps_onCrypto; intros; reflexivity
  | |- respects _ now => apply keeps_now; intros; reflexivity
  | |- respects _ (new_Uint8Array _) => apply keeps_new_Uint8Array; intros; reflexivity
  | |- respects _ (contents _) => apply keeps_contents
  | |- respects _ (match ?x with _ => _ end) => destruct x
  end.

Ltac frame := autounfold with vault; repeat frame_step.

Section SessionFrames.
Context {S C T Client : Type} `{IStorage S} `{ICryptoPort C Client} `{Platform T}.
Abbreviation St := (State S C T Client).

Lemma clear_keeps_isDisposed : respects (keeps _isDisposed) (SessionManager.clear (S:=S) (T:=T)).
Proof. frame. Qed.

Lemma clear_keeps_isInitialized :
  respects (keeps _isInitialized) (SessionManager.clear (S:=S) (T:=T)).
Proof. frame. Qed.

Lemma clear_keeps_jsHeap : respects (keeps jsHeap) (SessionManager.clear (S:=S) (T:=T)).
Proof. frame. Qed.

Lemma clear_keeps_store : respects (keeps store) (SessionManager.clear (S:=S) (T:=T)).
Proof. frame. Qed.

Lemma clear_returns (σ : St) :
  fst (SessionManager.clear σ) = Ok tt /\ _session (snd (SessionManager.clear σ)) = None.
Proof.
  unfold SessionManager.clear, bind, gets, try_catch, onCrypto, modify, ret.
  destruct (_session σ) as [sd|] eqn:E; simpl; [|done].
  destruct (ICryptoPort.free (client sd) (wasm σ)) as [[[]|e] c']; simpl; done.
Qed.

Lemma login_keeps_isDisposed pw d :
  respects (keeps _isDisposed) (LoginUseCase.execute (S:=S) (T:=T) pw d).
Proof. frame. Qed.


Lemma recover_keeps_session o :
  respects (keeps _session) (RecoverAccountUseCase.execute (S:=S) (C:=C) (T:=T) o).
Proof. frame. Qed.

Lemma recover_keeps_isDisposed o :
  respects (keeps _isDisposed) (RecoverAccountUseCase.execute (S:=S) (C:=C) (T:=T) o).
Proof. frame. Qed.

Lemma recover_keeps_jsHeap o :
  respects (keeps jsHeap) (RecoverAccountUseCase.execute (S:=S) (C:=C) (T:=T) o).
Proof. frame. Qed.

End SessionFrames.

(* ===================================================================== *)
(** ** The guards of the facade *)
(* ===================================================================== *)

Section Guards.
Context {S C T Client : Type} `{IStorage S} `{ICryptoPort C Client} `{Platform T}.
Abbreviation St := (State S C T Client).

Lemma ensureNotDisposed_disposed (σ : St) :
  _isDisposed σ = true ->
  VaultFacade.ensureNotDisposed σ
  = (Throw (VaultError "VaultFacade has been disposed" "DISPOSED"), σ).
Proof. intros Hd. unfold VaultFacade.ensureNotDisposed, bind, gets. by rewrite Hd. Qed.

Lemma ensureInitialized_disposed (σ : St) :
  _isDisposed σ = true ->
  VaultFacade.ensureInitialized σ
  = (Throw (VaultError "VaultFacade has been disposed" "DISPOSED"), σ).
Proof.
  intros Hd. unfold VaultFacade.ensureInitialized, bind.
  by rewrite (ensureNotDisposed_disposed _ Hd).
Qed.

Lemma ensureAuthenticated_disposed (σ : St) :
  _isDisposed σ = true ->
  VaultFacade.ensureAuthenticated σ
  = (Throw (VaultError "VaultFacade has been disposed" "DISPOSED"), σ).
Proof.
  intros Hd. unfold VaultFacade.ensureAuthenticated, bind.
  by rewrite (ensureInitialized_disposed _ Hd).
Qed.

Lemma ensureInitialized_ok (σ : St) :
  _isDisposed σ = false -> _isInitialized σ = true ->
  VaultFacade.ensureInitialized σ = (Ok tt, σ).
Proof.
  intros Hd Hi.
  unfold VaultFacade.ensureInitialized, VaultFacade.ensureNotDisposed, bind, gets.
  rewrite Hd. cbn. by rewrite Hi.
Qed.


Lemma ensureInitialized_inv_ok (σ σ' : St) :
  VaultFacade.ensureInitialized σ = (Ok tt, σ') ->
  σ' = σ /\ _isDisposed σ = false /\ _isInitialized σ = true.
Proof.
  unfold VaultFacade.ensureInitialized, VaultFacade.ensureNotDisposed, bind, gets, ret, raise.
  destruct (_isDisposed σ); [discriminate|].
  destruct (_isInitialized σ); [|discriminate].
  by intros [= <-].
Qed.

(** Every method that starts with a guard throws the DISPOSED error on a
    disposed facade, and changes nothing. *)
Lemma guarded_call_on_disposed (σ : St) (c : IVault.Call) :
  _isDisposed σ = true -> IVault.guarded c = true ->
  IVault.invoke c σ
  = (Throw (VaultError "VaultFacade has been disposed" "DISPOSED"), σ).
Proof.
  intros Hd Hg. destruct c; try discriminate Hg; cbn [IVault.invoke];
    unfold IVault.fmap, VaultFacade.init, VaultFacade.register, VaultFacade.login,
      VaultFacade.recoverAccount, VaultFacade.getDid, VaultFacade.getStoredIdentities,
      VaultFacade.sign, VaultFacade.saveSecret, VaultFacade.getSecret, bind;
    rewrite ?(ensureAuthenticated_disposed _ Hd), ?(ensureInitialized_disposed _ Hd),
      ?(ensureNotDisposed_disposed _ Hd); reflexivity.
Qed.

Lemma dispose_disposes (σ : St) : _isDisposed (snd (VaultFacade.dispose σ)) = true.
Proof.
  unfold VaultFacade.dispose, bind, gets, ret.
  destruct (_isDisposed σ) eqn:Hd; [done|].
  unfold VaultFacade.lock. pose proof (clear_returns σ) as [Hc _].
  destruct (SessionManager.clear σ) as [[[]|e] σ1]; [reflexivity | discriminate Hc].
Qed.

Lemma lock_returns (σ : St) : fst (VaultFacade.lock σ) = Ok tt.
Proof. apply clear_returns. Qed.

Lemma invoke_stays_disposed (σ : St) (c : IVault.Call) :
  _isDisposed σ = true -> _isDisposed (snd (IVault.invoke c σ)) = true.
Proof.
  intros Hd. destruct (IVault.guarded c) eqn:Hg.
  - by rewrite guarded_call_on_disposed.
  - destruct c; try discriminate Hg; cbn [IVault.invoke]; unfold IVault.fmap, bind.
    + destruct (VaultFacade.lock σ) as [[[]|e] σ1] eqn:E; simpl;
        rewrite <- Hd; exact (clear_keeps_isDisposed _ _ _ E).
    + unfold VaultFacade.isAuthenticated, SessionManager.isAuthenticated, bind, gets, ret.
      simpl. done.
    + unfold VaultFacade.dispose, bind, gets, ret. rewrite Hd. done.
Qed.

Lemma runAll_stays_disposed (cs : list IVault.Call) (σ : St) :
  _isDisposed σ = true -> _isDisposed (IVault.runAll cs σ) = true.
Proof.
  revert σ. induction cs as [|c cs IH]; intros σ Hd; [done|].
  cbn. apply IH. by apply invoke_stays_disposed.
Qed.

(** C6, as amended.  After [dispose()], and whatever is called in between,
    every method that starts with a guard (init, register, login,
    recoverAccount, getDid, getStoredIdentities, sign, saveSecret,
    getSecret) throws the DISPOSED error and changes nothing; [lock()]
    returns normally, [isAuthenticated()] returns [false] and a second
    [dispose()] returns normally. *)
Theorem after_dispose (σ0 : St) (cs : list IVault.Call) (c : IVault.Call) :
  let σ := IVault.runAll cs (snd (VaultFacade.dispose σ0)) in
  match c with
  | IVault.Lock => fst (IVault.invoke c σ) = Ok IVault.RVoid
  | IVault.IsAuthenticated => IVault.invoke c σ = (Ok (IVault.RBool false), σ)
  | IVault.Dispose => IVault.invoke c σ = (Ok IVault.RVoid, σ)
  | _ => exists e, IVault.invoke c σ = (Throw e, σ) /\ is_Disposed e
  end.
Proof.
  intros σ.
  assert (Hd : _isDisposed σ = true)
    by (apply runAll_stays_disposed, dispose_disposes).
  destruct c;
    try (eexists; split;
         [apply guarded_call_on_disposed; [exact Hd | reflexivity] | reflexivity]).
  - cbn [IVault.invoke]. unfold IVault.fmap, bind.
    pose proof (lock_returns σ) as Hl.
    destruct (VaultFacade.lock σ) as [[[]|e] σ1]; [done | discriminate Hl].
  - cbn [IVault.invoke].
    unfold IVault.fmap, VaultFacade.isAuthenticated, SessionManager.isAuthenticated,
      bind, gets, ret.
    rewrite Hd. by rewrite andb_false_r.
  - cbn [IVault.invoke]. unfold IVault.fmap, VaultFacade.dispose, bind, gets, ret.
    by rewrite Hd.
Qed.

Lemma dispose_returns (σ : St) : fst (VaultFacade.dispose σ) = Ok tt.
Proof.
  unfold VaultFacade.dispose, VaultFacade.lock, bind, gets, modify, ret.
  pose proof (clear_returns σ) as [Hr _].
  destruct (_isDisposed σ); [done|].
  destruct (SessionManager.clear σ) as [[[]|e] σ1]; [done | discriminate Hr].
Qed.



End Guards.

(** C6, as stated, fails: on a disposed facade [lock()] returns and
    [isAuthenticated()] answers [false]; neither throws. *)
Lemma lock_on_disposed_returns :
  _isDisposed Scenario.disposed = true /\
  IVault.invoke IVault.Lock Scenario.disposed = (Ok IVault.RVoid, Scenario.disposed) /\
  IVault.invoke IVault.IsAuthenticated Scenario.disposed
  = (Ok (IVault.RBool false), Scenario.disposed) /\
  ~ (exists e, fst (IVault.invoke IVault.Lock Scenario.disposed) = Throw e /\ is_Disposed e).
Proof.
  repeat split; try (vm_compute; reflexivity).
  intros (e & He & _). vm_compute in He. discriminate He.
Qed.


(* ===================================================================== *)
(** ** Session teardown *)
(* ===================================================================== *)

Section Teardown.
Context {S C T Client : Type} `{IStorage S} `{ICryptoPort C Client} `{Platform T}.
Abbreviation St := (State S C T Client).

Lemma clear_effect (σ : St) :
  _session (snd (SessionManager.clear σ)) = None /\
  jsHeap (snd (SessionManager.clear σ)) = jsHeap σ.
Proof.
  split; [apply clear_returns|].
  destruct (SessionManager.clear σ) as [r σ'] eqn:E.
  exact (clear_keeps_jsHeap _ _ _ E).
Qed.

Lemma establish_effect (σ : St) c key d pw sec :
  _session (snd (SessionManager.establish c key d pw sec σ))
  = Some (mkSessionData c key d pw sec) /\
  jsHeap (snd (SessionManager.establish c key d pw sec σ)) = jsHeap σ.
Proof.
  unfold SessionManager.establish, bind, modify.
  pose proof (clear_returns σ) as [Hr _]. pose proof (clear_effect σ) as [_ Hh].
  destruct (SessionManager.clear σ) as [[[]|e] σ1]; [|discriminate Hr].
  simpl in *. by split.
Qed.



End Teardown.


(* ===================================================================== *)
(** ** Resolving the target identifier *)
(* ===================================================================== *)

Section Resolution.
Context {S C T Client : Type} `{IStorage S} `{ICryptoPort C Client} `{Platform T}.
Abbreviation St := (State S C T Client).

(** C9.  An empty identifier is no identifier: [login] and [recoverAccount]
    given [''] run exactly as when given none, in the use cases and through
    the facade.  They take the first key the store lists and go on with it;
    they throw AuthenticationError when the list is empty, and never look
    the empty string up in the store. *)
Theorem empty_did_is_no_did (pw : string) (o : RecoveryOptions) (σ : St) :
  let withDid d := mkRecoveryOptions (recoveryCode o) (newPassword o) d (rotateRecoveryCode o) in
  LoginUseCase.execute pw (Some "") σ = LoginUseCase.execute pw None σ /\
  VaultFacade.login pw (Some "") σ = VaultFacade.login pw None σ /\
  RecoverAccountUseCase.execute (withDid (Some "")) σ
  = RecoverAccountUseCase.execute (withDid None) σ /\
  VaultFacade.recoverAccount (withDid (Some "")) σ
  = VaultFacade.recoverAccount (withDid None) σ /\
  LoginUseCase.execute pw (Some "") σ
  = match IStorage.listKeys (store σ) with
    | (Ok [], s) =>
        (Throw (AuthenticationError "No identities found in storage"), set_store s σ)
    | (Ok (k :: _), s) => LoginUseCase.unlock pw k (set_store s σ)
    | (Throw e, s) => (Throw e, set_store s σ)
    end /\
  RecoverAccountUseCase.execute (withDid (Some "")) σ
  = match IStorage.listKeys (store σ) with
    | (Ok [], s) => (Throw (AuthenticationError "No vaults found"), set_store s σ)
    | (Ok (k :: _), s) => RecoverAccountUseCase.recover (withDid (Some "")) k (set_store s σ)
    | (Throw e, s) => (Throw e, set_store s σ)
    end.
Proof.
  cbv zeta. repeat split; try reflexivity.
  - unfold LoginUseCase.execute, LoginUseCase.resolveTargetDid.
    change (default "" (Some "")) with "".
    destruct (decide ("" = "")) as [_|Hn]; [|done].
    unfold bind, onStore.
    destruct (IStorage.listKeys (store σ)) as [[[|k ks]|e] s]; reflexivity.
  - unfold RecoverAccountUseCase.execute, RecoverAccountUseCase.resolveTargetDid.
    cbn [opt_did]. change (default "" (Some "")) with "".
    destruct (decide ("" = "")) as [_|Hn]; [|done].
    unfold bind, onStore.
    destruct (IStorage.listKeys (store σ)) as [[[|k ks]|e] s]; reflexivity.
Qed.

End Resolution.

(* ===================================================================== *)
(** ** The failures of login *)
(* ===================================================================== *)

Section LoginFailures.
Context {S C T Client : Type} `{IStorage S} `{ICryptoPort C Client} `{Platform T}.
Abbreviation St := (State S C T Client).

(** The facade's [login] on an initialized facade, split at the moment the
    envelope has been fetched. *)
Lemma login_fetched (pw : string) (did : option string) (σ σ1 σ2 : St) target blob :
  _isDisposed σ = false -> _isInitialized σ = true ->
  LoginUseCase.resolveTargetDid did σ = (Ok target, σ1) ->
  onStore (IStorage.get target) σ1 = (Ok (Some blob), σ2) ->
  VaultFacade.login pw did σ
  = bind (try_catch (LoginUseCase.decryptOuter blob pw)
            (fun _ => raise (AuthenticationError "Invalid password or corrupted vault")))
         (fun decryptedBytes =>
            match Platform.JSON_parse (Platform.TextDecoder_decode decryptedBytes) with
            | None => raise (VaultError "Vault data corruption: Invalid JSON" "CORRUPT_DATA")
            | Some internalData =>
                if decide (i_did internalData = target) then
                  LoginUseCase.restoreSession pw target internalData
                else
                  raise (VaultError "Integrity error: DID mismatch inside vault"
                           "INTEGRITY_ERROR")
            end) σ2.
Proof.
  intros Hd Hi Hres Hget.
  unfold VaultFacade.login. rewrite (bind_ok _ _ _ _ _ (ensureInitialized_ok σ Hd Hi)).
  unfold LoginUseCase.execute. rewrite (bind_ok _ _ _ _ _ Hres).
  unfold LoginUseCase.unlock. rewrite (bind_ok _ _ _ _ _ Hget). reflexivity.
Qed.

Lemma resolve_keeps_session (did : option string) :
  respects (keeps _session) (LoginUseCase.resolveTargetDid (S:=S) (C:=C) (T:=T) (Client:=Client) did).
Proof. frame. Qed.

Lemma fetch_keeps_session (target : string) :
  respects (keeps _session) (onStore (C:=C) (T:=T) (Client:=Client) (IStorage.get target)).
Proof. frame. Qed.

Lemma decryptOuter_keeps_session blob pw :
  respects (keeps _session) (LoginUseCase.decryptOuter (S:=S) (T:=T) blob pw).
Proof. frame. Qed.

(** C2.  When opening the envelope's main ciphertext under the given
    password fails -- whatever made it fail: a wrong password, a tampered
    ciphertext, text that is not Base64 -- [login] throws the one
    AuthenticationError 'Invalid password or corrupted vault'.  The thrown
    value does not depend on the cause, it is not the CORRUPT_DATA error,
    and the session is as it was. *)
Theorem login_open_failure (pw : string) (did : option string) (σ σ1 σ2 σ3 : St)
    (target : string) (blob : EncryptedVaultBlob) (cause : exn) :
  _isDisposed σ = false -> _isInitialized σ = true ->
  LoginUseCase.resolveTargetDid did σ = (Ok target, σ1) ->
  onStore (IStorage.get target) σ1 = (Ok (Some blob), σ2) ->
  LoginUseCase.decryptOuter blob pw σ2 = (Throw cause, σ3) ->
  let e := AuthenticationError "Invalid password or corrupted vault" in
  VaultFacade.login pw did σ = (Throw e, σ3) /\
  is_AuthenticationFailed e /\ ~ is_CorruptData e /\
  _session σ3 = _session σ.
Proof.
  intros Hd Hi Hres Hget Hopen e.
  split; [|split; [by split | split; [by intros [=] |]]].
  - rewrite (login_fetched pw did σ σ1 σ2 target blob Hd Hi Hres Hget).
    apply bind_throw. by rewrite (try_catch_throw _ _ _ _ _ Hopen).
  - pose proof (resolve_keeps_session _ _ _ _ Hres) as E1.
    pose proof (fetch_keeps_session _ _ _ _ Hget) as E2.
    pose proof (decryptOuter_keeps_session _ _ _ _ _ Hopen) as E3.
    unfold keeps in *. congruence.
Qed.

(** C3.  When the main ciphertext opens and parses but the payload's [did]
    is not the key the envelope was fetched under, [login] throws the
    INTEGRITY_ERROR error, which is no AuthenticationError. *)
Theorem login_did_mismatch (pw : string) (did : option string) (σ σ1 σ2 σ3 : St)
    (target : string) (blob : EncryptedVaultBlob) (plain : bytes)
    (data : VaultInternalData) :
  _isDisposed σ = false -> _isInitialized σ = true ->
  LoginUseCase.resolveTargetDid did σ = (Ok target, σ1) ->
  onStore (IStorage.get target) σ1 = (Ok (Some blob), σ2) ->
  LoginUseCase.decryptOuter blob pw σ2 = (Ok plain, σ3) ->
  Platform.JSON_parse (Platform.TextDecoder_decode plain) = Some data ->
  i_did data <> target ->
  let e := VaultError "Integrity error: DID mismatch inside vault" "INTEGRITY_ERROR" in
  VaultFacade.login pw did σ = (Throw e, σ3) /\
  is_IntegrityError e /\ ~ is_AuthenticationFailed e /\
  _session σ3 = _session σ.
Proof.
  intros Hd Hi Hres Hget Hopen Hparse Hne e.
  split; [|split; [done | split; [by intros [[=] _] |]]].
  - rewrite (login_fetched pw did σ σ1 σ2 target blob Hd Hi Hres Hget).
    rewrite (bind_ok _ _ _ _ _ (try_catch_ok _ _ _ _ _ Hopen)).
    rewrite Hparse. destruct (decide (i_did data = target)); [done | reflexivity].
  - pose proof (resolve_keeps_session _ _ _ _ Hres) as E1.
    pose proof (fetch_keeps_session _ _ _ _ Hget) as E2.
    pose proof (decryptOuter_keeps_session _ _ _ _ _ Hopen) as E3.
    unfold keeps in *. congruence.
Qed.

(** Whatever [restoreIdentity] throws, [login] throws, unchanged; no
    session is established. *)
Lemma login_rethrows_restore_failure (pw : string) (did : option string)
    (σ σ1 σ2 σ3 : St) (target : string) (blob : EncryptedVaultBlob) (plain : bytes)
    (data : VaultInternalData) (saltBin wrappedBin : string) (key : bytes)
    (c4 c5 : C) (e : exn) :
  _isDisposed σ = false -> _isInitialized σ = true ->
  LoginUseCase.resolveTargetDid did σ = (Ok target, σ1) ->
  onStore (IStorage.get target) σ1 = (Ok (Some blob), σ2) ->
  LoginUseCase.decryptOuter blob pw σ2 = (Ok plain, σ3) ->
  Platform.JSON_parse (Platform.TextDecoder_decode plain) = Some data ->
  i_did data = target ->
  Platform.atob (i_salt data) = Some saltBin ->
  Platform.atob (i_wrappedSecret data) = Some wrappedBin ->
  ICryptoPort.deriveSessionKey pw (list_byte_of_string saltBin) (wasm σ3) = (Ok key, c4) ->
  ICryptoPort.restoreIdentity (list_byte_of_string wrappedBin) key c4 = (Throw e, c5) ->
  exists σ', VaultFacade.login pw did σ = (Throw e, σ') /\ _session σ' = _session σ.
Proof.
  intros Hd Hi Hres Hget Hopen Hparse Heq Hsalt Hwrapped Hkdf Hrestore.
  eexists. split.
  - rewrite (login_fetched pw did σ σ1 σ2 target blob Hd Hi Hres Hget).
    rewrite (bind_ok _ _ _ _ _ (try_catch_ok _ _ _ _ _ Hopen)).
    rewrite Hparse. destruct (decide (i_did data = target)); [|done].
    unfold LoginUseCase.restoreSession, Encoding.fromBase64.
    rewrite Hsalt, Hwrapped. unfold bind, ret, onCrypto, new_Uint8Array, contents.
    rewrite Hkdf. cbn [wasm set_wasm set_jsHeap jsHeap].
    rewrite lookup_app_r by done. rewrite Nat.sub_diag. cbn [lookup list_lookup default].
    simpl. rewrite Hrestore. reflexivity.
  - pose proof (resolve_keeps_session _ _ _ _ Hres) as E1.
    pose proof (fetch_keeps_session _ _ _ _ Hget) as E2.
    pose proof (decryptOuter_keeps_session _ _ _ _ _ Hopen) as E3.
    unfold keeps in *. cbn. congruence.
Qed.

End LoginFailures.

(* ===================================================================== *)
(** ** Login over the WASM adapter *)
(* ===================================================================== *)

Section OverWasmAdapter.
Context {S W T Client : Type} `{IStorage S}
        `{WasmCryptoAdapter.P47hWasmModule W Client} `{Platform T}.
Abbreviation St := (State S (WasmCryptoAdapter.Adapter W) T Client).

(** The adapter turns whatever the module throws on unwrapping into a
    CryptoError that carries it as its cause. *)
Lemma restoreIdentity_wraps (wrapped key : bytes) (a : WasmCryptoAdapter.Adapter W)
    (cause : exn) (w' : W) :
  WasmCryptoAdapter.a_module a = true ->
  WasmCryptoAdapter.a_isInitialized a = true ->
  WasmCryptoAdapter.from_wrapped_secret wrapped key (WasmCryptoAdapter.instance a)
  = (Throw cause, w') ->
  WasmCryptoAdapter.restoreIdentity wrapped key a
  = (Throw (CryptoError "Failed to restore identity from wrapped secret" (Some cause)),
     WasmCryptoAdapter.mkAdapter true (WasmCryptoAdapter.a_wasmPath a) true w').
Proof.
  intros Hm Hi Hf.
  unfold WasmCryptoAdapter.restoreIdentity, WasmCryptoAdapter.guardedCall, try_catch, bind,
    WasmCryptoAdapter.getModule, WasmCryptoAdapter.onInstance, raise.
  rewrite Hm, Hi. cbn. rewrite Hf. cbn. by rewrite Hm, Hi.
Qed.

(** It throws nothing else. *)
Lemma restoreIdentity_throws_CryptoError (wrapped key : bytes)
    (a a' : WasmCryptoAdapter.Adapter W) (e : exn) :
  WasmCryptoAdapter.restoreIdentity wrapped key a = (Throw e, a') -> is_CryptoError e.
Proof.
  unfold WasmCryptoAdapter.restoreIdentity, WasmCryptoAdapter.guardedCall, try_catch, bind,
    WasmCryptoAdapter.getModule, WasmCryptoAdapter.onInstance, raise.
  destruct (negb (WasmCryptoAdapter.a_module a) || negb (WasmCryptoAdapter.a_isInitialized a)).
  - simpl. intros [= <- _]. by split.
  - simpl.
    destruct (WasmCryptoAdapter.from_wrapped_secret wrapped key (WasmCryptoAdapter.instance a))
      as [[c|cause] w']; simpl; [discriminate | intros [= <- _]; by split].
Qed.

(** C4, as amended.  When the main ciphertext opens, the payload parses and
    carries the identifier it was fetched under, its salt and wrapped secret
    decode and the key is derived, but the WASM module fails to unwrap the
    private key, [login] throws the CryptoError 'Failed to restore identity
    from wrapped secret' of the adapter, with the module's failure as its
    cause.  It is not turned into an AuthenticationError.  No session is
    established. *)
Theorem login_unwrap_failure (pw : string) (did : option string)
    (σ σ1 σ2 σ3 : St) (target : string) (blob : EncryptedVaultBlob) (plain : bytes)
    (data : VaultInternalData) (saltBin wrappedBin : string) (key : bytes)
    (a4 : WasmCryptoAdapter.Adapter W) (cause : exn) (w5 : W) :
  _isDisposed σ = false -> _isInitialized σ = true ->
  LoginUseCase.resolveTargetDid did σ = (Ok target, σ1) ->
  onStore (IStorage.get target) σ1 = (Ok (Some blob), σ2) ->
  LoginUseCase.decryptOuter blob pw σ2 = (Ok plain, σ3) ->
  Platform.JSON_parse (Platform.TextDecoder_decode plain) = Some data ->
  i_did data = target ->
  Platform.atob (i_salt data) = Some saltBin ->
  Platform.atob (i_wrappedSecret data) = Some wrappedBin ->
  WasmCryptoAdapter.deriveSessionKey pw (list_byte_of_string saltBin) (wasm σ3)
  = (Ok key, a4) ->
  WasmCryptoAdapter.a_module a4 = true ->
  WasmCryptoAdapter.a_isInitialized a4 = true ->
  WasmCryptoAdapter.from_wrapped_secret (list_byte_of_string wrappedBin) key
    (WasmCryptoAdapter.instance a4) = (Throw cause, w5) ->
  let e := CryptoError "Failed to restore identity from wrapped secret" (Some cause) in
  exists σ', VaultFacade.login pw did σ = (Throw e, σ') /\
             is_CryptoError e /\ ~ is_AuthenticationFailed e /\
             _session σ' = _session σ.
Proof.
  intros Hd Hi Hres Hget Hopen Hparse Heq Hsalt Hwrapped Hkdf Hm Hai Hunwrap e.
  destruct (login_rethrows_restore_failure pw did σ σ1 σ2 σ3 target blob plain data
              saltBin wrappedBin key a4 _ e Hd Hi Hres Hget Hopen Hparse Heq Hsalt
              Hwrapped Hkdf (restoreIdentity_wraps _ _ _ _ _ Hm Hai Hunwrap))
    as (σ' & Hlogin & Hsess).
  exists σ'. split; [exact Hlogin|]. split; [by split|]. split; [by intros [[=] _] | exact Hsess].
Qed.

End OverWasmAdapter.

(** C4, as stated, fails.  The envelope of [wasmDamaged] opens under the
    password, its payload parses and carries the right identifier, only
    the wrapped secret does not unwrap: [login] throws a CryptoError, which
    is no AuthenticationError. *)
Lemma unwrap_failure_is_not_authentication_failure :
  let σ := Scenario.wasmDamaged in
  let e := CryptoError "Failed to restore identity from wrapped secret"
             (Some (Foreign "Error: Decryption failed")) in
  (exists plain σ',
     LoginUseCase.decryptOuter Scenario.damagedBlob "password123" σ = (Ok plain, σ') /\
     Platform.JSON_parse (Platform.TextDecoder_decode plain) = Some Scenario.damagedPayload /\
     i_did Scenario.damagedPayload = "did:p47h:mock-identity") /\
  fst (VaultFacade.login "password123" (Some "did:p47h:mock-identity") σ) = Throw e /\
  ~ is_AuthenticationFailed e.
Proof.
  cbv zeta. split; [|split].
  - eexists _, _. split; [vm_compute; reflexivity|]. split; vm_compute; reflexivity.
  - vm_compute. reflexivity.
  - by intros [[=] _].
Qed.

Lemma login_unwrap_failure_witness :
  exists σ',
    VaultFacade.login "password123" None Scenario.wasmDamaged
    = (Throw (CryptoError "Failed to restore identity from wrapped secret"
                (Some (Foreign "Error: Decryption failed"))), σ') /\
    is_CryptoError (CryptoError "Failed to restore identity from wrapped secret"
                      (Some (Foreign "Error: Decryption failed"))) /\
    ~ is_AuthenticationFailed (CryptoError "Failed to restore identity from wrapped secret"
                                 (Some (Foreign "Error: Decryption failed"))) /\
    _session σ' = _session Scenario.wasmDamaged.
Proof.
  eapply (login_unwrap_failure "password123" None Scenario.wasmDamaged);
    try (vm_compute; reflexivity).
Defined.

Lemma login_open_failure_witness :
  VaultFacade.login "wrong" None Scenario.locked
  = (Throw (AuthenticationError "Invalid password or corrupted vault"), Scenario.locked) /\
  is_AuthenticationFailed (AuthenticationError "Invalid password or corrupted vault") /\
  ~ is_CorruptData (AuthenticationError "Invalid password or corrupted vault") /\
  _session Scenario.locked = _session Scenario.locked.
Proof.
  eapply (login_open_failure "wrong" None Scenario.locked);
    try (vm_compute; reflexivity).
Defined.

Lemma login_did_mismatch_witness :
  VaultFacade.login "password123" None Scenario.swapped
  = (Throw (VaultError "Integrity error: DID mismatch inside vault" "INTEGRITY_ERROR"),
     Scenario.swapped) /\
  is_IntegrityError (VaultError "Integrity error: DID mismatch inside vault" "INTEGRITY_ERROR") /\
  ~ is_AuthenticationFailed
      (VaultError "Integrity error: DID mismatch inside vault" "INTEGRITY_ERROR") /\
  _session Scenario.swapped = _session Scenario.swapped.
Proof.
  eapply (login_did_mismatch "password123" None Scenario.swapped);
    try (vm_compute; reflexivity).
  vm_compute. discriminate.
Defined.

(* ===================================================================== *)
(** ** The session cache and the store *)
(* ===================================================================== *)

Section Secrets.
Context {S C T Client : Type} `{IStorage S} `{ICryptoPort C Client} `{Platform T}.
Abbreviation St := (State S C T Client).

Lemma requireSession_live (σ : St) (sd : SessionData Client) :
  _session σ = Some sd -> SecretManagementUseCase.requireSession σ = (Ok tt, σ).
Proof.
  intros Hs. unfold SecretManagementUseCase.requireSession,
    SessionManager.isAuthenticated, bind, gets, ret. rewrite Hs.
  by rewrite bool_decide_eq_true_2.
Qed.

Lemma ensureAuthenticated_live (σ : St) (sd : SessionData Client) :
  _session σ = Some sd -> SessionManager.ensureAuthenticated σ = (Ok sd, σ).
Proof. intros Hs. unfold SessionManager.ensureAuthenticated, bind, gets. by rewrite Hs. Qed.

(** [saveSecret] on a live session: the cache is written, then the
    envelope is rewritten from the state reached. *)
Lemma saveSecret_cache_first (key value : string) (σ : St) (sd : SessionData Client) :
  _session σ = Some sd ->
  SecretManagementUseCase.saveSecret key value σ
  = SecretManagementUseCase.persistSecrets (s_did sd) (password sd)
      (set_session (Some (mkSessionData (client sd) (sessionKey sd) (s_did sd)
         (password sd) (<[key := value]> (secrets sd)))) σ).
Proof.
  intros Hs. unfold SecretManagementUseCase.saveSecret.
  rewrite (bind_ok _ _ _ _ _ (requireSession_live σ sd Hs)).
  unfold SessionManager.getDid, SessionManager.getPassword, SessionManager.setSecret.
  unfold bind at 1 2. rewrite (ensureAuthenticated_live σ sd Hs). cbn [ret].
  unfold bind at 1 2. rewrite (ensureAuthenticated_live σ sd Hs). cbn [ret].
  unfold bind at 1 2. rewrite (ensureAuthenticated_live σ sd Hs). reflexivity.
Qed.

(** [deleteSecret] likewise. *)
Lemma deleteSecret_cache_first (key : string) (σ : St) (sd : SessionData Client) :
  _session σ = Some sd ->
  SecretManagementUseCase.deleteSecret key σ
  = SecretManagementUseCase.persistDeletion (s_did sd) (password sd) key
      (set_session (Some (mkSessionData (client sd) (sessionKey sd) (s_did sd)
         (password sd) (delete key (secrets sd)))) σ).
Proof.
  intros Hs. unfold SecretManagementUseCase.deleteSecret.
  rewrite (bind_ok _ _ _ _ _ (requireSession_live σ sd Hs)).
  unfold SessionManager.getDid, SessionManager.getPassword, SessionManager.deleteSecret.
  unfold bind at 1 2. rewrite (ensureAuthenticated_live σ sd Hs). cbn [ret].
  unfold bind at 1 2. rewrite (ensureAuthenticated_live σ sd Hs). cbn [ret].
  unfold bind at 1 2. rewrite (ensureAuthenticated_live σ sd Hs). reflexivity.
Qed.





(** The example of the claim: with the envelope missing from the store,
    [saveSecret] throws the STORAGE_ERROR error. *)
Lemma saveSecret_missing_envelope (key value : string) (σ : St) (sd : SessionData Client)
    (s' : S) :
  _isDisposed σ = false -> _isInitialized σ = true -> _session σ = Some sd ->
  IStorage.get (s_did sd) (store σ) = (Ok None, s') ->
  exists σ', VaultFacade.saveSecret key value σ
             = (Throw (VaultError "Storage corruption during save" "STORAGE_ERROR"), σ').
Proof.
  intros Hd Hi Hs Hget. eexists.
  unfold VaultFacade.saveSecret.
  rewrite (bind_ok _ _ _ _ _ (ensureInitialized_ok σ Hd Hi)).
  rewrite (saveSecret_cache_first key value σ sd Hs).
  unfold SecretManagementUseCase.persistSecrets, bind, onStore. cbn [store set_session].
  rewrite Hget. reflexivity.
Qed.

End Secrets.


(* ===================================================================== *)
(** ** Recovery and the session *)
(* ===================================================================== *)

Section Recovery.
Context {S C T Client : Type} `{IStorage S} `{ICryptoPort C Client} `{Platform T}.
Abbreviation St := (State S C T Client).

(** A [login] that returns has established a session for its target, with
    the password it was given. *)
Lemma restoreSession_ok (pw target : string) (data : VaultInternalData)
    (σ σ' : St) (info : IdentityInfo) :
  LoginUseCase.restoreSession pw target data σ = (Ok info, σ') ->
  exists sd, _session σ' = Some sd /\ s_did sd = target /\ password sd = pw /\
             secrets sd = i_secrets data /\ info_did info = target.
Proof.
  unfold LoginUseCase.restoreSession. intros Hrun.
  apply bind_inv_ok in Hrun as (salt & σ1 & _ & Hrun).
  apply bind_inv_ok in Hrun as (key & σ2 & _ & Hrun).
  apply bind_inv_ok in Hrun as (ref & σ3 & _ & Hrun).
  apply bind_inv_ok in Hrun as (wrapped & σ4 & _ & Hrun).
  apply bind_inv_ok in Hrun as (keyBytes & σ5 & _ & Hrun).
  apply bind_inv_ok in Hrun as (c & σ6 & _ & Hrun).
  apply bind_inv_ok in Hrun as ([] & σ7 & Hest & Hrun).
  apply bind_inv_ok in Hrun as (pk & σ8 & Hpk & Hrun).
  injection Hrun as <- <-.
  pose proof (establish_effect σ6 c ref target pw (i_secrets data)) as [Hs _].
  rewrite Hest in Hs. cbn [snd] in Hs.
  pose proof (keeps_onCrypto _session _ (fun _ _ => eq_refl) _ _ _ Hpk) as Ek.
  unfold keeps in Ek. eexists. split; [by rewrite Ek|]. done.
Qed.

Lemma unlock_ok (pw target : string) (σ σ' : St) (info : IdentityInfo) :
  LoginUseCase.unlock pw target σ = (Ok info, σ') ->
  exists sd, _session σ' = Some sd /\ s_did sd = target /\ password sd = pw /\
             info_did info = target.
Proof.
  unfold LoginUseCase.unlock. intros Hrun.
  apply bind_inv_ok in Hrun as ([blob|] & σ1 & _ & Hrun); [|discriminate Hrun].
  apply bind_inv_ok in Hrun as (plain & σ2 & _ & Hrun).
  destruct (Platform.JSON_parse (Platform.TextDecoder_decode plain)) as [data|];
    [|discriminate Hrun].
  destruct (decide (i_did data = target)); [|discriminate Hrun].
  apply restoreSession_ok in Hrun as (sd & ? & ? & ? & ? & ?). eauto.
Qed.

Lemma login_ok (pw : string) (did : option string) (σ σ' : St) (info : IdentityInfo) :
  LoginUseCase.execute pw did σ = (Ok info, σ') ->
  exists sd, _session σ' = Some sd /\ password sd = pw /\ s_did sd = info_did info /\
             (forall d, did = Some d -> d <> "" -> s_did sd = d).
Proof.
  unfold LoginUseCase.execute. intros Hrun.
  apply bind_inv_ok in Hrun as (target & σ1 & Hres & Hrun).
  apply unlock_ok in Hrun as (sd & Hs & Hd & Hp & Hi).
  exists sd. repeat split; [done | done | congruence |].
  intros d -> Hne. rewrite Hd.
  unfold LoginUseCase.resolveTargetDid in Hres.
  change (default "" (Some d)) with d in Hres.
  destruct (decide (d = "")); [done|]. unfold ret in Hres. by injection Hres as <- _.
Qed.

(** C1, as amended.  The facade's [recoverAccount] runs the recovery use
    case, which leaves the session as it was, and then logs in with the
    new password and the recovered identifier.  So when [recoverAccount]
    returns, the engine holds a session established with the new password
    (for the recovered identifier), and [isAuthenticated()] is true -- also
    when the engine was locked before the call. *)
Theorem recoverAccount_logs_in (o : RecoveryOptions) (σ σ' : St) (r : RecoveryResult) :
  VaultFacade.recoverAccount o σ = (Ok r, σ') ->
  (exists sd, _session σ' = Some sd /\ password sd = newPassword o /\
              (rec_did r <> "" -> s_did sd = rec_did r)) /\
  VaultFacade.isAuthenticated σ' = (Ok true, σ') /\
  (exists σ1, RecoverAccountUseCase.execute o σ = (Ok r, σ1) /\ _session σ1 = _session σ).
Proof.
  unfold VaultFacade.recoverAccount. intros Hrun.
  apply bind_inv_ok in Hrun as ([] & σ0 & Hinit & Hrun).
  apply ensureInitialized_inv_ok in Hinit as (-> & Hd & Hi).
  apply bind_inv_ok in Hrun as (result & σ1 & Hrec & Hrun).
  apply bind_inv_ok in Hrun as (info & σ2 & Hlogin & Hrun).
  injection Hrun as <- <-.
  unfold VaultFacade.login in Hlogin.
  apply bind_inv_ok in Hlogin as ([] & σ1' & Hinit & Hlogin).
  apply ensureInitialized_inv_ok in Hinit as (-> & Hd1 & Hi1).
  pose proof (login_keeps_isDisposed _ _ _ _ _ Hlogin) as Ed. unfold keeps in Ed.
  apply login_ok in Hlogin as (sd & Hs & Hp & _ & Hdid).
  split; [|split].
  - exists sd. split; [done|]. split; [done|]. intros Hne. by apply Hdid.
  - unfold VaultFacade.isAuthenticated, SessionManager.isAuthenticated, bind, gets, ret.
    rewrite Hs, Ed, Hd1. by rewrite bool_decide_eq_true_2.
  - exists σ1. split; [done|]. exact (recover_keeps_session _ _ _ _ Hrec).
Qed.

End Recovery.

(** C1, as stated, fails: [recoverAccount] on a locked engine returns with
    the engine unlocked. *)
Lemma recover_while_locked_unlocks :
  let o := mkRecoveryOptions "RK-2A2A2A2A-2A2A2A2A-2A2A2A2A-2A2A2A2A" "pw2" None None in
  let run := VaultFacade.recoverAccount o Scenario.locked in
  VaultFacade.isAuthenticated Scenario.locked = (Ok false, Scenario.locked) /\
  fst run = Ok (mkRecoveryResult "did:p47h:mock-identity" None) /\
  VaultFacade.isAuthenticated (snd run) = (Ok true, snd run) /\
  _session (snd run) <> _session Scenario.locked.
Proof.
  cbv zeta. repeat split; try (vm_compute; reflexivity).
  vm_compute. discriminate.
Qed.

Lemma recoverAccount_logs_in_witness :
  let o := mkRecoveryOptions "RK-2A2A2A2A-2A2A2A2A-2A2A2A2A-2A2A2A2A" "pw2" None None in
  let r := mkRecoveryResult "did:p47h:mock-identity" None in
  let σ' := snd (VaultFacade.recoverAccount o Scenario.locked) in
  (exists sd, _session σ' = Some sd /\ password sd = newPassword o /\
              (rec_did r <> "" -> s_did sd = rec_did r)) /\
  VaultFacade.isAuthenticated σ' = (Ok true, σ') /\
  (exists σ1, RecoverAccountUseCase.execute o Scenario.locked = (Ok r, σ1) /\
              _session σ1 = _session Scenario.locked).
Proof.
  cbv zeta.
  apply (recoverAccount_logs_in
           (mkRecoveryOptions "RK-2A2A2A2A-2A2A2A2A-2A2A2A2A-2A2A2A2A" "pw2" None None)
           Scenario.locked).
  vm_compute. reflexivity.
Defined.

(* ===================================================================== *)
(** ** What secret mutations rewrite in the envelope *)
(* ===================================================================== *)

(** A step that leaves the store alone, in a run [Hrun] that started from a
    store with the contents of [σ]'s: either it throws, and the run ends
    with the store as it was, or the run goes on. *)
Ltac store_step Hrun Hstore finish :=
  let a := fresh "a" in
  let σn := fresh "σ" in
  let e := fresh "e" in
  let Hm := fresh "Hm" in
  let K := fresh "K" in
  apply bind_inv in Hrun as [(a & σn & Hm & Hrun) | (e & Hm & ->)];
  (lazymatch type of Hm with
   | ?m _ = _ => assert (K : respects (keeps store) m) by frame; apply K in Hm; clear K
   end);
  unfold keeps in Hm; rewrite Hstore in Hm;
  [ clear Hstore; rename Hm into Hstore | finish Hm ].

Section EnvelopeFrame.
Context {S C T Client : Type} `{IStorage S} `{ICryptoPort C Client} `{Platform T}.
Context `{!KeyValueStore S}.
Abbreviation St := (State S C T Client).

Lemma framed_unchanged (d : string) (b : EncryptedVaultBlob) (e : exn) (σ σ' : St) :
  fst (IStorage.get d (store σ)) = Ok (Some b) ->
  store σ' = store σ -> framed d b (Throw e) σ'.
Proof.
  intros Hget Hst. exists (wrappedData b), (updatedAt b). rewrite Hst, Hget.
  split; [by destruct b | discriminate].
Qed.

Lemma framed_save (d : string) (b : EncryptedVaultBlob) (ct : bytes) (t : Z)
    (σ σk σ' : St) (r : Res unit) :
  fst (IStorage.get d (store σ)) = Ok (Some b) ->
  store σk = store σ ->
  onStore (IStorage.save d
    (mkBlob (version b) (did b) (salt b) (Encoding.toBase64 ct) (recoveryBlob b) t)) σk
  = (r, σ') ->
  framed d b r σ'.
Proof.
  intros Hget Hst. unfold onStore.
  destruct (IStorage.save d _ (store σk)) as [[[]|e] s'] eqn:Es; intros [= <- <-];
    unfold framed; cbn [store set_store].
  - exists (Encoding.toBase64 ct), t. split; [by apply save_writes in Es | eauto].
  - exists (wrappedData b), (updatedAt b).
    rewrite (save_atomic _ _ _ _ _ d Es), Hst, Hget. split; [by destruct b | discriminate].
Qed.

Lemma fetch_stored (d : string) (b : EncryptedVaultBlob) (σ σ1 : St)
    (got : option EncryptedVaultBlob) :
  fst (IStorage.get d (store σ)) = Ok (Some b) ->
  onStore (IStorage.get d) σ = (Ok got, σ1) ->
  got = Some b /\ store σ1 = store σ.
Proof.
  intros Hget. unfold onStore. pose proof (get_reads d (store σ)) as Hr.
  destruct (IStorage.get d (store σ)) as [rg s1]. cbn in Hget, Hr. subst.
  intros [= <- <-]. done.
Qed.

Lemma fetch_stored_throw (d : string) (b : EncryptedVaultBlob) (σ σ1 : St) (e : exn) :
  fst (IStorage.get d (store σ)) = Ok (Some b) ->
  onStore (IStorage.get d) σ = (Throw e, σ1) -> False.
Proof.
  intros Hget. unfold onStore.
  destruct (IStorage.get d (store σ)) as [rg s1]. cbn in Hget. subst. discriminate.
Qed.

Lemma persistSecrets_frame (d pw : string) (b : EncryptedVaultBlob) (σ σ' : St)
    (r : Res unit) :
  fst (IStorage.get d (store σ)) = Ok (Some b) ->
  SecretManagementUseCase.persistSecrets d pw σ = (r, σ') ->
  framed d b r σ'.
Proof.
  intros Hget Hrun. unfold SecretManagementUseCase.persistSecrets in Hrun.
  apply bind_inv in Hrun as [(got & σ1 & Hf & Hrun) | (e & Hf & ->)];
    [|by destruct (fetch_stored_throw _ _ _ _ _ Hget Hf)].
  destruct (fetch_stored _ _ _ _ _ Hget Hf) as [-> Hst].
  pose (finish := fun e (σz : St) (E : store σz = store σ) => framed_unchanged d b e σ σz Hget E).
  store_step Hrun Hst ltac:(fun E => exact (finish _ _ E)).
  store_step Hrun Hst ltac:(fun E => exact (finish _ _ E)).
  store_step Hrun Hst ltac:(fun E => exact (finish _ _ E)).
  store_step Hrun Hst ltac:(fun E => exact (finish _ _ E)).
  store_step Hrun Hst ltac:(fun E => exact (finish _ _ E)).
  store_step Hrun Hst ltac:(fun E => exact (finish _ _ E)).
  store_step Hrun Hst ltac:(fun E => exact (finish _ _ E)).
  by eapply framed_save.
Qed.

Lemma persistDeletion_frame (d pw key : string) (b : EncryptedVaultBlob) (σ σ' : St)
    (r : Res unit) :
  fst (IStorage.get d (store σ)) = Ok (Some b) ->
  SecretManagementUseCase.persistDeletion d pw key σ = (r, σ') ->
  framed d b r σ'.
Proof.
  intros Hget Hrun. unfold SecretManagementUseCase.persistDeletion in Hrun.
  apply bind_inv in Hrun as [(got & σ1 & Hf & Hrun) | (e & Hf & ->)];
    [|by destruct (fetch_stored_throw _ _ _ _ _ Hget Hf)].
  destruct (fetch_stored _ _ _ _ _ Hget Hf) as [-> Hst].
  pose (finish := fun e (σz : St) (E : store σz = store σ) => framed_unchanged d b e σ σz Hget E).
  store_step Hrun Hst ltac:(fun E => exact (finish _ _ E)).
  store_step Hrun Hst ltac:(fun E => exact (finish _ _ E)).
  store_step Hrun Hst ltac:(fun E => exact (finish _ _ E)).
  store_step Hrun Hst ltac:(fun E => exact (finish _ _ E)).
  store_step Hrun Hst ltac:(fun E => exact (finish _ _ E)).
  store_step Hrun Hst ltac:(fun E => exact (finish _ _ E)).
  by eapply framed_save.
Qed.

End EnvelopeFrame.

Section SecretMutations.
Context {S C T Client : Type} `{IStorage S} `{ICryptoPort C Client} `{Platform T}.
Context `{!KeyValueStore S}.
Abbreviation St := (State S C T Client).

Lemma framed_fields (d : string) (b : EncryptedVaultBlob) (r : Res unit) (σ' : St) :
  framed d b r σ' ->
  exists b', fst (IStorage.get d (store σ')) = Ok (Some b') /\
             version b' = version b /\ did b' = did b /\ salt b' = salt b /\
             recoveryBlob b' = recoveryBlob b /\
             (r = Ok tt -> exists ct, wrappedData b' = Encoding.toBase64 ct).
Proof. intros (wd & t & Hget & Hwd). eexists. split; [exact Hget|]. by repeat split. Qed.

(** C5.  On a live session, whose envelope [b] is in the store under the
    session's identifier, a [saveSecret] or a [deleteSecret] -- returning
    or throwing -- leaves in the store an envelope with the [version], [did],
    [salt] and [recoveryBlob] of [b]: only [wrappedData] and [updatedAt] are
    rewritten, and when the call returns [wrappedData] is a fresh
    ciphertext.  The store is any store that behaves as a key-value store. *)
Theorem secret_mutations_frame_envelope (op : M St unit) (key value : string)
    (σ σ' : St) (sd : SessionData Client) (b : EncryptedVaultBlob) (r : Res unit) :
  op = SecretManagementUseCase.saveSecret key value \/
  op = SecretManagementUseCase.deleteSecret key \/
  op = VaultFacade.saveSecret key value ->
  _session σ = Some sd ->
  fst (IStorage.get (s_did sd) (store σ)) = Ok (Some b) ->
  op σ = (r, σ') ->
  exists b', fst (IStorage.get (s_did sd) (store σ')) = Ok (Some b') /\
             version b' = version b /\ did b' = did b /\ salt b' = salt b /\
             recoveryBlob b' = recoveryBlob b /\
             (r = Ok tt -> exists ct, wrappedData b' = Encoding.toBase64 ct).
Proof.
  intros Hop Hs Hget Hrun. apply framed_fields.
  destruct Hop as [-> | [-> | ->]].
  - rewrite (saveSecret_cache_first key value σ sd Hs) in Hrun.
    eapply persistSecrets_frame; [|exact Hrun]; exact Hget.
  - rewrite (deleteSecret_cache_first key σ sd Hs) in Hrun.
    eapply persistDeletion_frame; [|exact Hrun]; exact Hget.
  - unfold VaultFacade.saveSecret in Hrun.
    apply bind_inv in Hrun as [([] & σ0 & Hg & Hrun) | (e & Hg & ->)].
    + apply ensureInitialized_inv_ok in Hg as (-> & _ & _).
      rewrite (saveSecret_cache_first key value σ sd Hs) in Hrun.
      eapply persistSecrets_frame; [|exact Hrun]; exact Hget.
    + eapply framed_unchanged; [exact Hget|].
      assert (K : respects (keeps store) (VaultFacade.ensureInitialized (S:=S) (C:=C) (T:=T) (Client:=Client)))
        by frame.
      exact (K _ _ _ Hg).
Qed.

End SecretMutations.

(** [MockStorage] behaves as a key-value store. *)
Lemma MockStorage_lookup_set (key : string) (data : EncryptedVaultBlob) (m : MockStorage.db) :
  MockStorage.lookup key (MockStorage.set key data m) = Some data.
Proof.
  induction m as [|[k v] rest IH]; cbn.
  - by destruct (decide (key = key)).
  - destruct (decide (k = key)) as [->|Hne]; cbn.
    + by destruct (decide (key = key)).
    + by destruct (decide (k = key)).
Qed.

#[global] Instance MockStorage_KeyValueStore : KeyValueStore MockStorage.db.
Proof.
  split.
  - done.
  - intros k b s s' [= <-]. cbn. by rewrite MockStorage_lookup_set.
  - intros k b s e s' k' [=].
Qed.

Lemma secret_mutations_frame_envelope_witness :
  let run := VaultFacade.saveSecret "api_key" "v" Scenario.registered in
  exists b b',
    fst (IStorage.get "did:p47h:mock-identity" (store Scenario.registered)) = Ok (Some b) /\
    fst (IStorage.get "did:p47h:mock-identity" (store (snd run))) = Ok (Some b') /\
    version b' = version b /\ did b' = did b /\ salt b' = salt b /\
    recoveryBlob b' = recoveryBlob b /\
    (fst run = Ok tt -> exists ct, wrappedData b' = Encoding.toBase64 ct).
Proof.
  cbv zeta.
  destruct (secret_mutations_frame_envelope
              (VaultFacade.saveSecret "api_key" "v") "api_key" "v"
              Scenario.registered
              (snd (VaultFacade.saveSecret "api_key" "v" Scenario.registered))
              (mkSessionData "did:p47h:mock-identity" 0 "did:p47h:mock-identity"
                 "password123" ∅)
              (mkBlob 1 "did:p47h:mock-identity" "2A2A2A2A2A2A2A2A2A2A2A2A2A2A2A2A"
                 "9B969BC58FCBC897C592909C94D2969B9A918B968B86F5BEBEBDBDC8CFF5CDBECDBECDBECDBECDBECDBECDBECDBECDBECDBECDBECDBECDBECDBECDBECDBEF5CECFCFCF"
                 (Some "9B969BC58FCBC897C592909C94D2969B9A918B968B86F5BEBEBDBDC8CFF5CDBECDBECDBECDBECDBECDBECDBECDBECDBECDBECDBECDBECDBECDBECDBECDBEF5CECFCFCF")
                 1001)
              (fst (VaultFacade.saveSecret "api_key" "v" Scenario.registered)))
    as (b' & Hb' & Hrest).
  - right. right. reflexivity.
  - vm_compute. reflexivity.
  - vm_compute. reflexivity.
  - by destruct (VaultFacade.saveSecret "api_key" "v" Scenario.registered).
  - eexists _, b'. split; [vm_compute; reflexivity|]. split; [exact Hb' | exact Hrest].
Defined.

(* ===================================================================== *)
(** ** The integration tests of the repository, run on the model *)
(* ===================================================================== *)

(** 'should register a new identity successfully' *)
Example test_register :
  fst (VaultFacade.register "password123" Scenario.ready)
  = Ok (mkRegistrationResult "did:p47h:mock-identity"
          "RK-2A2A2A2A-2A2A2A2A-2A2A2A2A-2A2A2A2A") /\
  fst (VaultFacade.isAuthenticated Scenario.registered) = Ok true /\
  fst (VaultFacade.getDid Scenario.registered) = Ok "did:p47h:mock-identity" /\
  fst (VaultFacade.getStoredIdentities Scenario.registered) = Ok ["did:p47h:mock-identity"].
Proof. repeat split; vm_compute; reflexivity. Qed.

(** 'should throw if not initialized' *)
Example test_not_initialized :
  fst (VaultFacade.register "password" Scenario.fresh)
  = Throw (InitializationError "VaultFacade not initialized. Call init() first." None).
Proof. vm_compute. reflexivity. Qed.

(** 'should login with correct password', 'should fail login with wrong
    password' *)
Example test_login :
  fst (VaultFacade.isAuthenticated Scenario.locked) = Ok false /\
  fst (VaultFacade.login "password123" (Some "did:p47h:mock-identity") Scenario.locked)
  = Ok (mkIdentityInfo "did:p47h:mock-identity" [x01; x02; x03]) /\
  fst (VaultFacade.isAuthenticated
         (snd (VaultFacade.login "password123" None Scenario.locked))) = Ok true /\
  fst (VaultFacade.login "wrong" None Scenario.locked)
  = Throw (AuthenticationError "Invalid password or corrupted vault").
Proof. repeat split; vm_compute; reflexivity. Qed.

(** 'should save and retrieve a secret', 'should persist secrets across
    lock/unlock', 'should throw when saving secret while locked' *)
Example test_secrets :
  let saved := snd (VaultFacade.saveSecret "api_key" "super_secret_value" Scenario.registered) in
  let relogged := snd (VaultFacade.login "password123" None (snd (VaultFacade.lock saved))) in
  fst (VaultFacade.getSecret "api_key" saved) = Ok (Some "super_secret_value") /\
  fst (VaultFacade.getSecret "nonexistent" saved) = Ok None /\
  fst (VaultFacade.getSecret "api_key" relogged) = Ok (Some "super_secret_value") /\
  fst (VaultFacade.saveSecret "key" "value" Scenario.locked) = Throw NotAuthenticatedError /\
  fst (VaultFacade.getSecret "any" Scenario.ready) = Throw NotAuthenticatedError.
Proof. cbv zeta. repeat split; vm_compute; reflexivity. Qed.

(** 'should throw when getting DID while locked', 'should throw when
    signing while locked', 'should sign data when authenticated' *)
Example test_locked :
  fst (VaultFacade.getDid Scenario.locked) = Throw NotAuthenticatedError /\
  fst (VaultFacade.sign [x01; x02; x03] Scenario.locked) = Throw NotAuthenticatedError /\
  fst (VaultFacade.sign [x01; x02; x03] Scenario.registered) = Ok [x03; x02; x01].
Proof. repeat split; vm_compute; reflexivity. Qed.

(** 'should fail recovery with invalid code' *)
Example test_recovery_invalid_code :
  fst (VaultFacade.recoverAccount
         (mkRecoveryOptions "wrong" "new-password" None None) Scenario.locked)
  = Throw (AuthenticationError "Invalid Recovery Code").
Proof. vm_compute. reflexivity. Qed.

(** 'should throw after disposal' *)
Example test_disposed :
  fst (VaultFacade.login "password" None Scenario.disposed)
  = Throw (VaultError "VaultFacade has been disposed" "DISPOSED").
Proof. vm_compute. reflexivity. Qed.

(* ===================================================================== *)
(** * Further properties of the code *)
(* ===================================================================== *)

(** ** SessionManager *)

Section SessionCache.
Context {S C T Client : Type} `{IStorage S} `{ICryptoPort C Client} `{Platform T}.
Abbreviation St := (State S C T Client).


(** X2.  With no session, each accessor of the session manager throws
    NotAuthenticatedError and changes nothing, while [isAuthenticated()] and
    [getState()] answer without throwing: [false], and a snapshot with no
    identifier and no password cache. *)
Theorem accessors_without_session (σ : St) (k v : string) :
  _session σ = None ->
  SessionManager.getDid σ = (Throw NotAuthenticatedError, σ) /\
  SessionManager.getClient σ = (Throw NotAuthenticatedError, σ) /\
  SessionManager.getSessionKey σ = (Throw NotAuthenticatedError, σ) /\
  SessionManager.getPassword σ = (Throw NotAuthenticatedError, σ) /\
  SessionManager.getSecret k σ = (Throw NotAuthenticatedError, σ) /\
  SessionManager.setSecret k v σ = (Throw NotAuthenticatedError, σ) /\
  SessionManager.deleteSecret k σ = (Throw NotAuthenticatedError, σ) /\
  SessionManager.getAllSecrets σ = (Throw NotAuthenticatedError, σ) /\
  SessionManager.isAuthenticated σ = (Ok false, σ) /\
  SessionManager.getState σ
  = (Ok (SessionManager.mkSessionState false None false), σ).
Proof.
  intros Hs.
  assert (He : SessionManager.ensureAuthenticated σ = (Throw NotAuthenticatedError, σ))
    by (unfold SessionManager.ensureAuthenticated, bind, gets; by rewrite Hs).
  repeat split;
    unfold SessionManager.getDid, SessionManager.getClient, SessionManager.getSessionKey,
      SessionManager.getPassword, SessionManager.getSecret, SessionManager.setSecret,
      SessionManager.deleteSecret, SessionManager.getAllSecrets;
    try (by rewrite (bind_throw _ _ _ _ _ He)).
  - unfold SessionManager.isAuthenticated, bind, gets, ret. by rewrite Hs.
  - unfold SessionManager.getState, bind, gets, ret. by rewrite Hs.
Qed.

(** X3.  [establish] never throws.  It frees the client of the session it
    replaces -- that one, once, whatever [free] throws -- and calls nothing
    when there was no session; then the session is exactly what it was
    given.  Flags, buffers, store and clock are as before. *)
Theorem establish_replaces_session (σ : St) (c : Client) (key : nat) (d pw : string)
    (sec : gmap string string) :
  SessionManager.establish c key d pw sec σ
  = (Ok tt,
     set_session (Some (mkSessionData c key d pw sec))
       (match _session σ with
        | Some old => set_wasm (snd (ICryptoPort.free (client old) (wasm σ))) σ
        | None => σ
        end)).
Proof.
  unfold SessionManager.establish, SessionManager.clear, bind, gets, try_catch,
    onCrypto, modify, ret.
  destruct (_session σ) as [old|]; [|reflexivity].
  destruct (ICryptoPort.free (client old) (wasm σ)) as [[[]|e] w']; reflexivity.
Qed.

(** X4.  Teardown is idempotent: a second [clear()], [lock()] or
    [dispose()] returns normally and changes nothing, and in particular
    frees no client a second time. *)
Theorem teardown_idempotent (σ : St) :
  SessionManager.clear (snd (SessionManager.clear σ))
  = (Ok tt, snd (SessionManager.clear σ)) /\
  VaultFacade.lock (snd (VaultFacade.lock σ)) = (Ok tt, snd (VaultFacade.lock σ)) /\
  VaultFacade.dispose (snd (VaultFacade.dispose σ))
  = (Ok tt, snd (VaultFacade.dispose σ)).
Proof.
  assert (Hc : SessionManager.clear (snd (SessionManager.clear σ))
               = (Ok tt, snd (SessionManager.clear σ))).
  { pose proof (clear_returns σ) as [_ Hs].
    unfold SessionManager.clear at 1. unfold bind, gets. by rewrite Hs. }
  split; [exact Hc|]. split; [exact Hc|].
  pose proof (dispose_disposes σ) as Hd.
  unfold VaultFacade.dispose at 1. unfold bind, gets. by rewrite Hd.
Qed.

End SessionCache.


Lemma accessors_without_session_witness :
  SessionManager.getDid Scenario.locked = (Throw NotAuthenticatedError, Scenario.locked).
Proof. exact (proj1 (accessors_without_session Scenario.locked "k" "v" eq_refl)). Defined.

(** ** The recovery code *)

Section RecoveryCodeShape.
Import RecoveryCodeFormat.

Lemma isUpperHex_hexDigit (n : N) : isUpperHex (RecoveryCode.hexDigit n) = true.
Proof.
  unfold RecoveryCode.hexDigit.
  repeat (match goal with
          | |- context [match ?x with _ => _ end] => destruct x
          end; try reflexivity).
Qed.

Lemma hex_of_bytes (l : bytes) :
  allUpperHex (String.concat "" (map RecoveryCode.hexByte l)) = true /\
  String.length (String.concat "" (map RecoveryCode.hexByte l)) = 2 * length l.
Proof.
  induction l as [|b l [IHh IHl]]; [done|].
  assert (E : String.concat "" (map RecoveryCode.hexByte (b :: l))
              = String (RecoveryCode.hexDigit (Byte.to_N b / 16))
                  (String (RecoveryCode.hexDigit (Byte.to_N b mod 16))
                     (String.concat "" (map RecoveryCode.hexByte l)))).
  { cbn [map String.concat]. destruct (map RecoveryCode.hexByte l); reflexivity. }
  rewrite E. cbn [allUpperHex String.length]. rewrite !isUpperHex_hexDigit, IHh, IHl.
  split; [reflexivity | simpl; lia].
Qed.

Lemma substring_hex (a n : nat) (s : string) :
  allUpperHex s = true -> allUpperHex (substring a n s) = true.
Proof.
  revert a n. induction s as [|c s IH]; intros a n Hs.
  - destruct a, n; reflexivity.
  - cbn [allUpperHex] in Hs. apply andb_true_iff in Hs as [Hc Hs].
    destruct a as [|a]; [destruct n as [|n]|]; cbn [substring allUpperHex];
      [done | | by apply IH].
    apply andb_true_iff. split; [exact Hc | by apply IH].
Qed.

Lemma substring_length (a n : nat) (s : string) :
  a + n <= String.length s -> String.length (substring a n s) = n.
Proof.
  revert a n. induction s as [|c s IH]; intros a n Hl; cbn in Hl.
  - assert (a = 0) as -> by lia. assert (n = 0) as -> by lia. reflexivity.
  - destruct a as [|a]; [destruct n as [|n]|]; cbn; [done | | apply IH; lia].
    f_equal. apply (IH 0 n). lia.
Qed.

Lemma append_empty_r (s : string) : s ++ "" = s.
Proof.
  induction s as [|c s IH]; [reflexivity|].
  change (String c (s ++ "") = String c s). by rewrite IH.
Qed.

Lemma length_append (s1 s2 : string) :
  String.length (s1 ++ s2) = String.length s1 + String.length s2.
Proof.
  induction s1 as [|c s1 IH]; [reflexivity|].
  change (Datatypes.S (String.length (s1 ++ s2))
          = Datatypes.S (String.length s1 + String.length s2)).
  by rewrite IH.
Qed.

Lemma group_app (g rest : string) :
  allUpperHex g = true -> group (String.length g) (g ++ rest) = Some rest.
Proof.
  induction g as [|c g IH]; intros Hg; [done|].
  cbn [allUpperHex] in Hg. apply andb_true_iff in Hg as [Hc Hg].
  change (group (Datatypes.S (String.length g)) (String c (g ++ rest)) = Some rest).
  cbn [group]. rewrite Hc. by apply IH.
Qed.

(** X5.  From 16 random bytes [generateRecoveryCode] makes a code of the
    shape [RK-XXXXXXXX-XXXXXXXX-XXXXXXXX-XXXXXXXX], each [X] one of
    [0-9A-F]: 38 characters, matching the expression the tests check. *)
Theorem recovery_code_shape (random : bytes) :
  length random = 16 ->
  matches (RecoveryCode.format random) = true /\
  String.length (RecoveryCode.format random) = 38.
Proof.
  intros Hlen. unfold RecoveryCode.format, RecoveryCode.slice, RECOVERY_CODE_PREFIX.
  destruct (hex_of_bytes random) as [Hhex Hl]. rewrite Hlen in Hl.
  set (hex := String.concat "" (map RecoveryCode.hexByte random)) in *.
  pose proof (substring_hex 0 8 hex Hhex) as H1.
  pose proof (substring_hex 8 8 hex Hhex) as H2.
  pose proof (substring_hex 16 8 hex Hhex) as H3.
  pose proof (substring_hex 24 8 hex Hhex) as H4.
  pose proof (substring_length 0 8 hex ltac:(lia)) as L1.
  pose proof (substring_length 8 8 hex ltac:(lia)) as L2.
  pose proof (substring_length 16 8 hex ltac:(lia)) as L3.
  pose proof (substring_length 24 8 hex ltac:(lia)) as L4.
  change (8 - 0) with 8. change (16 - 8) with 8. change (24 - 16) with 8.
  change (32 - 24) with 8.
  generalize dependent (substring 0 8 hex). intros g1 H1 L1.
  generalize dependent (substring 8 8 hex). intros g2 H2 L2.
  generalize dependent (substring 16 8 hex). intros g3 H3 L3.
  generalize dependent (substring 24 8 hex). intros g4 H4 L4.
  split.
  - unfold matches.
    change ("RK" ++ "-" ++ g1 ++ "-" ++ g2 ++ "-" ++ g3 ++ "-" ++ g4)
      with (String "R" (String "K" (String "-"
              (g1 ++ String "-" (g2 ++ String "-" (g3 ++ String "-" g4)))))).
    cbn [consume]. rewrite !bool_decide_eq_true_2 by done. cbn [andb].
    rewrite <- L1 at 1. rewrite (group_app g1 _ H1).
    cbn [consume]. rewrite bool_decide_eq_true_2 by done. cbn [andb].
    rewrite <- L2 at 1. rewrite (group_app g2 _ H2).
    cbn [consume]. rewrite bool_decide_eq_true_2 by done. cbn [andb].
    rewrite <- L3 at 1. rewrite (group_app g3 _ H3).
    cbn [consume]. rewrite bool_decide_eq_true_2 by done. cbn [andb].
    rewrite <- L4 at 1.
    replace g4 with (g4 ++ "") at 2 by apply append_empty_r.
    rewrite (group_app g4 _ H4). reflexivity.
  - rewrite !length_append. rewrite L1, L2, L3, L4. reflexivity.
Qed.

End RecoveryCodeShape.

Lemma recovery_code_shape_witness :
  RecoveryCodeFormat.matches (RecoveryCode.format (replicate 16 "*"%byte)) = true /\
  String.length (RecoveryCode.format (replicate 16 "*"%byte)) = 38.
Proof. apply recovery_code_shape. reflexivity. Defined.

(** ** Login *)

(** A step that leaves the component [f] alone, in a run [Hrun] that has
    kept it so far ([Hkept]): either the step throws and the run ends
    there, or the run goes on. *)
Ltac kept_step f Hrun Hkept finish :=
  let a := fresh "a" in
  let σn := fresh "σ" in
  let e := fresh "e" in
  let Hm := fresh "Hm" in
  let K := fresh "K" in
  let Heq := fresh "Heq" in
  apply bind_inv in Hrun as [(a & σn & Hm & Hrun) | (e & Hm & Heq)];
  [| first [injection Heq as <- | subst] ];
  (lazymatch type of Hm with
   | ?m _ = _ => assert (K : respects (keeps f) m) by frame; apply K in Hm; clear K
   end);
  unfold keeps in Hm; try rewrite Hkept in Hm;
  [ clear Hkept; rename Hm into Hkept | finish Hm ].

(** What a finished step [Hm] says about the component [f] it leaves
    alone. *)
Ltac kept f Hm Hk :=
  lazymatch type of Hm with
  | ?m _ = _ =>
      assert (Hk : respects (keeps f) m) by frame;
      specialize (Hk _ _ _ Hm); unfold keeps in Hk
  end.

Section LoginOutcomes.
Context {S C T Client : Type} `{IStorage S} `{ICryptoPort C Client} `{Platform T}.
Abbreviation St := (State S C T Client).

Lemma establish_run (σ σ' : St) (r : Res unit) c key d pw sec :
  SessionManager.establish c key d pw sec σ = (r, σ') ->
  r = Ok tt /\ _session σ' = Some (mkSessionData c key d pw sec) /\ jsHeap σ' = jsHeap σ.
Proof.
  intros E. pose proof (establish_effect σ c key d pw sec) as [Es Eh].
  rewrite E in Es, Eh. cbn [snd] in Es, Eh. split; [|done].
  revert E. unfold SessionManager.establish, bind, modify.
  pose proof (clear_returns σ) as [Hr _].
  destruct (SessionManager.clear σ) as [[[]|e] σ1]; [|discriminate Hr].
  by intros [= <- _].
Qed.



(** X7.  A [login] that throws has left the session as it was, with one
    exception: when it is [get_public_key] of the restored client that
    threw.  That call comes after [establish], so the vault is then logged
    in, under the password given, although [login] rejected. *)
Theorem login_failure_session (pw : string) (did : option string) (σ σ' : St) (e : exn) :
  VaultFacade.login pw did σ = (Throw e, σ') ->
  _session σ' = _session σ \/
  exists sd w, _session σ' = Some sd /\ password sd = pw /\
               fst (ICryptoPort.get_public_key (client sd) w) = Throw e.
Proof.
  unfold VaultFacade.login. intros Hrun.
  assert (Hk : _session σ = _session σ) by done.
  kept_step (@_session S C T Client) Hrun Hk ltac:(fun E => left; exact E).
  unfold LoginUseCase.execute in Hrun.
  kept_step (@_session S C T Client) Hrun Hk ltac:(fun E => left; exact E).
  unfold LoginUseCase.unlock in Hrun.
  kept_step (@_session S C T Client) Hrun Hk ltac:(fun E => left; exact E).
  destruct a1 as [blob|]; [|injection Hrun as _ <-; by left].
  kept_step (@_session S C T Client) Hrun Hk ltac:(fun E => left; exact E).
  destruct (Platform.JSON_parse (Platform.TextDecoder_decode a1)) as [data|];
    [|injection Hrun as _ <-; by left].
  destruct (decide (i_did data = a0)); [|injection Hrun as _ <-; by left].
  unfold LoginUseCase.restoreSession in Hrun.
  kept_step (@_session S C T Client) Hrun Hk ltac:(fun E => left; exact E).
  kept_step (@_session S C T Client) Hrun Hk ltac:(fun E => left; exact E).
  kept_step (@_session S C T Client) Hrun Hk ltac:(fun E => left; exact E).
  kept_step (@_session S C T Client) Hrun Hk ltac:(fun E => left; exact E).
  kept_step (@_session S C T Client) Hrun Hk ltac:(fun E => left; exact E).
  kept_step (@_session S C T Client) Hrun Hk ltac:(fun E => left; exact E).
  apply bind_inv in Hrun as [([] & σe & He & Hrun) | (e' & He & _)];
    [|by destruct (establish_run _ _ _ _ _ _ _ _ He) as (? & _)].
  destruct (establish_run _ _ _ _ _ _ _ _ He) as (_ & Es & _).
  apply bind_inv in Hrun as [(pk & σp & Hp & Hrun) | (e' & Hp & [= ->])];
    [discriminate Hrun|].
  right. kept (@_session S C T Client) Hp Kp. rewrite Es in Kp.
  eexists _, (wasm σe). split; [exact Kp|]. split; [done|].
  cbn [client]. unfold onCrypto in Hp.
  destruct (ICryptoPort.get_public_key _ (wasm σe)) as [r w']. by injection Hp as -> _.
Qed.

End LoginOutcomes.


Lemma login_failure_session_witness :
  exists e σ',
    VaultFacade.login "wrong" None Scenario.locked = (Throw e, σ') /\
    (_session σ' = _session Scenario.locked \/
     exists sd w, _session σ' = Some sd /\ password sd = "wrong" /\
                  fst (ICryptoPort.get_public_key (client sd) w) = Throw e).
Proof.
  eexists _, _. split; [vm_compute; reflexivity|].
  eapply (login_failure_session "wrong" None Scenario.locked). vm_compute. reflexivity.
Defined.

(** ** Recovery *)

Section PortCalls.
Context {S C T Client : Type} `{IStorage S} `{ICryptoPort C Client} `{Platform T}.
Abbreviation St := (State S C T Client).

Lemma onCrypto_run {A} (g : C -> Res A * C) (σ σ' : St) (r : Res A) :
  onCrypto g σ = (r, σ') -> fst (g (wasm σ)) = r /\ store σ' = store σ.
Proof. unfold onCrypto. destruct (g (wasm σ)) as [r' c']. by intros [= <- <-]. Qed.

Lemma onStore_run {A} (g : S -> Res A * S) (σ σ' : St) (r : Res A) :
  onStore g σ = (r, σ') -> g (store σ) = (r, store σ') /\ wasm σ' = wasm σ.
Proof. unfold onStore. destruct (g (store σ)) as [r' s']. by intros [= <- <-]. Qed.

Lemma try_catch_raise_ok {A} (m : M St A) (x : exn) (σ σ' : St) (a : A) :
  try_catch m (fun _ => raise x) σ = (Ok a, σ') -> m σ = (Ok a, σ').
Proof. unfold try_catch. by destruct (m σ) as [[a'|e] σ1]. Qed.

Lemma try_catch_raise_throw {A} (m : M St A) (x : exn) (σ σ' : St) (e : exn) :
  try_catch m (fun _ => raise x) σ = (Throw e, σ') -> e = x /\ exists e', m σ = (Throw e', σ').
Proof.
  unfold try_catch. destruct (m σ) as [[a'|e'] σ1]; [done|].
  intros [= <- <-]. eauto.
Qed.

Lemma recover_resolve_given (d : string) (σ : St) :
  d <> "" -> RecoverAccountUseCase.resolveTargetDid (Some d) σ = (Ok d, σ).
Proof.
  intros Hne. unfold RecoverAccountUseCase.resolveTargetDid.
  change (default "" (Some d)) with d. by destruct (decide (d = "")).
Qed.

Lemma login_resolve_given (d : string) (σ : St) :
  d <> "" -> LoginUseCase.resolveTargetDid (Some d) σ = (Ok d, σ).
Proof.
  intros Hne. unfold LoginUseCase.resolveTargetDid.
  change (default "" (Some d)) with d. by destruct (decide (d = "")).
Qed.

End PortCalls.

Section RecoveryOutcomes.
Context {S C T Client : Type} `{IStorage S} `{ICryptoPort C Client} `{Platform T}.
Context `{!KeyValueStore S}.
Abbreviation St := (State S C T Client).

(** X8.  An envelope with no recovery blob, or with an empty one, cannot
    be recovered, whatever the code: VaultError RECOVERY_UNAVAILABLE, before
    any call on the crypto port. *)
Theorem recovery_unavailable (o : RecoveryOptions) (d : string) (b : EncryptedVaultBlob)
    (σ : St) :
  opt_did o = Some d -> d <> "" ->
  fst (IStorage.get d (store σ)) = Ok (Some b) ->
  recoveryBlob b = None \/ recoveryBlob b = Some "" ->
  exists e σ',
    RecoverAccountUseCase.execute o σ = (Throw e, σ') /\
    code_of e = Some "RECOVERY_UNAVAILABLE" /\
    wasm σ' = wasm σ /\ store σ' = store σ /\ _session σ' = _session σ.
Proof.
  intros Hd Hne Hget Hrb.
  assert (Hu : RecoverAccountUseCase.usableRecoveryBlob b = None).
  { unfold RecoverAccountUseCase.usableRecoveryBlob. by destruct Hrb as [-> | ->]. }
  unfold RecoverAccountUseCase.execute. rewrite Hd.
  rewrite (bind_ok _ _ _ _ _ (recover_resolve_given d σ Hne)).
  unfold RecoverAccountUseCase.recover, bind at 1, onStore.
  pose proof (get_reads d (store σ)) as Hr.
  destruct (IStorage.get d (store σ)) as [rg s1]. cbn in Hget, Hr. subst rg s1.
  rewrite Hu. eexists _, _. split; [reflexivity|]. by destruct σ.
Qed.

(** X9.  Whatever makes the opening of the recovery blob fail -- a blob
    that is not Base64, or a decryption that throws -- is reported as
    AuthenticationError 'Invalid Recovery Code', and nothing is saved. *)
Theorem recovery_open_failure (o : RecoveryOptions) (d rb : string) (b : EncryptedVaultBlob)
    (σ : St) :
  opt_did o = Some d -> d <> "" ->
  fst (IStorage.get d (store σ)) = Ok (Some b) ->
  recoveryBlob b = Some rb -> rb <> "" ->
  match Platform.atob rb with
  | None => True
  | Some bin =>
      exists e, fst (ICryptoPort.decryptVault (list_byte_of_string bin) (recoveryCode o)
                       (wasm σ)) = Throw e
  end ->
  exists σ',
    RecoverAccountUseCase.execute o σ
    = (Throw (AuthenticationError "Invalid Recovery Code"), σ') /\
    store σ' = store σ /\ _session σ' = _session σ.
Proof.
  intros Hd Hne Hget Hrb Hrbne Hfail.
  assert (Hu : RecoverAccountUseCase.usableRecoveryBlob b = Some rb).
  { unfold RecoverAccountUseCase.usableRecoveryBlob. rewrite Hrb.
    by destruct (decide (rb = "")). }
  unfold RecoverAccountUseCase.execute. rewrite Hd.
  rewrite (bind_ok _ _ _ _ _ (recover_resolve_given d σ Hne)).
  unfold RecoverAccountUseCase.recover, bind at 1, onStore.
  pose proof (get_reads d (store σ)) as Hr.
  destruct (IStorage.get d (store σ)) as [rg s1]. cbn in Hget, Hr. subst rg s1.
  rewrite Hu. unfold bind at 1, try_catch, Encoding.fromBase64.
  destruct (Platform.atob rb) as [bin|].
  - destruct Hfail as [e He]. unfold bind at 1, ret, onCrypto. cbn [wasm set_store].
    destruct (ICryptoPort.decryptVault _ _ (wasm σ)) as [r w']. cbn in He. subst r.
    eexists. split; [reflexivity|]. by destruct σ.
  - unfold bind at 1, raise. eexists. split; [reflexivity|]. by destruct σ.
Qed.

(** X10.  A recovery that returns has sealed under the new password the
    very bytes that the recovery code opened, and saved them under the same
    version, identifier and salt.  Without rotation the recovery blob is
    kept and no code is returned; with rotation the same bytes are sealed
    under a newly generated code, which is the one returned. *)
Theorem recovery_reseals_payload (o : RecoveryOptions) (d : string) (b : EncryptedVaultBlob)
    (σ σ' : St) (r : RecoveryResult) :
  opt_did o = Some d -> d <> "" ->
  fst (IStorage.get d (store σ)) = Ok (Some b) ->
  RecoverAccountUseCase.execute o σ = (Ok r, σ') ->
  rec_did r = d /\ resealed o d b r σ'.
Proof.
  intros Hd Hne Hget Hrun.
  unfold RecoverAccountUseCase.execute in Hrun. rewrite Hd in Hrun.
  rewrite (bind_ok _ _ _ _ _ (recover_resolve_given d σ Hne)) in Hrun.
  unfold RecoverAccountUseCase.recover in Hrun.
  apply bind_inv_ok in Hrun as (got & σ1 & Hf & Hrun).
  destruct (fetch_stored _ _ _ _ _ Hget Hf) as [-> Hst].
  destruct (RecoverAccountUseCase.usableRecoveryBlob b) as [rb|] eqn:Hu; [|discriminate Hrun].
  apply bind_inv_ok in Hrun as (plain & σ2 & Hopen & Hrun).
  apply try_catch_raise_ok in Hopen.
  apply bind_inv_ok in Hopen as (sealed & σa & Hb64 & Hdec).
  unfold Encoding.fromBase64 in Hb64.
  destruct (Platform.atob rb) as [bin|] eqn:Hatob; [|discriminate Hb64].
  injection Hb64 as <- <-.
  apply onCrypto_run in Hdec as [Hdec _].
  destruct (Platform.JSON_parse (Platform.TextDecoder_decode plain)); [|discriminate Hrun].
  apply bind_inv_ok in Hrun as (main & σ3 & Henc & Hrun).
  apply onCrypto_run in Henc as [Henc _].
  apply bind_inv_ok in Hrun as ([rb' code] & σ4 & Hrot & Hrun).
  apply bind_inv_ok in Hrun as (t & σ5 & Hnow & Hrun).
  apply bind_inv_ok in Hrun as ([] & σ6 & Hsave & Hrun).
  injection Hrun as <- <-. split; [done|].
  apply onStore_run in Hsave as [Hsave _]. apply save_writes in Hsave.
  exists rb, bin, plain, main, rb', t, (wasm σ1), (wasm σ2).
  do 4 (split; [done|]). split; [exact Hsave|]. cbn [newRecoveryCode].
  destruct (default false (rotateRecoveryCode o)).
  - apply bind_inv_ok in Hrot as (generated & σb & Hgen & Hrot).
    apply bind_inv_ok in Hrot as (sealed & σc & Hseal & Hrot).
    injection Hrot as <- <- _.
    unfold RecoveryCode.generateRecoveryCode in Hgen.
    apply bind_inv_ok in Hgen as (rnd & σd & _ & Hgen). injection Hgen as <- <-.
    apply onCrypto_run in Hseal as [Hseal _].
    by exists rnd, sealed, (wasm σd).
  - by injection Hrot as <- <- _.
Qed.


End RecoveryOutcomes.

Lemma recovery_unavailable_witness :
  exists e σ',
    RecoverAccountUseCase.execute
      (mkRecoveryOptions "RK-2A2A2A2A-2A2A2A2A-2A2A2A2A-2A2A2A2A" "pw2"
         (Some "did:p47h:mock-identity") None) Scenario.swapped = (Throw e, σ') /\
    code_of e = Some "RECOVERY_UNAVAILABLE" /\
    wasm σ' = wasm Scenario.swapped /\ store σ' = store Scenario.swapped /\
    _session σ' = _session Scenario.swapped.
Proof.
  eapply (recovery_unavailable
            (mkRecoveryOptions "RK-2A2A2A2A-2A2A2A2A-2A2A2A2A-2A2A2A2A" "pw2"
               (Some "did:p47h:mock-identity") None)
            "did:p47h:mock-identity" Scenario.foreignBlob Scenario.swapped).
  - reflexivity.
  - discriminate.
  - vm_compute. reflexivity.
  - left. reflexivity.
Defined.

Lemma recovery_open_failure_witness :
  exists σ',
    RecoverAccountUseCase.execute
      (mkRecoveryOptions "wrong" "pw2" (Some "did:p47h:mock-identity") None) Scenario.locked
    = (Throw (AuthenticationError "Invalid Recovery Code"), σ') /\
    store σ' = store Scenario.locked /\ _session σ' = _session Scenario.locked.
Proof.
  eapply (recovery_open_failure
            (mkRecoveryOptions "wrong" "pw2" (Some "did:p47h:mock-identity") None)
            "did:p47h:mock-identity" _ _ Scenario.locked).
  - reflexivity.
  - discriminate.
  - vm_compute. reflexivity.
  - vm_compute. reflexivity.
  - discriminate.
  - vm_compute. eexists. reflexivity.
Defined.

Lemma recovery_reseals_payload_witness :
  let o := mkRecoveryOptions "RK-2A2A2A2A-2A2A2A2A-2A2A2A2A-2A2A2A2A" "pw2"
             (Some "did:p47h:mock-identity") (Some true) in
  exists b r σ',
    fst (IStorage.get "did:p47h:mock-identity" (store Scenario.locked)) = Ok (Some b) /\
    RecoverAccountUseCase.execute o Scenario.locked = (Ok r, σ') /\
    rec_did r = "did:p47h:mock-identity" /\
    resealed o "did:p47h:mock-identity" b r σ'.
Proof.
  cbv zeta. eexists _, _, _.
  split; [vm_compute; reflexivity|]. split; [vm_compute; reflexivity|].
  eapply (recovery_reseals_payload
            (mkRecoveryOptions "RK-2A2A2A2A-2A2A2A2A-2A2A2A2A-2A2A2A2A" "pw2"
               (Some "did:p47h:mock-identity") (Some true))
            "did:p47h:mock-identity" _ Scenario.locked).
  - reflexivity.
  - discriminate.
  - vm_compute. reflexivity.
  - vm_compute. reflexivity.
Defined.


(** ** Registration *)

Section RegistrationOutcomes.
Context {S C T Client : Type} `{IStorage S} `{ICryptoPort C Client} `{Platform T}.
Context `{!KeyValueStore S}.
Abbreviation St := (State S C T Client).

(** X12.  A [register] that returns has logged the new identity in: the
    session is for the identifier returned, under the password given, with
    no secrets, and its key sits in one new buffer.  Over a store that reads
    back what it saved, the envelope persisted under that identifier holds
    one payload sealed twice, under the password and under the recovery
    code returned. *)
Theorem register_success (pw : string) (σ σ' : St) (r : RegistrationResult) :
  VaultFacade.register pw σ = (Ok r, σ') ->
  (exists sd key,
     _session σ' = Some sd /\ s_did sd = reg_did r /\ password sd = pw /\
     secrets sd = ∅ /\ sessionKey sd = length (jsHeap σ) /\
     jsHeap σ' = (jsHeap σ ++ [key])%list) /\
  enrolled pw r σ'.
Proof.
  unfold VaultFacade.register. intros Hrun.
  apply bind_inv_ok in Hrun as ([] & σ0 & Hg & Hrun).
  apply ensureInitialized_inv_ok in Hg as (-> & _ & _).
  unfold RegisterIdentityUseCase.execute in Hrun.
  apply bind_inv_ok in Hrun as (c & σ1 & H1 & Hrun).
  kept (@jsHeap S C T Client) H1 K1.
  apply bind_inv_ok in Hrun as (d & σ2 & H2 & Hrun).
  kept (@jsHeap S C T Client) H2 K2.
  apply bind_inv_ok in Hrun as (salt & σ3 & H3 & Hrun).
  kept (@jsHeap S C T Client) H3 K3.
  apply bind_inv_ok in Hrun as (key & σ4 & H4 & Hrun).
  kept (@jsHeap S C T Client) H4 K4.
  apply bind_inv_ok in Hrun as (ref & σ5 & H5 & Hrun).
  unfold new_Uint8Array in H5. injection H5 as <- <-.
  apply bind_inv_ok in Hrun as (keyBytes & σ6 & H6 & Hrun).
  unfold contents in H6. injection H6 as _ <-.
  apply bind_inv_ok in Hrun as (wrapped & σ7 & H7 & Hrun).
  kept (@jsHeap S C T Client) H7 K7. cbn [jsHeap set_jsHeap] in K7.
  apply bind_inv_ok in Hrun as (createdAt & σ8 & H8 & Hrun).
  kept (@jsHeap S C T Client) H8 K8.
  apply bind_inv_ok in Hrun as (main & σ9 & H9 & Hrun).
  kept (@jsHeap S C T Client) H9 K9.
  apply onCrypto_run in H9 as [H9 _].
  apply bind_inv_ok in Hrun as (code & σ10 & H10 & Hrun).
  kept (@jsHeap S C T Client) H10 K10.
  unfold RecoveryCode.generateRecoveryCode in H10.
  apply bind_inv_ok in H10 as (rnd & σr & _ & H10). injection H10 as <- <-.
  apply bind_inv_ok in Hrun as (recovery & σ11 & H11 & Hrun).
  kept (@jsHeap S C T Client) H11 K11.
  apply onCrypto_run in H11 as [H11 _].
  apply bind_inv_ok in Hrun as (t & σ12 & H12 & Hrun).
  kept (@jsHeap S C T Client) H12 K12.
  apply bind_inv_ok in Hrun as ([] & σ13 & H13 & Hrun).
  kept (@jsHeap S C T Client) H13 K13.
  apply onStore_run in H13 as [H13 _]. apply save_writes in H13.
  apply bind_inv_ok in Hrun as ([] & σ14 & H14 & Hrun).
  kept (@store S C T Client) H14 K14.
  destruct (establish_run _ _ _ _ _ _ _ _ H14) as (_ & Es & Eh).
  injection Hrun as <- <-.
  assert (Hheap : jsHeap σ4 = jsHeap σ) by congruence.
  split.
  - eexists _, key. split; [exact Es|]. cbn [s_did password secrets sessionKey reg_did].
    do 3 (split; [done|]). split; [by rewrite Hheap|].
    rewrite Eh, K13, K12, K11, K10, K9, K8, K7. by rewrite Hheap.
  - exists (mkInternal d (Encoding.toBase64 wrapped) (Encoding.toBase64 salt) ∅ createdAt),
      main, recovery, rnd, t, (wasm σ8), (wasm σr).
    cbn [i_did i_secrets i_salt reg_did reg_recoveryCode].
    do 3 (split; [done|]). split; [exact H9|]. split; [exact H11|].
    rewrite K14. exact H13.
Qed.


End RegistrationOutcomes.

Lemma register_success_witness :
  exists r σ',
    VaultFacade.register "password123" Scenario.ready = (Ok r, σ') /\
    (exists sd key,
       _session σ' = Some sd /\ s_did sd = reg_did r /\ password sd = "password123" /\
       secrets sd = ∅ /\ sessionKey sd = length (jsHeap Scenario.ready) /\
       jsHeap σ' = (jsHeap Scenario.ready ++ [key])%list) /\
    enrolled "password123" r σ'.
Proof.
  eexists _, _. split; [vm_compute; reflexivity|].
  eapply (register_success "password123" Scenario.ready). vm_compute. reflexivity.
Defined.


(** ** Invariants of the facade *)

#[global] Instance grows_preorder {S C T Client : Type} : PreOrder (@grows S C T Client).
Proof.
  split.
  - intros σ. exists []. by rewrite app_nil_r.
  - intros σ1 σ2 σ3 [a1 H1] [a2 H2]. exists (a1 ++ a2)%list.
    by rewrite H2, H1, app_assoc.
Qed.

Lemma respects_weaken {Σ A} (R R' : relation Σ) (m : M Σ A) :
  (forall σ σ', R σ σ' -> R' σ σ') -> respects R m -> respects R' m.
Proof. intros Hw Hm σ r σ' E. apply Hw. by eapply Hm. Qed.

Lemma keeps_grows {S C T Client : Type} (σ σ' : State S C T Client) :
  keeps jsHeap σ σ' -> grows σ σ'.
Proof. unfold keeps. intros E. exists []. by rewrite app_nil_r. Qed.

Lemma grows_new_Uint8Array {S C T Client : Type} (b : bytes) :
  respects (@grows S C T Client) (new_Uint8Array b).
Proof. intros σ r σ' [= _ <-]. by exists [b]. Qed.

Ltac grow_step :=
  lazymatch goal with
  | |- PreOrder _ => apply _
  | |- respects _ (bind _ _) => apply respects_bind; [ | | intros ? ]
  | |- respects _ (ret _) => apply respects_ret
  | |- respects _ (raise _) => apply respects_raise
  | |- respects _ (gets _) => apply respects_gets
  | |- respects _ (try_catch _ _) => apply respects_try_catch; [ | | intros ? ]
  | |- respects _ (new_Uint8Array _) => apply grows_new_Uint8Array
  | |- respects _ (match ?x with _ => _ end) => destruct x
  | |- respects _ _ =>
      apply (respects_weaken (keeps jsHeap)); [exact keeps_grows | frame_step]
  end.

Section FacadeInvariants.
Context {S C T Client : Type} `{IStorage S} `{ICryptoPort C Client} `{Platform T}.
Abbreviation St := (State S C T Client).

(** X14.  Of the public methods, only [init] and [dispose] change the two
    flags of the facade.  [init] leaves the disposed flag alone and sets the
    initialized flag exactly when it returns; [dispose] always returns, sets
    the disposed flag, and clears the initialized flag unless the facade was
    disposed already.  Every other call, returning or throwing, leaves both
    flags as they were. *)
Theorem flags_change_only_in_init_and_dispose (c : IVault.Call) (σ σ' : St)
    (r : Res IVault.Returned) :
  IVault.invoke c σ = (r, σ') ->
  match c with
  | IVault.Init _ =>
      _isDisposed σ' = _isDisposed σ /\
      _isInitialized σ' = match r with Ok _ => true | Throw _ => _isInitialized σ end
  | IVault.Dispose =>
      r = Ok IVault.RVoid /\ _isDisposed σ' = true /\
      _isInitialized σ' = (if _isDisposed σ then _isInitialized σ else false)
  | _ => _isDisposed σ' = _isDisposed σ /\ _isInitialized σ' = _isInitialized σ
  end.
Proof.
  intros Hrun.
  assert (Kd : c <> IVault.Dispose -> _isDisposed σ' = _isDisposed σ).
  { intros Hc.
    assert (K : respects (keeps (@_isDisposed S C T Client)) (IVault.invoke c))
      by (destruct c; try done; unfold IVault.invoke; frame).
    exact (K _ _ _ Hrun). }
  assert (Ki : c <> IVault.Dispose -> (forall p, c <> IVault.Init p) ->
               _isInitialized σ' = _isInitialized σ).
  { intros Hc Hc'.
    assert (K : respects (keeps (@_isInitialized S C T Client)) (IVault.invoke c))
      by (destruct c; try done; [by destruct (Hc' wasmPath)|..];
          unfold IVault.invoke; frame).
    exact (K _ _ _ Hrun). }
  destruct c; try (split; [by apply Kd | by apply Ki]).
  - split; [by apply Kd|]. clear Kd Ki. revert Hrun.
    unfold IVault.invoke, IVault.fmap, VaultFacade.init, VaultFacade.ensureNotDisposed,
      bind, gets, ret, raise, modify, onCrypto.
    destruct (_isDisposed σ); [by intros [= <- <-]|].
    destruct (_isInitialized σ) eqn:Hi; [by intros [= <- <-]|].
    destruct (ICryptoPort.init wasmPath (wasm σ)) as [[[]|e] w]; by intros [= <- <-].
  - clear Kd Ki. revert Hrun. unfold IVault.invoke, IVault.fmap.
    pose proof (dispose_returns σ) as Hr. pose proof (dispose_disposes σ) as Hd.
    assert (Hi : _isInitialized (snd (VaultFacade.dispose σ))
                 = (if _isDisposed σ then _isInitialized σ else false)).
    { unfold VaultFacade.dispose, bind, gets, modify, ret.
      destruct (_isDisposed σ); [done|].
      pose proof (lock_returns σ) as Hl.
      by destruct (VaultFacade.lock σ) as [[[]|e] σ1]. }
    unfold bind. destruct (VaultFacade.dispose σ) as [[[]|e] σ1]; [|discriminate Hr].
    by intros [= <- <-].
Qed.

(** X15.  No call of the public interface overwrites or discards a buffer:
    after any call, returning or throwing, the buffers that existed hold the
    bytes they held, in the same places.  Only [register], [login] and
    [recoverAccount] may add buffers; every other call adds none. *)
Theorem buffers_are_never_overwritten (c : IVault.Call) (σ σ' : St)
    (r : Res IVault.Returned) :
  IVault.invoke c σ = (r, σ') ->
  exists added,
    jsHeap σ' = (jsHeap σ ++ added)%list /\
    match c with
    | IVault.Register _ | IVault.Login _ _ | IVault.RecoverAccount _ => True
    | _ => added = []
    end.
Proof.
  intros Hrun.
  assert (Hsame : respects (keeps (@jsHeap S C T Client)) (IVault.invoke c) ->
                  exists added, jsHeap σ' = (jsHeap σ ++ added)%list /\ added = []).
  { intros K. exists []. split; [|done]. rewrite app_nil_r. exact (K _ _ _ Hrun). }
  assert (Hgrow : respects (@grows S C T Client) (IVault.invoke c) ->
                  exists added, jsHeap σ' = (jsHeap σ ++ added)%list /\ True).
  { intros K. destruct (K _ _ _ Hrun) as [added E]. by exists added. }
  destruct c;
    first [ apply Hsame; unfold IVault.invoke; frame
          | apply Hgrow; unfold IVault.invoke; autounfold with vault; repeat grow_step ].
Qed.

(** X16.  [init] is idempotent, and deaf once it has succeeded: a later
    [init], even for another WASM path, returns at once without a call on
    the crypto port, so the path is ignored. *)
Theorem init_is_idempotent (p q : option string) (σ : St) :
  fst (VaultFacade.init p σ) = Ok tt ->
  VaultFacade.init q (snd (VaultFacade.init p σ)) = (Ok tt, snd (VaultFacade.init p σ)).
Proof.
  unfold VaultFacade.init, VaultFacade.ensureNotDisposed, bind, gets, ret, raise, modify,
    onCrypto.
  destruct (_isDisposed σ) eqn:Hd; [discriminate|].
  destruct (_isInitialized σ) eqn:Hi.
  - intros _. cbn. by rewrite Hd, Hi.
  - destruct (ICryptoPort.init p (wasm σ)) as [[[]|e] w]; [|discriminate].
    intros _. cbn. by rewrite Hd.
Qed.

End FacadeInvariants.

Lemma flags_change_only_in_init_and_dispose_witness :
  let σ' := snd (IVault.invoke (IVault.Login "password123" None) Scenario.locked) in
  _isDisposed σ' = _isDisposed Scenario.locked /\
  _isInitialized σ' = _isInitialized Scenario.locked.
Proof.
  cbv zeta.
  apply (flags_change_only_in_init_and_dispose (IVault.Login "password123" None)
           Scenario.locked _
           (fst (IVault.invoke (IVault.Login "password123" None) Scenario.locked))).
  vm_compute. reflexivity.
Defined.

Lemma buffers_are_never_overwritten_witness :
  let σ' := snd (IVault.invoke (IVault.Login "password123" None) Scenario.locked) in
  exists added, jsHeap σ' = (jsHeap Scenario.locked ++ added)%list /\ True.
Proof.
  cbv zeta.
  apply (buffers_are_never_overwritten (IVault.Login "password123" None)
           Scenario.locked _
           (fst (IVault.invoke (IVault.Login "password123" None) Scenario.locked))).
  vm_compute. reflexivity.
Defined.

Lemma init_is_idempotent_witness :
  VaultFacade.init (Some "/other.wasm") (snd (VaultFacade.init None Scenario.fresh))
  = (Ok tt, snd (VaultFacade.init None Scenario.fresh)).
Proof.
  apply (init_is_idempotent None (Some "/other.wasm") Scenario.fresh).
  vm_compute. reflexivity.
Defined.

(** ** The WASM adapter *)

Section Adapter.
Import WasmCryptoAdapter.
Context {W Client : Type} `{P47hWasmModule W Client}.

Lemma guardedCall_not_ready {A} (msg : string) (f : W -> Res A * W) (a : Adapter W) :
  a_module a = false \/ a_isInitialized a = false ->
  guardedCall msg f a
  = (Throw (CryptoError msg
              (Some (InitializationError
                       "WasmCryptoAdapter not initialized. Call init() first." None))), a).
Proof.
  intros Hn. unfold guardedCall, try_catch, bind, getModule, raise.
  by destruct Hn as [-> | ->]; destruct (a_module a), (a_isInitialized a).
Qed.

Lemma guardedCall_throws {A} (msg : string) (f : W -> Res A * W) (a a' : Adapter W)
    (e : exn) :
  guardedCall msg f a = (Throw e, a') ->
  exists cause, e = CryptoError msg (Some cause) /\
    a_module a' = a_module a /\ a_isInitialized a' = a_isInitialized a /\
    a_wasmPath a' = a_wasmPath a.
Proof.
  unfold guardedCall, try_catch, bind, getModule, onInstance, raise.
  destruct (negb (a_module a) || negb (a_isInitialized a)).
  - intros [= <- <-]. eauto.
  - destruct (f (instance a)) as [[x|cause] w]; [done|]. intros [= <- <-]. cbn. eauto.
Qed.

(** X17.  Before [init()] has succeeded, none of the five guarded
    operations of the adapter reaches the WASM module: each throws a
    CryptoError whose cause is the InitializationError of [getModule], and
    leaves the adapter as it was. *)
Theorem adapter_not_initialized (a : Adapter W) (pw : string) (b1 b2 : bytes) :
  a_module a = false \/ a_isInitialized a = false ->
  let notReady :=
    InitializationError "WasmCryptoAdapter not initialized. Call init() first." None in
  deriveSessionKey pw b1 a
  = (Throw (CryptoError "Failed to derive session key" (Some notReady)), a) /\
  encryptVault b1 pw a
  = (Throw (CryptoError "Vault encryption failed" (Some notReady)), a) /\
  decryptVault b1 pw a
  = (Throw (CryptoError "Vault decryption failed: Invalid password or corrupted data"
              (Some notReady)), a) /\
  createIdentity a
  = (Throw (CryptoError "Failed to generate new identity" (Some notReady)), a) /\
  restoreIdentity b1 b2 a
  = (Throw (CryptoError "Failed to restore identity from wrapped secret" (Some notReady)), a).
Proof.
  intros Hn notReady.
  unfold deriveSessionKey, encryptVault, decryptVault, createIdentity, restoreIdentity.
  repeat split; by apply guardedCall_not_ready.
Qed.

(** X18.  Whatever one of the five guarded operations throws is a
    CryptoError (code CRYPTO_ERROR) that carries the original error as its
    cause, and the fields of the adapter other than the WASM instance are
    unchanged. *)
Theorem adapter_failure_is_crypto_error (a a' : Adapter W) (e : exn) :
  (exists pw salt, deriveSessionKey pw salt a = (Throw e, a')) \/
  (exists data pw, encryptVault data pw a = (Throw e, a')) \/
  (exists blob pw, decryptVault blob pw a = (Throw e, a')) \/
  createIdentity a = (Throw e, a') \/
  (exists wrapped key, restoreIdentity wrapped key a = (Throw e, a')) ->
  is_CryptoError e /\
  (exists msg cause, e = CryptoError msg (Some cause)) /\
  a_module a' = a_module a /\ a_isInitialized a' = a_isInitialized a /\
  a_wasmPath a' = a_wasmPath a.
Proof.
  intros Hop.
  assert (Hw : exists msg cause, e = CryptoError msg (Some cause) /\
                 a_module a' = a_module a /\ a_isInitialized a' = a_isInitialized a /\
                 a_wasmPath a' = a_wasmPath a).
  { destruct Hop as [(? & ? & E) | [(? & ? & E) | [(? & ? & E) | [E | (? & ? & E)]]]];
      apply guardedCall_throws in E as (cause & ? & ?); eauto. }
  destruct Hw as (msg & cause & -> & ? & ? & ?).
  split; [by split|]. split; [eauto|done].
Qed.

(** X19.  [init()] of the adapter either returns, and then the adapter is
    ready, keeps its path, and a further [init()] returns without loading
    anything; or it throws InitializationError 'Failed to load P47H WASM
    core' around the error of the loading, and the adapter is no more ready
    than before. *)
Theorem adapter_init_outcomes (a a' : Adapter W) (r : Res unit) :
  init a = (r, a') ->
  a_wasmPath a' = a_wasmPath a /\
  match r with
  | Ok _ =>
      a_module a' = true /\ a_isInitialized a' = true /\ init a' = (Ok tt, a')
  | Throw e =>
      (exists cause,
         e = InitializationError "Failed to load P47H WASM core" (Some cause) /\
         fst (load (a_wasmPath a) (instance a)) = Throw cause) /\
      a_module a' = a_module a /\ a_isInitialized a' = a_isInitialized a
  end.
Proof.
  unfold init, try_catch, bind, onInstance, modify, raise.
  destruct (a_isInitialized a) eqn:Hi, (a_module a) eqn:Hm; cbn [andb];
    try (intros [= <- <-]; rewrite Hi, Hm; cbn; by rewrite ?Hi, ?Hm);
    (destruct (load (a_wasmPath a) (instance a)) as [[[]|cause] w];
     intros [= <- <-]; cbn; rewrite ?Hi, ?Hm; eauto 10).
Qed.

End Adapter.

Lemma adapter_not_initialized_witness :
  let a : WasmCryptoAdapter.Adapter unit := WasmCryptoAdapter.new (Client := string) None tt in
  let notReady :=
    InitializationError "WasmCryptoAdapter not initialized. Call init() first." None in
  WasmCryptoAdapter.deriveSessionKey (Client := string) "pw" [x01] a
  = (Throw (CryptoError "Failed to derive session key" (Some notReady)), a) /\
  WasmCryptoAdapter.encryptVault (Client := string) [x01] "pw" a
  = (Throw (CryptoError "Vault encryption failed" (Some notReady)), a) /\
  WasmCryptoAdapter.decryptVault (Client := string) [x01] "pw" a
  = (Throw (CryptoError "Vault decryption failed: Invalid password or corrupted data"
              (Some notReady)), a) /\
  WasmCryptoAdapter.createIdentity (Client := string) a
  = (Throw (CryptoError "Failed to generate new identity" (Some notReady)), a) /\
  WasmCryptoAdapter.restoreIdentity (Client := string) [x01] [x02] a
  = (Throw (CryptoError "Failed to restore identity from wrapped secret" (Some notReady)), a).
Proof.
  cbv zeta.
  apply (adapter_not_initialized (Client := string)
           (WasmCryptoAdapter.new (Client := string) None tt) "pw" [x01] [x02]).
  left. reflexivity.
Defined.

Lemma adapter_failure_is_crypto_error_witness :
  let e := CryptoError "Vault decryption failed: Invalid password or corrupted data"
             (Some (Foreign "Error: Decryption failed")) in
  let a : WasmCryptoAdapter.Adapter unit :=
    snd (WasmCryptoAdapter.init (Client := string)
           (WasmCryptoAdapter.new (Client := string) None tt)) in
  let a' := snd (WasmCryptoAdapter.decryptVault (Client := string) [x01] "wrong" a) in
  is_CryptoError e /\
  (exists msg cause, e = CryptoError msg (Some cause)) /\
  WasmCryptoAdapter.a_module a' = WasmCryptoAdapter.a_module a /\
  WasmCryptoAdapter.a_isInitialized a' = WasmCryptoAdapter.a_isInitialized a /\
  WasmCryptoAdapter.a_wasmPath a' = WasmCryptoAdapter.a_wasmPath a.
Proof.
  cbv zeta.
  apply (adapter_failure_is_crypto_error (Client := string)).
  right. right. left. exists [x01], "wrong". vm_compute. reflexivity.
Defined.

Lemma adapter_init_outcomes_witness :
  let a : WasmCryptoAdapter.Adapter unit := WasmCryptoAdapter.new (Client := string) None tt in
  let a' := snd (WasmCryptoAdapter.init (Client := string) a) in
  WasmCryptoAdapter.a_wasmPath a' = WasmCryptoAdapter.a_wasmPath a /\
  WasmCryptoAdapter.a_module a' = true /\ WasmCryptoAdapter.a_isInitialized a' = true /\
  WasmCryptoAdapter.init (Client := string) a' = (Ok tt, a').
Proof.
  cbv zeta.
  apply (adapter_init_outcomes (Client := string)
           (WasmCryptoAdapter.new (Client := string) None tt) _ (Ok tt)).
  vm_compute. reflexivity.
Defined.

(** ** What the secret operations persist *)

Section SecretPayload.
Context {S C T Client : Type} `{IStorage S} `{ICryptoPort C Client} `{Platform T}.
Context `{!KeyValueStore S}.
Abbreviation St := (State S C T Client).



End SecretPayload.


(** ** Round trips through the store *)

Section RoundTrips.
Context {S C T Client : Type} `{IStorage S} `{ICryptoPort C Client} `{Platform T}.
Context `{!KeyValueStore S}.
Abbreviation St := (State S C T Client).

Lemma onCrypto_fst {A} (g : C -> Res A * C) (σ : St) (a : A) :
  fst (g (wasm σ)) = Ok a -> onCrypto g σ = (Ok a, set_wasm (snd (g (wasm σ))) σ).
Proof. unfold onCrypto. destruct (g (wasm σ)) as [r c']. cbn. by intros ->. Qed.

Lemma fromBase64_toBase64 (b : bytes) (σ : St) :
  decodes_encoded (T := T) -> Encoding.fromBase64 (Encoding.toBase64 b) σ = (Ok b, σ).
Proof.
  intros Hc. unfold Encoding.fromBase64, Encoding.toBase64. rewrite Hc.
  unfold ret. by rewrite list_byte_of_string_of_list_byte.
Qed.

Lemma register_leaves_trace (pw : string) (σ σ1 : St) (r : RegistrationResult) :
  VaultFacade.register pw σ = (Ok r, σ1) ->
  _isInitialized σ1 = true /\ _isDisposed σ1 = false /\
  exists salt wrapped t0, registration_trace pw r salt wrapped t0 σ1.
Proof.
  unfold VaultFacade.register. intros Hrun.
  apply bind_inv_ok in Hrun as ([] & σ0 & Hg & Hrun).
  apply ensureInitialized_inv_ok in Hg as (-> & Hd & Hi).
  assert (Ki : respects (keeps (@_isInitialized S C T Client))
                 (RegisterIdentityUseCase.execute pw)) by frame.
  assert (Kd : respects (keeps (@_isDisposed S C T Client))
                 (RegisterIdentityUseCase.execute pw)) by frame.
  split; [rewrite (Ki _ _ _ Hrun); exact Hi|]. split; [rewrite (Kd _ _ _ Hrun); exact Hd|].
  clear Ki Kd. unfold RegisterIdentityUseCase.execute in Hrun.
  apply bind_inv_ok in Hrun as (c & σ1' & _ & Hrun).
  apply bind_inv_ok in Hrun as (d & σ2 & _ & Hrun).
  apply bind_inv_ok in Hrun as (salt & σ3 & _ & Hrun).
  apply bind_inv_ok in Hrun as (key & σ4 & H4 & Hrun).
  apply onCrypto_run in H4 as [H4 _].
  apply bind_inv_ok in Hrun as (ref & σ5 & H5 & Hrun).
  unfold new_Uint8Array in H5. injection H5 as <- <-.
  apply bind_inv_ok in Hrun as (keyBytes & σ6 & H6 & Hrun).
  unfold contents in H6. cbn [jsHeap set_jsHeap] in H6.
  rewrite list_lookup_middle in H6 by done. injection H6 as <- <-.
  apply bind_inv_ok in Hrun as (wrapped & σ7 & H7 & Hrun).
  apply onCrypto_run in H7 as [H7 _].
  apply bind_inv_ok in Hrun as (t0 & σ8 & _ & Hrun).
  apply bind_inv_ok in Hrun as (main & σ9 & H9 & Hrun).
  apply onCrypto_run in H9 as [H9 _].
  apply bind_inv_ok in Hrun as (code & σ10 & H10 & Hrun).
  apply bind_inv_ok in Hrun as (recovery & σ11 & H11 & Hrun).
  apply onCrypto_run in H11 as [H11 _].
  apply bind_inv_ok in Hrun as (t & σ12 & _ & Hrun).
  apply bind_inv_ok in Hrun as ([] & σ13 & H13 & Hrun).
  apply onStore_run in H13 as [H13 _]. apply save_writes in H13.
  apply bind_inv_ok in Hrun as ([] & σ14 & H14 & Hrun).
  kept (@store S C T Client) H14 K14.
  injection Hrun as <- <-.
  exists salt, wrapped, t0, c, key, main, recovery, t.
  eexists _, _, _, _. cbn [reg_did reg_recoveryCode].
  split; [exact H4|]. split; [exact H7|]. split; [exact H9|]. split; [exact H11|].
  rewrite K14. exact H13.
Qed.

Lemma onStore_fst {A} (g : S -> Res A * S) (σ : St) (a : A) :
  fst (g (store σ)) = Ok a -> onStore g σ = (Ok a, set_store (snd (g (store σ))) σ).
Proof. unfold onStore. destruct (g (store σ)) as [r s']. cbn. by intros ->. Qed.

Lemma login_opens_trace (pw : string) (r : RegistrationResult) (salt wrapped : bytes)
    (t0 : Z) (σ : St) :
  decodes_encoded (T := T) -> parses_rendered (T := T) (reg_did r) ->
  opens_sealed (C := C) pw -> derives_again (C := C) pw -> unwraps_exported (C := C) ->
  reg_did r <> "" -> _isInitialized σ = true -> _isDisposed σ = false ->
  registration_trace pw r salt wrapped t0 σ ->
  exists info σ2 sd,
    VaultFacade.login pw (Some (reg_did r)) σ = (Ok info, σ2) /\
    info_did info = reg_did r /\ _session σ2 = Some sd /\
    s_did sd = reg_did r /\ password sd = pw /\ secrets sd = ∅.
Proof.
  intros Hcodec Hjson Hopen Hkdf Hwrap Hne Hi Hd
    (c & key & main & recovery & t & w1 & w2 & w3 & w4 & Hkey & Hexp & Hmain & _ & Hget).
  unfold VaultFacade.login. rewrite (bind_ok _ _ _ _ _ (ensureInitialized_ok σ Hd Hi)).
  unfold LoginUseCase.execute.
  rewrite (bind_ok _ _ _ _ _ (login_resolve_given (reg_did r) σ Hne)).
  unfold LoginUseCase.unlock.
  rewrite (bind_ok _ _ _ _ _ (onStore_fst _ _ _ Hget)).
  erewrite bind_ok;
    [| apply try_catch_ok; unfold LoginUseCase.decryptOuter; cbn [wrappedData];
       rewrite (bind_ok _ _ _ _ _ (fromBase64_toBase64 main _ Hcodec));
       apply onCrypto_fst; eapply Hopen; exact Hmain ].
  rewrite Hjson. cbn [i_did].
  destruct (decide (reg_did r = reg_did r)); [|done].
  unfold LoginUseCase.restoreSession. cbn [i_salt i_wrappedSecret i_secrets].
  rewrite (bind_ok _ _ _ _ _ (fromBase64_toBase64 salt _ Hcodec)).
  rewrite (bind_ok _ _ _ _ _ (onCrypto_fst _ _ _ (Hkdf _ _ _ _ Hkey))).
  erewrite bind_ok; [|reflexivity].
  rewrite (bind_ok _ _ _ _ _ (fromBase64_toBase64 wrapped _ Hcodec)).
  erewrite bind_ok; [|reflexivity].
  cbn [jsHeap set_jsHeap]. rewrite list_lookup_middle by done.
  change (default [] (Some key)) with key.
  lazymatch goal with
  | |- context [bind (onCrypto (ICryptoPort.restoreIdentity _ _)) _ ?σx] =>
      destruct (Hwrap c key wrapped w2 (wasm σx) Hexp) as (c' & Hres & Hpk)
  end.
  rewrite (bind_ok _ _ _ _ _ (onCrypto_fst _ _ _ Hres)).
  lazymatch goal with
  | |- context [bind (SessionManager.establish ?a ?k ?d ?p ?sec) _ ?σx] =>
      destruct (SessionManager.establish a k d p sec σx) as [re σe] eqn:He
  end.
  destruct (establish_run _ _ _ _ _ _ _ _ He) as (-> & Es & _).
  rewrite (bind_ok _ _ _ _ _ He).
  destruct (Hpk (wasm σe)) as [pk Hk].
  rewrite (bind_ok _ _ _ _ _ (onCrypto_fst _ _ _ Hk)).
  unfold ret. eexists _, _, _. split; [reflexivity|]. split; [reflexivity|].
  cbn [_session set_wasm]. split; [exact Es|]. done.
Qed.

(** X21.  Registration and login fit together.  Over ports that obey the
    laws of their trade -- the store reads back what it saved, [atob]
    undoes [btoa], the JSON and text codecs undo each other on the payload,
    decryption under the password undoes encryption under it, the key
    derived from a password and a salt is always the same, and a secret
    exported under a key is restored under it -- after a [register] that
    returned and a [lock()], a [login] with the same password and the
    identifier returned succeeds, for that identifier, with no secrets. *)
Theorem register_then_login (pw : string) (σ σ1 : St) (r : RegistrationResult) :
  decodes_encoded (T := T) -> parses_rendered (T := T) (reg_did r) ->
  opens_sealed (C := C) pw -> derives_again (C := C) pw -> unwraps_exported (C := C) ->
  reg_did r <> "" ->
  VaultFacade.register pw σ = (Ok r, σ1) ->
  exists info σ2 sd,
    VaultFacade.login pw (Some (reg_did r)) (snd (VaultFacade.lock σ1)) = (Ok info, σ2) /\
    info_did info = reg_did r /\ _session σ2 = Some sd /\
    s_did sd = reg_did r /\ password sd = pw /\ secrets sd = ∅.
Proof.
  intros Hcodec Hjson Hopen Hkdf Hwrap Hne Hrun.
  apply register_leaves_trace in Hrun as (Hi & Hd & salt & wrapped & t0 & Htrace).
  destruct (VaultFacade.lock σ1) as [rl σl] eqn:Hl. cbn [snd].
  unfold VaultFacade.lock in Hl.
  apply (login_opens_trace pw r salt wrapped t0); try done.
  - by rewrite (clear_keeps_isInitialized _ _ _ Hl).
  - by rewrite (clear_keeps_isDisposed _ _ _ Hl).
  - destruct Htrace as (c & key & main & recovery & t & w1 & w2 & w3 & w4 & ? & ? & ? & ? & Hg).
    exists c, key, main, recovery, t, w1, w2, w3, w4.
    rewrite (clear_keeps_store _ _ _ Hl). done.
Qed.

(** X22.  Recovery does not wrap the private key again.  After a
    [register] under a password, a recovery with the code returned and a
    new password -- over a store that reads back what it saved, and ports
    where [atob] undoes [btoa] and decryption under the code undoes
    encryption under it -- leaves under the new password a payload that
    still holds the salt of the registration and the secret as it was
    wrapped then: under the key derived from the old password.  A login
    with the new password will therefore present that wrapped secret with a
    key derived from the new password and the old salt. *)
Theorem recovery_keeps_old_wrapping (pw : string) (σ σ1 σa σ2 : St)
    (r : RegistrationResult) (o : RecoveryOptions) (res : RecoveryResult) :
  decodes_encoded (T := T) -> opens_sealed (C := C) (reg_recoveryCode r) ->
  reg_did r <> "" ->
  VaultFacade.register pw σ = (Ok r, σ1) ->
  store σa = store σ1 ->
  recoveryCode o = reg_recoveryCode r -> opt_did o = Some (reg_did r) ->
  RecoverAccountUseCase.execute o σa = (Ok res, σ2) ->
  exists c salt key wrapped t0 main' rb' t w1 w2 w3,
    fst (ICryptoPort.deriveSessionKey pw salt w1) = Ok key /\
    fst (ICryptoPort.export_wrapped_secret c key w2) = Ok wrapped /\
    fst (ICryptoPort.encryptVault
           (Platform.TextEncoder_encode (Platform.JSON_stringify
              (mkInternal (reg_did r) (Encoding.toBase64 wrapped) (Encoding.toBase64 salt)
                 ∅ t0))) (newPassword o) w3) = Ok main' /\
    fst (IStorage.get (reg_did r) (store σ2))
    = Ok (Some (mkBlob 1 (reg_did r) (Encoding.toBase64 salt) (Encoding.toBase64 main')
                  (Some rb') t)).
Proof.
  intros Hcodec Hopen Hne Hreg Hstore Hcode Hdid Hrun.
  apply register_leaves_trace in Hreg as (_ & _ & salt & wrapped & t0 & Htrace).
  destruct Htrace as (c & key & main & recovery & t & w1 & w2 & w3 & w4
                      & Hkey & Hexp & _ & Hrec & Hget).
  rewrite <- Hstore in Hget.
  unfold RecoverAccountUseCase.execute in Hrun. rewrite Hdid in Hrun.
  rewrite (bind_ok _ _ _ _ _ (recover_resolve_given (reg_did r) σa Hne)) in Hrun.
  unfold RecoverAccountUseCase.recover in Hrun.
  apply bind_inv_ok in Hrun as (got & σb & Hf & Hrun).
  destruct (fetch_stored _ _ _ _ _ Hget Hf) as [-> _].
  unfold RecoverAccountUseCase.usableRecoveryBlob in Hrun. cbn [recoveryBlob] in Hrun.
  destruct (decide (Encoding.toBase64 recovery = "")); [discriminate Hrun|].
  apply bind_inv_ok in Hrun as (plain & σc & Hopened & Hrun).
  apply try_catch_raise_ok in Hopened.
  rewrite (bind_ok _ _ _ _ _ (fromBase64_toBase64 recovery _ Hcodec)) in Hopened.
  apply onCrypto_run in Hopened as [Hdec _].
  rewrite Hcode, (Hopen _ _ _ _ Hrec) in Hdec. injection Hdec as <-.
  destruct (Platform.JSON_parse _); [|discriminate Hrun].
  apply bind_inv_ok in Hrun as (main' & σd & Henc & Hrun).
  apply onCrypto_run in Henc as [Henc _].
  apply bind_inv_ok in Hrun as ([rb' code] & σe & _ & Hrun).
  apply bind_inv_ok in Hrun as (t' & σf & _ & Hrun).
  apply bind_inv_ok in Hrun as ([] & σg & Hsave & Hrun).
  injection Hrun as _ <-.
  apply onStore_run in Hsave as [Hsave _]. apply save_writes in Hsave.
  cbn [version did Types.salt] in Hsave.
  exists c, salt, key, wrapped, t0, main', rb', t', w1, w2, (wasm σc).
  by repeat split.
Qed.

End RoundTrips.

(** ** The test doubles obey the laws *)

Lemma xorFF_involutive (b : byte) : MockWasmAdapter.xorFF (MockWasmAdapter.xorFF b) = b.
Proof. by destruct b. Qed.

Lemma MockWasmAdapter_opens_sealed (pw : string) :
  pw <> "wrong" -> opens_sealed (C := unit) (Client := string) pw.
Proof.
  intros Hpw p ct w w' [= <-]. cbn.
  destruct (decide (pw = "wrong")); [done|]. cbn. f_equal.
  rewrite map_map. induction p as [|b p IH]; [done|].
  cbn. by rewrite xorFF_involutive, IH.
Qed.

Lemma MockWasmAdapter_derives_again (pw : string) :
  derives_again (C := unit) (Client := string) pw.
Proof. by intros salt k w w'. Qed.

Lemma MockWasmAdapter_unwraps_exported : unwraps_exported (C := unit) (Client := string).
Proof. intros c k ws w w' _. eexists. split; [reflexivity|]. intros w''. by eexists. Qed.

Lemma decodeHex_hexByte (a : ascii) (rest : string) :
  StubPlatform.decodeHex (RecoveryCode.hexByte (byte_of_ascii a) ++ rest)
  = match StubPlatform.decodeHex rest with
    | Some r => Some (String a r)
    | None => None
    end.
Proof. destruct a as [[] [] [] [] [] [] [] []]; reflexivity. Qed.

Lemma encodeHex_cons (a : ascii) (s : string) :
  StubPlatform.encodeHex (String a s)
  = RecoveryCode.hexByte (byte_of_ascii a) ++ StubPlatform.encodeHex s.
Proof.
  unfold StubPlatform.encodeHex.
  change (list_byte_of_string (String a s)) with (byte_of_ascii a :: list_byte_of_string s).
  cbn [map].
  destruct (map RecoveryCode.hexByte (list_byte_of_string s)) eqn:E; [|reflexivity].
  cbn [String.concat]. by rewrite append_empty_r.
Qed.

Lemma StubPlatform_decodes_encoded : decodes_encoded (T := Z).
Proof.
  intros s. cbn. induction s as [|a s IH]; [reflexivity|].
  by rewrite encodeHex_cons, decodeHex_hexByte, IH.
Qed.

Lemma append_cons_assoc (s1 s2 : string) (c : ascii) :
  (s1 ++ String c EmptyString) ++ s2 = s1 ++ String c s2.
Proof.
  induction s1 as [|a s1 IH]; [reflexivity|].
  change (String a ((s1 ++ String c EmptyString) ++ s2) = String a (s1 ++ String c s2)).
  by rewrite IH.
Qed.

Lemma lines_aux_line (s cur rest : string) :
  oneLine s = true ->
  StubPlatform.lines_aux cur (s ++ String (ascii_of_nat 10) rest)
  = (cur ++ s) :: StubPlatform.lines_aux EmptyString rest.
Proof.
  revert cur. induction s as [|c s IH]; intros cur Hs.
  - change (StubPlatform.lines_aux cur (String (ascii_of_nat 10) rest)
            = (cur ++ "") :: StubPlatform.lines_aux EmptyString rest).
    cbn [StubPlatform.lines_aux]. rewrite append_empty_r.
    by destruct (decide (ascii_of_nat 10 = ascii_of_nat 10)).
  - cbn [oneLine] in Hs. apply andb_true_iff in Hs as [Hc Hs].
    change (StubPlatform.lines_aux cur (String c (s ++ String (ascii_of_nat 10) rest))
            = (cur ++ String c s) :: StubPlatform.lines_aux EmptyString rest).
    cbn [StubPlatform.lines_aux].
    destruct (decide (c = ascii_of_nat 10)) as [->|_]; [by rewrite bool_decide_eq_true_2 in Hc|].
    by rewrite IH, append_cons_assoc.
Qed.

Lemma lines_aux_end (s cur : string) :
  oneLine s = true -> StubPlatform.lines_aux cur s = [cur ++ s].
Proof.
  revert cur. induction s as [|c s IH]; intros cur Hs.
  - cbn. by rewrite append_empty_r.
  - cbn [oneLine] in Hs. apply andb_true_iff in Hs as [Hc Hs].
    cbn [StubPlatform.lines_aux].
    destruct (decide (c = ascii_of_nat 10)) as [->|_]; [by rewrite bool_decide_eq_true_2 in Hc|].
    by rewrite IH, append_cons_assoc.
Qed.

Lemma oneLine_hexDigit (n : N) :
  bool_decide (RecoveryCode.hexDigit n = ascii_of_nat 10) = false.
Proof.
  unfold RecoveryCode.hexDigit.
  repeat (match goal with
          | |- context [match ?x with _ => _ end] => destruct x
          end; try reflexivity).
Qed.

Lemma oneLine_encodeHex (s : string) : oneLine (StubPlatform.encodeHex s) = true.
Proof.
  induction s as [|a s IH]; [reflexivity|].
  rewrite encodeHex_cons. unfold RecoveryCode.hexByte.
  change (oneLine (String (RecoveryCode.hexDigit (Byte.to_N (byte_of_ascii a) / 16))
            (String (RecoveryCode.hexDigit (Byte.to_N (byte_of_ascii a) mod 16))
               (StubPlatform.encodeHex s))) = true).
  cbn [oneLine]. by rewrite !oneLine_hexDigit, IH.
Qed.

Lemma oneLine_uint (u : Decimal.uint) :
  oneLine (DecimalString.NilEmpty.string_of_uint u) = true.
Proof. induction u; cbn; done. Qed.

Lemma oneLine_int (t : Z) :
  oneLine (DecimalString.NilZero.string_of_int (Z.to_int t)) = true.
Proof.
  destruct t as [|p|p]; cbn; [done| |].
  - destruct (Pos.to_uint p) eqn:E; cbn; try done; rewrite <- ?E; try apply oneLine_uint;
      rewrite E; cbn; apply oneLine_uint.
  - destruct (Pos.to_uint p) eqn:E; cbn; try done; apply oneLine_uint.
Qed.

Lemma int_of_string_of_Z (t : Z) :
  DecimalString.NilZero.int_of_string (DecimalString.NilZero.string_of_int (Z.to_int t))
  = Some (Z.to_int t).
Proof.
  apply DecimalString.NilZero.isi; destruct t as [|p|p]; cbn; try discriminate;
    intros [= E]; by apply (DecimalPos.Unsigned.to_uint_nonnil p).
Qed.

Lemma StubPlatform_parses_rendered (d : string) :
  oneLine d = true -> parses_rendered (T := Z) d.
Proof.
  intros Hd ws salt t. cbn [Platform.JSON_parse Platform.TextDecoder_decode
    Platform.TextEncoder_encode Platform.JSON_stringify StubPlatform.platform].
  rewrite string_of_list_byte_of_string.
  unfold StubPlatform.parse, StubPlatform.render, StubPlatform.lines.
  cbn [i_did i_wrappedSecret i_salt i_createdAt i_secrets].
  rewrite map_to_list_empty. cbn [flat_map app].
  unfold Encoding.toBase64. cbn [Platform.btoa StubPlatform.platform].
  set (w := StubPlatform.encodeHex (string_of_list_byte ws)).
  set (sa := StubPlatform.encodeHex (string_of_list_byte salt)).
  set (dec := DecimalString.NilZero.string_of_int (Z.to_int t)).
  change (String.concat StubPlatform.newline [d; w; sa; dec])
    with (d ++ String (ascii_of_nat 10) (w ++ String (ascii_of_nat 10)
            (sa ++ String (ascii_of_nat 10) dec))).
  rewrite (lines_aux_line d) by exact Hd.
  rewrite (lines_aux_line w) by apply oneLine_encodeHex.
  rewrite (lines_aux_line sa) by apply oneLine_encodeHex.
  rewrite (lines_aux_end dec) by apply oneLine_int.
  change (EmptyString ++ d) with d. change (EmptyString ++ w) with w.
  change (EmptyString ++ sa) with sa. change (EmptyString ++ dec) with dec.
  unfold dec. rewrite int_of_string_of_Z. cbn [StubPlatform.pairs].
  by rewrite DecimalZ.of_to.
Qed.

Lemma register_then_login_witness :
  let r := mkRegistrationResult "did:p47h:mock-identity"
             "RK-2A2A2A2A-2A2A2A2A-2A2A2A2A-2A2A2A2A" in
  VaultFacade.register "password123" Scenario.ready = (Ok r, Scenario.registered) /\
  exists info σ2 sd,
    VaultFacade.login "password123" (Some (reg_did r)) (snd (VaultFacade.lock Scenario.registered))
    = (Ok info, σ2) /\
    info_did info = reg_did r /\ _session σ2 = Some sd /\
    s_did sd = reg_did r /\ password sd = "password123" /\ secrets sd = ∅.
Proof.
  cbv zeta.
  assert (E : VaultFacade.register "password123" Scenario.ready
              = (Ok (mkRegistrationResult "did:p47h:mock-identity"
                       "RK-2A2A2A2A-2A2A2A2A-2A2A2A2A-2A2A2A2A"), Scenario.registered))
    by (vm_compute; reflexivity).
  split; [exact E|].
  apply (register_then_login "password123" Scenario.ready Scenario.registered
           (mkRegistrationResult "did:p47h:mock-identity"
              "RK-2A2A2A2A-2A2A2A2A-2A2A2A2A-2A2A2A2A")).
  - exact StubPlatform_decodes_encoded.
  - apply StubPlatform_parses_rendered. reflexivity.
  - apply MockWasmAdapter_opens_sealed. discriminate.
  - apply MockWasmAdapter_derives_again.
  - exact MockWasmAdapter_unwraps_exported.
  - discriminate.
  - exact E.
Defined.

Lemma recovery_keeps_old_wrapping_witness :
  let r := mkRegistrationResult "did:p47h:mock-identity"
             "RK-2A2A2A2A-2A2A2A2A-2A2A2A2A-2A2A2A2A" in
  let o := mkRecoveryOptions "RK-2A2A2A2A-2A2A2A2A-2A2A2A2A-2A2A2A2A" "new-password"
             (Some "did:p47h:mock-identity") None in
  let σ2 := snd (RecoverAccountUseCase.execute o Scenario.locked) in
  exists (c : string) salt key wrapped t0 main' rb' t (w1 w2 w3 : unit),
    fst (ICryptoPort.deriveSessionKey "password123" salt w1) = Ok key /\
    fst (ICryptoPort.export_wrapped_secret c key w2) = Ok wrapped /\
    fst (ICryptoPort.encryptVault
           (Platform.TextEncoder_encode (Platform.JSON_stringify
              (mkInternal (reg_did r) (Encoding.toBase64 wrapped) (Encoding.toBase64 salt)
                 ∅ t0))) (newPassword o) w3) = Ok main' /\
    fst (IStorage.get (reg_did r) (store σ2))
    = Ok (Some (mkBlob 1 (reg_did r) (Encoding.toBase64 salt) (Encoding.toBase64 main')
                  (Some rb') t)).
Proof.
  cbv zeta.
  eapply (recovery_keeps_old_wrapping "password123" Scenario.ready Scenario.registered
            Scenario.locked _
            (mkRegistrationResult "did:p47h:mock-identity"
               "RK-2A2A2A2A-2A2A2A2A-2A2A2A2A-2A2A2A2A")
            (mkRecoveryOptions "RK-2A2A2A2A-2A2A2A2A-2A2A2A2A-2A2A2A2A" "new-password"
               (Some "did:p47h:mock-identity") None)).
  - exact StubPlatform_decodes_encoded.
  - apply MockWasmAdapter_opens_sealed. discriminate.
  - discriminate.
  - vm_compute. reflexivity.
  - vm_compute. reflexivity.
  - reflexivity.
  - reflexivity.
  - vm_compute. reflexivity.
Defined.

(** On the real adapter over a WASM module whose unwrapping authenticates:
    a recovery with a new password rewrites the envelope and then throws at
    its own login, and so does every later login with the new password. *)
Example test_recovery_with_authenticated_unwrapping :
  let o := mkRecoveryOptions "RK-2A2A2A2A-2A2A2A2A-2A2A2A2A-2A2A2A2A" "new-password"
             None None in
  let unwrap :=
    CryptoError "Failed to restore identity from wrapped secret"
      (Some (Foreign "Error: Decryption failed")) in
  let σ' := snd (VaultFacade.recoverAccount o Scenario.wasmLocked) in
  fst (RecoverAccountUseCase.execute o Scenario.wasmLocked)
  = Ok (mkRecoveryResult "did:p47h:mock-identity" None) /\
  fst (VaultFacade.recoverAccount o Scenario.wasmLocked) = Throw unwrap /\
  fst (VaultFacade.login "new-password" None σ') = Throw unwrap.
Proof. repeat split; vm_compute; reflexivity. Qed.

(** ** A payload that does not parse *)

Section CorruptPayload.
Context {S C T Client : Type} `{IStorage S} `{ICryptoPort C Client} `{Platform T}.
Abbreviation St := (State S C T Client).



End CorruptPayload.


(** ** vault-react: the event emitter *)

Section EventDelivery.
Import VaultReact.
Context (faulty : nat -> bool).

Lemma forEach_deliver_recorded (ev : VaultEvent) (ls : list nat)
    (em : Emitter (list (nat * VaultEvent))) :
  VaultEventEmitter.forEach ls
    (@VaultEventEmitter.deliver _ (recorder faulty) ev) em
  = (Ok tt,
     mkEmitter (_listeners em) (em_state em) (em_did em) (em_error em)
       (world em ++ map (fun l => (l, ev)) ls)%list
       (console em
        ++ map (fun _ => Foreign "Error: listener failed") (filter (fun l => faulty l) ls))%list).
Proof.
  revert em. induction ls as [|l ls IH]; intros em.
  - cbn. rewrite !app_nil_r. by destruct em.
  - cbn [VaultEventEmitter.forEach]. unfold bind at 1.
    unfold VaultEventEmitter.deliver at 1, try_catch, VaultEventEmitter.invokeListener, modify.
    cbn [call recorder world].
    rewrite filter_cons.
    destruct (faulty l) eqn:Hf; rewrite IH; cbn; rewrite <- !app_assoc; try done.
    all: destruct (decide _) as [Hd|Hd]; cbn in Hd; try done.
Qed.

(** X24.  [emit] reaches every listener.  With listeners that record their
    calls, some of which throw: [emit] returns normally; each subscribed
    listener has been called exactly once, in the order of subscription,
    with the same event, made of the snapshot the emitter holds; the errors
    of those that threw went to the console, one each; and the listeners
    and the snapshot are as before. *)
Theorem emit_reaches_every_listener (ty : VaultEventType)
    (em : Emitter (list (nat * VaultEvent))) :
  @VaultEventEmitter.emit _ (recorder faulty) ty em
  = (Ok tt,
     mkEmitter (_listeners em) (em_state em) (em_did em) (em_error em)
       (world em
        ++ map (fun l => (l, mkVaultEvent ty (em_state em) (em_did em) (em_error em)))
             (_listeners em))%list
       (console em
        ++ map (fun _ => Foreign "Error: listener failed")
             (filter (fun l => faulty l) (_listeners em)))%list).
Proof.
  unfold VaultEventEmitter.emit, VaultEventEmitter.createEvent, bind, gets.
  by rewrite forEach_deliver_recorded.
Qed.

(** X25.  [subscribe] adds the listener unless it is there already -- no
    listener is ever held twice, so none is called twice by [emit] -- and
    calls it at once, and it alone, with a 'state-change' event of the
    current snapshot.  That first call is not guarded: a listener that
    throws makes [subscribe] throw, so that the caller gets no function to
    unsubscribe with, and yet the listener stays subscribed.
    [unsubscribe] removes the listener and no other. *)
Theorem subscribe_outcomes (l : nat) (em : Emitter (list (nat * VaultEvent))) :
  NoDup (_listeners em) ->
  let em' := snd (@VaultEventEmitter.subscribe _ (recorder faulty) l em) in
  let em'' := snd (VaultEventEmitter.unsubscribe l em') in
  fst (@VaultEventEmitter.subscribe _ (recorder faulty) l em)
  = (if faulty l then Throw (Foreign "Error: listener failed") else Ok l) /\
  (l ∈ _listeners em') /\ NoDup (_listeners em') /\
  (forall l', l' ∈ _listeners em -> l' ∈ _listeners em') /\
  world em'
  = (world em ++ [(l, mkVaultEvent StateChange (em_state em) (em_did em) (em_error em))])%list /\
  (l ∉ _listeners em'') /\
  (forall l', l' <> l -> (l' ∈ _listeners em'' <-> l' ∈ _listeners em)).
Proof.
  intros Hnd. cbv zeta.
  unfold VaultEventEmitter.subscribe, VaultEventEmitter.unsubscribe,
    VaultEventEmitter.createEvent, VaultEventEmitter.invokeListener, bind, modify, gets, ret.
  cbn [call recorder world _listeners em_state em_did em_error].
  assert (Hadd : (l ∈ VaultEventEmitter.add l (_listeners em)) /\
                 NoDup (VaultEventEmitter.add l (_listeners em)) /\
                 (forall l', l' ∈ VaultEventEmitter.add l (_listeners em)
                             <-> l' ∈ _listeners em \/ l' = l)).
  { unfold VaultEventEmitter.add. destruct (decide (l ∈ _listeners em)) as [Hin|Hout].
    - split; [done|]. split; [done|]. intros l'. split; [by left|]. by intros [?| ->].
    - split; [apply elem_of_app; right; by apply list_elem_of_singleton|].
      split.
      + apply NoDup_app. split; [done|]. split; [|apply NoDup_singleton].
        intros x Hx Hx'. apply list_elem_of_singleton in Hx' as ->. done.
      + intros l'. rewrite elem_of_app, list_elem_of_singleton. done. }
  destruct Hadd as (Hin & Hnd' & Hiff).
  destruct (faulty l); cbn [fst snd _listeners world];
    (split; [reflexivity|]; split; [exact Hin|]; split; [exact Hnd'|];
     split; [intros l' Hl'; apply Hiff; by left|]; split; [reflexivity|];
     split; [rewrite list_elem_of_filter; by intros [? _]|];
     intros l' Hne; rewrite list_elem_of_filter, Hiff; split;
     [intros [_ [?|?]]; done | intros ?; split; [done | by left]]).
Qed.

End EventDelivery.

Lemma subscribe_outcomes_witness :
  let faulty := fun l => Nat.eqb l 3 in
  let em := VaultReact.mkEmitter [1; 2] VaultReact.SReady None None [] [] in
  let em' := snd (@VaultReact.VaultEventEmitter.subscribe _ (VaultReact.recorder faulty) 3 em) in
  let em'' := snd (VaultReact.VaultEventEmitter.unsubscribe 3 em') in
  fst (@VaultReact.VaultEventEmitter.subscribe _ (VaultReact.recorder faulty) 3 em)
  = Throw (Foreign "Error: listener failed") /\
  (3 ∈ VaultReact._listeners em') /\ NoDup (VaultReact._listeners em') /\
  VaultReact.world em'
  = [(3, VaultReact.mkVaultEvent VaultReact.StateChange VaultReact.SReady None None)] /\
  (3 ∉ VaultReact._listeners em'').
Proof.
  cbv zeta.
  destruct (subscribe_outcomes (fun l => Nat.eqb l 3) 3
              (VaultReact.mkEmitter [1; 2] VaultReact.SReady None None [] []))
    as (H1 & H2 & H3 & _ & H5 & H6 & _).
  - apply (bool_decide_unpack _). vm_compute. exact I.
  - split; [exact H1|]. split; [exact H2|]. split; [exact H3|]. split; [exact H5|exact H6].
Defined.

(** ** vault-react: the controller *)

Section ControllerProps.
Import VaultReact.
Context {S C T Client L : Type}
  `{IStorage S} `{ICryptoPort C Client} `{Platform T} `{Listeners L}.
Abbreviation St := (State S C T Client).
Abbreviation Ctl := (Controller St L).

Lemma forEach_deliver_frame (ev : VaultEvent) (ls : list nat) (em em' : Emitter L)
    (r : Res unit) :
  VaultEventEmitter.forEach ls (VaultEventEmitter.deliver ev) em = (r, em') ->
  r = Ok tt /\ _listeners em' = _listeners em /\ em_state em' = em_state em /\
  em_did em' = em_did em /\ em_error em' = em_error em.
Proof.
  revert em. induction ls as [|l ls IH]; intros em.
  - by intros [= <- <-].
  - cbn [VaultEventEmitter.forEach]. unfold bind at 1.
    unfold VaultEventEmitter.deliver at 1, try_catch, VaultEventEmitter.invokeListener, modify.
    destruct (call l ev (world em)) as [[[]|err] w']; intros E; apply IH in E; cbn in E; exact E.
Qed.

Lemma emit_frame (ty : VaultEventType) (em em' : Emitter L) (r : Res unit) :
  VaultEventEmitter.emit ty em = (r, em') ->
  r = Ok tt /\ _listeners em' = _listeners em /\ em_state em' = em_state em /\
  em_did em' = em_did em /\ em_error em' = em_error em.
Proof.
  unfold VaultEventEmitter.emit, VaultEventEmitter.createEvent, bind, gets.
  apply forEach_deliver_frame.
Qed.

Lemma emit_to_nobody (ty : VaultEventType) (em : Emitter L) :
  _listeners em = [] -> VaultEventEmitter.emit ty em = (Ok tt, em).
Proof.
  intros E. unfold VaultEventEmitter.emit, VaultEventEmitter.createEvent, bind, gets.
  by rewrite E.
Qed.

Lemma onEmitter_emit (ty : VaultEventType) (κ κ' : Ctl) (r : Res unit) :
  VaultController.onEmitter (VaultEventEmitter.emit ty) κ = (r, κ') ->
  r = Ok tt /\ VaultController.face κ' = VaultController.face κ /\
  _listeners (_eventEmitter κ') = _listeners (_eventEmitter κ).
Proof.
  unfold VaultController.onEmitter.
  destruct (VaultEventEmitter.emit ty (_eventEmitter κ)) as [r' em'] eqn:E.
  apply emit_frame in E as (-> & El & _). by intros [= <- <-].
Qed.

Lemma setState_effect (s : VaultState) (d : option (option string))
    (e : option (option exn)) (κ κ' : Ctl) (r : Res unit) :
  VaultController._setState s d e κ = (r, κ') ->
  r = Ok tt /\ c_state κ' = s /\ c_did κ' = default (c_did κ) d /\
  c_error κ' = match e with
               | Some e' => e'
               | None => if decide (s = SError) then c_error κ else None
               end /\
  _vault κ' = _vault κ /\ _storedIdentities κ' = _storedIdentities κ /\
  c_isDisposed κ' = c_isDisposed κ /\
  _listeners (_eventEmitter κ') = _listeners (_eventEmitter κ).
Proof.
  unfold VaultController._setState, VaultController.syncEmitter, bind.
  unfold VaultController.onEmitter at 1, VaultEventEmitter.updateState, modify.
  cbn [_eventEmitter c_state c_did c_error].
  destruct (decide (c_did κ = default (c_did κ) d));
    [destruct (decide (c_state κ = s))|].
  - by intros [= <- <-].
  - intros E. apply onEmitter_emit in E as (-> & [= -> -> -> -> -> ->] & ->). done.
  - intros E. apply onEmitter_emit in E as (-> & [= -> -> -> -> -> ->] & ->). done.
Qed.

Lemma ensureReady_ok (κ : Ctl) (σ : St) :
  _vault κ = Some σ -> c_state κ <> SInit -> c_state κ <> SError ->
  VaultController._ensureReady κ = (Ok tt, κ).
Proof.
  intros Hv Hi He. unfold VaultController._ensureReady. rewrite Hv.
  by destruct (c_state κ).
Qed.

Lemma onVault_run {A} (m : M St A) (κ κ' : Ctl) (σ : St) (r : Res A) :
  _vault κ = Some σ ->
  VaultController.onVault m κ = (r, κ') ->
  exists σ', m σ = (r, σ') /\ _vault κ' = Some σ' /\
             c_state κ' = c_state κ /\ c_did κ' = c_did κ /\ c_error κ' = c_error κ /\
             _eventEmitter κ' = _eventEmitter κ.
Proof.
  intros Hv. unfold VaultController.onVault. rewrite Hv.
  destruct (m σ) as [r' σ']. intros [= <- <-]. by exists σ'.
Qed.

Lemma reportError_effect (err : exn) (κ κ' : Ctl) (r : Res unit) :
  VaultController.reportError err κ = (r, κ') ->
  r = Ok tt /\ c_state κ' = c_state κ /\ c_did κ' = c_did κ /\ c_error κ' = Some err /\
  _vault κ' = _vault κ.
Proof.
  unfold VaultController.reportError, VaultController.syncEmitter, bind, modify.
  unfold VaultController.onEmitter at 1, VaultEventEmitter.updateState, modify.
  cbn [_eventEmitter c_state c_did c_error VaultController.set_error].
  intros E. apply onEmitter_emit in E as (-> & [= -> -> -> -> _ _] & _). done.
Qed.

Lemma recoverAccount_leaves_session (o : RecoveryOptions) (σ σ' : St) (r : RecoveryResult) :
  VaultFacade.recoverAccount o σ = (Ok r, σ') ->
  exists sd, _session σ' = Some sd /\ password sd = newPassword o /\
             VaultFacade.isAuthenticated σ' = (Ok true, σ').
Proof.
  unfold VaultFacade.recoverAccount. intros Hrun.
  apply bind_inv_ok in Hrun as ([] & σ0 & Hinit & Hrun).
  apply bind_inv_ok in Hrun as (result & σ1 & Hrec & Hrun).
  apply bind_inv_ok in Hrun as (info & σ2 & Hlogin & Hrun).
  injection Hrun as <- <-.
  unfold VaultFacade.login in Hlogin.
  apply bind_inv_ok in Hlogin as ([] & σ1' & Hinit' & Hlogin).
  apply ensureInitialized_inv_ok in Hinit' as (-> & Hd1 & Hi1).
  pose proof (login_keeps_isDisposed _ _ _ _ _ Hlogin) as Ed. unfold keeps in Ed.
  apply login_ok in Hlogin as (sd & Hs & Hp & _ & _).
  exists sd. split; [done|]. split; [done|].
  unfold VaultFacade.isAuthenticated, SessionManager.isAuthenticated, bind, gets, ret.
  rewrite Hs, Ed, Hd1. by rewrite bool_decide_eq_true_2.
Qed.

Lemma logout_when_not_unlocked (κ : Ctl) :
  c_state κ <> SUnlocked ->
  c_state (snd (VaultController.logout κ)) = c_state κ /\
  c_error (snd (VaultController.logout κ)) = None /\
  _vault (snd (VaultController.logout κ)) = _vault κ.
Proof.
  intros Hs. destruct (VaultController.logout κ) as [r κ'] eqn:E. cbn [snd].
  revert E. unfold VaultController.logout, bind, gets, modify.
  cbn [c_state _vault VaultController.set_error].
  rewrite (bool_decide_eq_false_2 (c_state κ = SUnlocked)) by done.
  rewrite andb_false_r.
  destruct (bool_decide (is_Some (c_error κ))); [|by intros [= _ <-]].
  unfold VaultController.syncEmitter, ret.
  unfold VaultController.onEmitter at 1, VaultEventEmitter.updateState, modify.
  intros E. apply onEmitter_emit in E as (_ & Hface & _).
  injection Hface as E1 _ E3 E4 _ _. by rewrite E1, E3, E4.
Qed.

(** X26.  After a recovery the controller and the vault disagree.  A
    [recover] that returns leaves the controller 'locked' -- not
    authenticated, with the identifier it had, its [getSecret] refusing with
    'Vault is locked' -- while the vault it holds has logged itself in under
    the new password; and [logout], which locks the vault only from
    'unlocked', leaves that session open. *)
Theorem controller_recover_reports_locked (code newPw key : string) (κ κ' : Ctl) (σ : St) :
  _vault κ = Some σ -> c_state κ <> SInit -> c_state κ <> SError ->
  VaultController.recover code newPw κ = (Ok tt, κ') ->
  c_state κ' = SLocked /\ c_did κ' = c_did κ /\
  VaultController.isAuthenticated κ' = (Ok false, κ') /\
  VaultController.getSecret key κ'
  = (Throw (Foreign "Error: Vault is locked. Please login first."), κ') /\
  exists σ' sd,
    _vault κ' = Some σ' /\ _session σ' = Some sd /\ password sd = newPw /\
    VaultFacade.isAuthenticated σ' = (Ok true, σ') /\
    _vault (snd (VaultController.logout κ')) = Some σ'.
Proof.
  intros Hv Hi He Hrun. unfold VaultController.recover in Hrun.
  rewrite (bind_ok _ _ _ _ _ (ensureReady_ok κ σ Hv Hi He)) in Hrun.
  unfold try_catch in Hrun.
  destruct (bind _ _ κ) as [[[]|err] κ1] eqn:Hbody in Hrun.
  2:{ apply bind_inv in Hrun as [([] & κ2 & _ & Hrun) | (e' & _ & Hrun)]; discriminate Hrun. }
  injection Hrun as ->.
  apply bind_inv_ok in Hbody as (res & κ2 & Hrec & Hset).
  apply (onVault_run _ _ _ _ _ Hv) in Hrec as (σ' & Hrec & Hv2 & Hs2 & Hd2 & He2 & _).
  apply recoverAccount_leaves_session in Hrec as (sd & Hsess & Hpw & Hauth).
  apply setState_effect in Hset as (_ & Hs' & Hd' & He' & Hv' & _).
  cbn [default] in Hd'. change (default (c_did κ2) None) with (c_did κ2) in Hd'.
  assert (Hready : VaultController._ensureReady κ' = (Ok tt, κ')).
  { eapply ensureReady_ok; [by rewrite Hv', Hv2 | by rewrite Hs' | by rewrite Hs']. }
  split; [done|]. split; [by rewrite Hd', Hd2|].
  split; [unfold VaultController.isAuthenticated, gets; by rewrite Hs'|].
  split.
  { unfold VaultController.getSecret, VaultController._ensureAuthenticated.
    unfold bind at 1. unfold bind at 1. rewrite Hready. unfold bind, gets. by rewrite Hs'. }
  exists σ', sd. split; [by rewrite Hv', Hv2|]. split; [done|]. split; [done|].
  split; [done|].
  destruct (logout_when_not_unlocked κ') as (_ & _ & Hlv); [by rewrite Hs'|].
  by rewrite Hlv, Hv', Hv2.
Qed.

Lemma ensureReady_failed (κ : Ctl) (σ : St) (e : exn) :
  _vault κ = Some σ -> c_state κ = SError -> c_error κ = Some e ->
  VaultController._ensureReady κ = (Throw e, κ).
Proof.
  intros Hv Hs He. unfold VaultController._ensureReady. by rewrite Hv, Hs, He.
Qed.

(** X27.  A failed [register] is final for the controller.  When
    [register] throws on a ready controller, the controller is in state
    'error' with that error, and from then on [register], [login],
    [recover], [getSecret] and [saveSecret] all throw that same error
    without reaching the vault.  [logout] clears the error but not the
    state: afterwards they throw 'Vault in error state.' *)
Theorem controller_failed_register_is_final (pw pw2 code key value : string)
    (did : option string) (κ κ' : Ctl) (σ : St) (e : exn) :
  _vault κ = Some σ -> c_state κ <> SInit -> c_state κ <> SError ->
  VaultController.register pw κ = (Throw e, κ') ->
  c_state κ' = SError /\ c_error κ' = Some e /\
  VaultController.register pw2 κ' = (Throw e, κ') /\
  VaultController.login pw2 did κ' = (Throw e, κ') /\
  VaultController.recover code pw2 κ' = (Throw e, κ') /\
  VaultController.getSecret key κ' = (Throw e, κ') /\
  VaultController.saveSecret key value κ' = (Throw e, κ') /\
  c_state (snd (VaultController.logout κ')) = SError /\
  fst (VaultController.login pw2 did (snd (VaultController.logout κ')))
  = Throw (Foreign "Error: Vault in error state.").
Proof.
  intros Hv Hi He Hrun. unfold VaultController.register in Hrun.
  rewrite (bind_ok _ _ _ _ _ (ensureReady_ok κ σ Hv Hi He)) in Hrun.
  unfold try_catch in Hrun.
  destruct (bind _ _ κ) as [[res|err] κ1] eqn:Hbody in Hrun; [discriminate Hrun|].
  assert (Hv1 : exists σ1, _vault κ1 = Some σ1).
  { apply bind_inv in Hbody as [(res & κ2 & Hreg & Hbody) | (e' & Hreg & _)];
      apply (onVault_run _ _ _ _ _ Hv) in Hreg as (σ2 & _ & Hv2 & _); [|eauto].
    apply bind_inv in Hbody as [(ids & κ3 & Hids & Hbody) | (e' & Hids & _)];
      apply (onVault_run _ _ _ _ _ Hv2) in Hids as (σ3 & _ & Hv3 & _); [|eauto].
    apply bind_inv in Hbody as [([] & κ4 & Hmod & Hbody) | (e' & Hmod & _)];
      [|discriminate Hmod].
    injection Hmod as <-.
    apply bind_inv in Hbody as [([] & κ5 & Hset & Hbody) | (e' & Hset & _)];
      [discriminate Hbody|].
    by apply setState_effect in Hset as (? & _). }
  destruct Hv1 as [σ1 Hv1].
  apply bind_inv in Hrun as [([] & κ2 & Hset & Hrun) | (e' & Hset & _)];
    [|by apply setState_effect in Hset as (? & _)].
  injection Hrun as -> ->.
  apply setState_effect in Hset as (_ & Hs' & _ & He' & Hv' & _).
  rewrite Hv1 in Hv'.
  pose proof (ensureReady_failed κ' σ1 e Hv' Hs' He') as Hfail.
  split; [done|]. split; [done|].
  split; [unfold VaultController.register; by rewrite (bind_throw _ _ _ _ _ Hfail)|].
  split; [unfold VaultController.login; by rewrite (bind_throw _ _ _ _ _ Hfail)|].
  split; [unfold VaultController.recover; by rewrite (bind_throw _ _ _ _ _ Hfail)|].
  assert (Hauth : VaultController._ensureAuthenticated κ' = (Throw e, κ'))
    by (unfold VaultController._ensureAuthenticated; by rewrite (bind_throw _ _ _ _ _ Hfail)).
  split; [unfold VaultController.getSecret; by rewrite (bind_throw _ _ _ _ _ Hauth)|].
  split; [unfold VaultController.saveSecret; by rewrite (bind_throw _ _ _ _ _ Hauth)|].
  destruct (logout_when_not_unlocked κ') as (Hls & Hle & Hlv); [by rewrite Hs'|].
  split; [by rewrite Hls|].
  unfold VaultController.login, bind at 1, VaultController._ensureReady.
  by rewrite Hlv, Hv', Hls, Hs', Hle.
Qed.

(** X28.  A failed [login] is not: the controller keeps its state and its
    identifier, records the error, and stays ready for another attempt.
    The error is the one the vault threw. *)
Theorem controller_failed_login_keeps_state (pw : string) (did : option string)
    (κ κ' : Ctl) (σ : St) (e : exn) :
  _vault κ = Some σ -> c_state κ <> SInit -> c_state κ <> SError ->
  VaultController.login pw did κ = (Throw e, κ') ->
  c_state κ' = c_state κ /\ c_did κ' = c_did κ /\ c_error κ' = Some e /\
  VaultController._ensureReady κ' = (Ok tt, κ') /\
  exists σ', _vault κ' = Some σ' /\ VaultFacade.login pw did σ = (Throw e, σ').
Proof.
  intros Hv Hi He Hrun. unfold VaultController.login in Hrun.
  rewrite (bind_ok _ _ _ _ _ (ensureReady_ok κ σ Hv Hi He)) in Hrun.
  unfold try_catch in Hrun.
  destruct (bind _ _ κ) as [[res|err] κ1] eqn:Hbody in Hrun; [discriminate Hrun|].
  apply bind_inv in Hbody as [(info & κ2 & Hlogin & Hbody) | (e' & Hlogin & [= <-])].
  { by apply setState_effect in Hbody as (? & _). }
  apply (onVault_run _ _ _ _ _ Hv) in Hlogin as (σ' & Hlogin & Hv1 & Hs1 & Hd1 & _).
  apply bind_inv in Hrun as [([] & κ2 & Hrep & Hrun) | (e' & Hrep & _)];
    [|by apply reportError_effect in Hrep as (? & _)].
  injection Hrun as -> ->.
  apply reportError_effect in Hrep as (_ & Hs' & Hd' & He' & Hv').
  split; [by rewrite Hs'|]. split; [by rewrite Hd'|]. split; [done|].
  split.
  - eapply ensureReady_ok; [by rewrite Hv', Hv1 | by rewrite Hs', Hs1 | by rewrite Hs', Hs1].
  - exists σ'. split; [by rewrite Hv'|done].
Qed.

Lemma setState_to_nobody (s : VaultState) (d : option (option string))
    (e : option (option exn)) (κ : Ctl) :
  _listeners (_eventEmitter κ) = [] ->
  world (_eventEmitter (snd (VaultController._setState s d e κ))) = world (_eventEmitter κ) /\
  console (_eventEmitter (snd (VaultController._setState s d e κ)))
  = console (_eventEmitter κ).
Proof.
  intros Hl.
  unfold VaultController._setState, VaultController.syncEmitter, bind.
  unfold VaultController.onEmitter at 1, VaultEventEmitter.updateState, modify.
  cbn [_eventEmitter c_state c_did c_error].
  destruct (decide (c_did κ = default (c_did κ) d));
    [destruct (decide (c_state κ = s)); [done|]|];
    unfold VaultController.onEmitter; cbn [_eventEmitter];
    rewrite emit_to_nobody by exact Hl; done.
Qed.

(** X29.  [dispose] of the controller tells nobody.  It drops the
    listeners before it resets the state, so that no listener is called;
    it disposes of the vault and lets go of it; afterwards the controller is
    in state 'init' with no identifier and no error, a second [dispose]
    does nothing, and [login] refuses with 'Vault not initialized'. *)
Theorem controller_dispose_tells_nobody (pw : string) (did : option string) (κ : Ctl) :
  c_isDisposed κ = false ->
  let κ' := snd (VaultController.dispose κ) in
  fst (VaultController.dispose κ) = Ok tt /\
  world (_eventEmitter κ') = world (_eventEmitter κ) /\
  console (_eventEmitter κ') = console (_eventEmitter κ) /\
  _listeners (_eventEmitter κ') = [] /\
  VaultController.face κ' = (SInit, None, None, None, _storedIdentities κ, true) /\
  VaultController.dispose κ' = (Ok tt, κ') /\
  VaultController.login pw did κ'
  = (Throw (Foreign "Error: Vault not initialized. Wrap your app in <P47hProvider>."), κ').
Proof.
  intros Hd. cbv zeta.
  destruct (VaultController.dispose κ) as [r κ'] eqn:E. cbn [fst snd].
  assert (Hrun : exists κ2 : Ctl,
            VaultController._setState SInit (Some None) (Some None) κ2 = (r, κ') /\
            _listeners (_eventEmitter κ2) = [] /\ _vault κ2 = None /\
            c_isDisposed κ2 = true /\ _storedIdentities κ2 = _storedIdentities κ /\
            world (_eventEmitter κ2) = world (_eventEmitter κ) /\
            console (_eventEmitter κ2) = console (_eventEmitter κ)).
  { revert E. unfold VaultController.dispose, bind, gets, modify. rewrite Hd.
    unfold VaultController.onEmitter at 1, VaultEventEmitter.clear, modify.
    cbn [_eventEmitter _vault c_state c_did c_error _storedIdentities c_isDisposed].
    destruct (_vault κ) as [σ|] eqn:Hv.
    - rewrite bool_decide_eq_true_2 by eauto.
      unfold VaultController.onVault. cbn [_vault].
      pose proof (dispose_returns σ) as Hr.
      destruct (VaultFacade.dispose σ) as [[[]|e] σd]; [|discriminate Hr].
      intros E. eexists. split; [exact E|]. done.
    - rewrite bool_decide_eq_false_2 by (intros [? ?]; done).
      intros E. eexists. split; [exact E|]. done. }
  destruct Hrun as (κ2 & Hset & Hl & Hv & Hdisp & Hids & Hw & Hc).
  destruct (setState_to_nobody SInit (Some None) (Some None) κ2 Hl) as [Hw' Hc'].
  rewrite Hset in Hw', Hc'. cbn [snd] in Hw', Hc'.
  apply setState_effect in Hset as (-> & Hs' & Hd' & He' & Hv' & Hids' & Hdisp' & Hl').
  cbn [default] in Hd'. change (default (c_did κ2) (Some None)) with (@None string) in Hd'.
  split; [done|]. split; [by rewrite Hw'|]. split; [by rewrite Hc'|].
  split; [by rewrite Hl'|].
  split; [unfold VaultController.face; by rewrite Hs', Hd', He', Hv', Hv, Hids', Hids, Hdisp', Hdisp|].
  split.
  - unfold VaultController.dispose, bind, gets. by rewrite Hdisp', Hdisp.
  - unfold VaultController.login, bind, VaultController._ensureReady. by rewrite Hv', Hv.
Qed.

End ControllerProps.

Lemma controller_recover_reports_locked_witness :
  let κ' := snd (VaultReact.VaultController.recover
                   "RK-2A2A2A2A-2A2A2A2A-2A2A2A2A-2A2A2A2A" "pw2"
                   ControllerScenario.locked) in
  VaultReact.c_state κ' = VaultReact.SLocked /\
  VaultReact.VaultController.isAuthenticated κ' = (Ok false, κ') /\
  VaultReact.VaultController.getSecret "api_key" κ'
  = (Throw (Foreign "Error: Vault is locked. Please login first."), κ') /\
  exists σ' sd,
    VaultReact._vault κ' = Some σ' /\ _session σ' = Some sd /\ password sd = "pw2" /\
    VaultFacade.isAuthenticated σ' = (Ok true, σ').
Proof.
  cbv zeta.
  destruct (controller_recover_reports_locked
              "RK-2A2A2A2A-2A2A2A2A-2A2A2A2A-2A2A2A2A" "pw2" "api_key"
              ControllerScenario.locked
              (snd (VaultReact.VaultController.recover
                      "RK-2A2A2A2A-2A2A2A2A-2A2A2A2A" "pw2"
                      ControllerScenario.locked))
              Scenario.locked)
    as (H1 & _ & H3 & H4 & σ' & sd & H5 & H6 & H7 & H8 & _).
  - reflexivity.
  - discriminate.
  - discriminate.
  - vm_compute. reflexivity.
  - split; [exact H1|]. split; [exact H3|]. split; [exact H4|].
    exists σ', sd. split; [exact H5|]. split; [exact H6|]. split; [exact H7|exact H8].
Defined.

Lemma controller_failed_register_is_final_witness :
  let e := InitializationError "VaultFacade not initialized. Call init() first." None in
  let κ' := snd (VaultReact.VaultController.register "password123"
                   ControllerScenario.unprepared) in
  VaultReact.c_state κ' = VaultReact.SError /\ VaultReact.c_error κ' = Some e /\
  VaultReact.VaultController.login "password123" None κ' = (Throw e, κ') /\
  VaultReact.c_state (snd (VaultReact.VaultController.logout κ')) = VaultReact.SError.
Proof.
  cbv zeta.
  destruct (controller_failed_register_is_final "password123" "password123" "code" "k" "v"
              None ControllerScenario.unprepared
              (snd (VaultReact.VaultController.register "password123"
                      ControllerScenario.unprepared))
              Scenario.fresh
              (InitializationError "VaultFacade not initialized. Call init() first." None))
    as (H1 & H2 & _ & H4 & _ & _ & _ & H8 & _).
  - reflexivity.
  - discriminate.
  - discriminate.
  - vm_compute. reflexivity.
  - split; [exact H1|]. split; [exact H2|]. split; [exact H4|exact H8].
Defined.

Lemma controller_failed_login_keeps_state_witness :
  let e := AuthenticationError "Invalid password or corrupted vault" in
  let κ' := snd (VaultReact.VaultController.login "wrong" None ControllerScenario.locked) in
  VaultReact.c_state κ' = VaultReact.SLocked /\ VaultReact.c_error κ' = Some e /\
  VaultReact.VaultController._ensureReady κ' = (Ok tt, κ').
Proof.
  cbv zeta.
  destruct (controller_failed_login_keeps_state "wrong" None ControllerScenario.locked
              (snd (VaultReact.VaultController.login "wrong" None ControllerScenario.locked))
              Scenario.locked
              (AuthenticationError "Invalid password or corrupted vault"))
    as (H1 & _ & H3 & H4 & _).
  - reflexivity.
  - discriminate.
  - discriminate.
  - vm_compute. reflexivity.
  - split; [exact H1|]. split; [exact H3 | exact H4].
Defined.

Lemma controller_dispose_tells_nobody_witness :
  let κ' := snd (VaultReact.VaultController.dispose ControllerScenario.locked) in
  fst (VaultReact.VaultController.dispose ControllerScenario.locked) = Ok tt /\
  VaultReact._listeners (VaultReact._eventEmitter κ') = [] /\
  VaultReact.VaultController.face κ'
  = (VaultReact.SInit, None, None, None, ["did:p47h:mock-identity"], true) /\
  VaultReact.VaultController.dispose κ' = (Ok tt, κ').
Proof.
  cbv zeta.
  destruct (controller_dispose_tells_nobody "pw" None ControllerScenario.locked)
    as (H1 & _ & _ & H4 & H5 & H6 & _).
  - reflexivity.
  - split; [exact H1|]. split; [exact H4|]. split; [exact H5|exact H6].
Defined.

(** ** The IndexedDB adapter *)

Section Browser.
Import BrowserStorage.
Context {D : Type} `{IndexedDB D}.

Lemma rethrow_is_StorageError (e : exn) : instanceof (rethrow e) StorageErrorC = true.
Proof. unfold rethrow. by destruct (instanceof e StorageErrorC) eqn:E. Qed.

Lemma withStore_throws {A} (callback : D -> Completion A * D) (d d' : D) (e : exn) :
  withStore callback d = (Throw e, d') -> instanceof e StorageErrorC = true.
Proof.
  unfold withStore.
  destruct (open d) as [[| |cause|e0] d1].
  - destruct (callback d1) as [[result|cause|cause|e0] d2]; intros [= <- <-];
      try reflexivity. apply rethrow_is_StorageError.
  - by intros [= <- <-].
  - by intros [= <- <-].
  - intros [= <- <-]. apply rethrow_is_StorageError.
Qed.

(** X30.  Whatever an operation of the IndexedDB adapter throws is a
    StorageError: the rejections of the opening and of the transaction are
    such errors, a StorageError thrown on the way is passed on, and anything
    else is wrapped into one.  And [save] refuses an envelope whose [did]
    is not the key it is saved under, with a StorageError, before it opens
    the database. *)
Theorem browser_storage_failures (q : Request) (d d' : D) (r : Res unit) :
  perform q d = (r, d') ->
  match r with
  | Throw e => instanceof e StorageErrorC = true
  | Ok _ => True
  end /\
  match q with
  | Save key data =>
      if decide (did data = key) then True
      else r = Throw (StorageError ("Integrity check: Key " ++ key ++ " does not match DID "
                                      ++ did data) None) /\ d' = d
  | _ => True
  end.
Proof.
  destruct q as [key data|key|key| |]; cbn [perform].
  - unfold save. destruct (decide (did data = key)) as [Heq|Hne].
    + intros E. split; [|done]. destruct r as [[]|e]; [done|]. by apply withStore_throws in E.
    + intros [= <- <-]. done.
  - unfold get, bind.
    destruct (withStore (idb_get key) d) as [[b|e] d1] eqn:E; intros [= <- <-].
    + done.
    + split; [|done]. by apply withStore_throws in E.
  - unfold remove. intros E. split; [|done]. destruct r as [[]|e]; [done|].
    by apply withStore_throws in E.
  - unfold listKeys, bind.
    destruct (withStore getAllKeys d) as [[ks|e] d1] eqn:E; intros [= <- <-].
    + done.
    + split; [|done]. by apply withStore_throws in E.
  - unfold clear. intros E. split; [|done]. destruct r as [[]|e]; [done|].
    by apply withStore_throws in E.
Qed.

End Browser.

Lemma browser_storage_failures_witness :
  let blob := mkBlob 1 "did:p47h:mock-identity" "" "" None 0 in
  let e := StorageError "Integrity check: Key did:p47h:other does not match DID did:p47h:mock-identity"
             None in
  let d : list (string * EncryptedVaultBlob) := [("did:p47h:mock-identity", blob)] in
  BrowserStorage.perform (BrowserStorage.Save "did:p47h:other" blob) d = (Throw e, d) /\
  instanceof e StorageErrorC = true.
Proof.
  cbv zeta.
  assert (E : BrowserStorage.perform
                (BrowserStorage.Save "did:p47h:other"
                   (mkBlob 1 "did:p47h:mock-identity" "" "" None 0))
                [("did:p47h:mock-identity", mkBlob 1 "did:p47h:mock-identity" "" "" None 0)]
              = (Throw (StorageError
                   "Integrity check: Key did:p47h:other does not match DID did:p47h:mock-identity"
                   None),
                 [("did:p47h:mock-identity", mkBlob 1 "did:p47h:mock-identity" "" "" None 0)]))
    by (vm_compute; reflexivity).
  split; [exact E|].
  exact (proj1 (browser_storage_failures _ _ _ _ E)).
Defined.
